(** * listalyze: inferring the numbering scheme of a list of labels

    A shallow embedding of [listalyze.py] (Python 2) and the properties
    of its scheme inference, ordinal conversion and default-order
    detection.

    Conventions of the embedding.
    - A [unicode] string is the list of its code points, each an [N].
    - A Python value is a [pyobj]; the cells of [numbers_list] are
      [pyobj]s, since the source overwrites them in place, first with
      trimmed strings and at the end with integers.
    - A statement either completes ([Normal]), executes a [return] of
      [listalyze] ([Return]) or raises ([Raise]); [outcome] threads the
      three through the loops.
    - Python sets and dicts are stdpp's [gset] and [gmap]. *)

From Stdlib Require Import ZArith NArith Ascii String List Lia ZifyBool.
From Stdlib Require Import DecimalNat DecimalString.
From stdpp Require Import gmap strings list fin_maps.

Local Open Scope string_scope.
Local Open Scope list_scope.

(** ** Python values *)

Module Py.

(** The Python 2 values that the model lets a caller pass or that
    [listalyze] returns.  [PyStr] is a byte string, [PyUnicode] a text
    string.  [PyInt z] is the integer [z] as Python 2 holds it: an
    [int] when [z] is in the range of [int], and a [long] otherwise,
    since [int()] and the integer arithmetic promote the values that
    leave the range.  [PyLong z] is a [long] whatever its value, such as
    the literal [5L]. *)
#[warnings="-register-all"] Inductive pyobj : Type :=
  | PyNone
  | PyBool (b : bool)
  | PyInt (z : Z)
  | PyLong (z : Z)
  | PyStr (s : string)
  | PyUnicode (s : list N)
  | PyList (l : list pyobj)
  | PyTuple (l : list pyobj).

(** [sys.maxint], the largest [int]: [2^63 - 1] on the 64-bit Unix
    builds of CPython 2 ([2^31 - 1] on its 32-bit builds and on
    Windows).  The smallest [int] is [-sys.maxint - 1]. *)
Definition maxint : Z := 2 ^ 63 - 1.

(** [type( o ).__name__] *)
Definition type_name (o : pyobj) : string :=
  match o with
  | PyNone => "NoneType"
  | PyBool _ => "bool"
  | PyInt z => if ((- maxint - 1 <=? z) && (z <=? maxint))%Z then "int" else "long"
  | PyLong _ => "long"
  | PyStr _ => "str"
  | PyUnicode _ => "unicode"
  | PyList _ => "list"
  | PyTuple _ => "tuple"
  end.

(** The items an iteration over [o] produces, [None] when [o] is not
    iterable.  A string iterates over its one-character substrings. *)
Definition py_iter (o : pyobj) : option (list pyobj) :=
  match o with
  | PyList l | PyTuple l => Some l
  | PyUnicode s => Some ((λ ch, PyUnicode [ch]) <$> s)
  | PyStr s => Some ((λ c, PyStr (String c EmptyString)) <$> list_ascii_of_string s)
  | PyNone | PyBool _ | PyInt _ | PyLong _ => None
  end.

Inductive exn : Type :=
  | TypeError (msg : string)
  | ValueError
  | KeyError
  | IndexError
  | AttributeError.

(** The triple [(numbering_type, value_list, default_order)]. *)
Definition result : Type := option string * list pyobj * bool.

Inductive outcome (A : Type) : Type :=
  | Normal (a : A)
  | Return (r : result)
  | Raise (e : exn).
Arguments Normal {A} a.
Arguments Return {A} r.
Arguments Raise {A} e.

Definition bind {A B} (c : outcome A) (k : A → outcome B) : outcome B :=
  match c with
  | Normal a => k a
  | Return r => Return r
  | Raise e => Raise e
  end.

(** [for x in xs: body], the loop variables being the state [s]. *)
Fixpoint for_each {A S} (xs : list A) (body : A → S → outcome S) (s : S)
  : outcome S :=
  match xs with
  | [] => Normal s
  | x :: xs' => bind (body x s) (for_each xs' body)
  end.

(** [l[i]] *)
Definition getitem {A} (l : list A) (i : nat) : outcome A :=
  match l !! i with
  | Some x => Normal x
  | None => Raise IndexError
  end.

(** [d[k]] *)
Definition dict_get {V} (d : gmap string V) (k : string) : outcome V :=
  match d !! k with
  | Some v => Normal v
  | None => Raise KeyError
  end.

(** [s.remove( x )] *)
Definition set_remove (x : string) (s : gset string) : outcome (gset string) :=
  if decide (x ∈ s) then Normal (s ∖ {[x]}) else Raise KeyError.

(** [listalyze] uses [len], indexing, slicing and iteration on cells of
    [numbers_list] that its first loop has checked to be unicode
    strings.  [as_unicode] reads a cell as such a string; on any other
    cell the model raises. *)
Definition as_unicode (o : pyobj) : outcome (list N) :=
  match o with
  | PyUnicode s => Normal s
  | _ => Raise AttributeError
  end.

(** [x != z] for an integer [z] *)
Definition py_ne_int (x : pyobj) (z : Z) : bool :=
  match x with
  | PyInt v | PyLong v => negb (v =? z)%Z
  | PyBool b => negb ((if b then 1 else 0) =? z)%Z
  | _ => true
  end.

End Py.
Export Py.

Declare Scope outcome_scope.
Delimit Scope outcome_scope with outcome.
Notation "x <- c ;; k" := (bind c (λ x, k))
  (at level 100, c at next level, right associativity) : outcome_scope.
Local Open Scope outcome_scope.

(** ** Unicode strings *)

Module Unicode.

(** A literal [u'...'] with ASCII content. *)
Definition u (s : string) : list N := N_of_ascii <$> list_ascii_of_string s.

(** [ord( c )] for an ASCII character *)
Definition ord (c : ascii) : N := N_of_ascii c.

(** The characters that [unicode.strip()] removes in CPython 2
    ([_PyUnicode_IsWhitespace]). *)
Definition isspace (ch : N) : bool :=
  ((9 <=? ch) && (ch <=? 13) || (28 <=? ch) && (ch <=? 32)
   || (ch =? 133) || (ch =? 160) || (ch =? 5760) || (ch =? 6158)
   || (8192 <=? ch) && (ch <=? 8202) || (ch =? 8232) || (ch =? 8233)
   || (ch =? 8239) || (ch =? 8287) || (ch =? 12288))%N.

Fixpoint lstrip (s : list N) : list N :=
  match s with
  | ch :: rest => if isspace ch then lstrip rest else s
  | [] => []
  end.

Definition rstrip (s : list N) : list N := rev (lstrip (rev s)).

(** [s.strip()] *)
Definition strip (s : list N) : list N := rstrip (lstrip s).

(** [s[-1]] *)
Definition getlast (s : list N) : outcome N :=
  match last s with
  | Some ch => Normal ch
  | None => Raise IndexError
  end.

(** [s[:-1]] *)
Definition slice_init (s : list N) : list N := take (length s - 1) s.

(** [s.upper()], on ASCII letters; other characters are left as they
    are (CPython also maps lowercase letters outside ASCII, none of
    which belongs to a character set of a scheme). *)
Definition upper_char (ch : N) : N :=
  if ((97 <=? ch) && (ch <=? 122))%N then (ch - 32)%N else ch.

Definition upper (s : list N) : list N := upper_char <$> s.

Definition digit_value (ch : N) : option Z :=
  if ((48 <=? ch) && (ch <=? 57))%N then Some (Z.of_N ch - 48)%Z else None.

Fixpoint int_digits (acc : Z) (s : list N) : option Z :=
  match s with
  | [] => Some acc
  | ch :: rest =>
      match digit_value ch with
      | Some d => int_digits (acc * 10 + d) rest
      | None => None
      end
  end.

(** [int( s )] on the strings made of ASCII digits; any other string
    is reported as [ValueError] (CPython also accepts a sign,
    surrounding blanks and the digits of other scripts). *)
Definition py_int (s : list N) : outcome Z :=
  match s with
  | [] => Raise ValueError
  | _ => match int_digits 0 s with
         | Some z => Normal z
         | None => Raise ValueError
         end
  end.

(** ['%d' % i] *)
Definition format_d (i : nat) : string := NilZero.string_of_uint (Nat.to_uint i).

End Unicode.
Export Unicode.

(** ** The module [listalyze] *)

(** *** Converters for numbering schemes *)

Definition convert_decimal (number : list N) : outcome Z := py_int number.

Definition convert_lower_alpha (number : list N) : Z :=
  fold_left (λ result ch, result * 26 + (Z.of_N ch - Z.of_N (ord "a") + 1))%Z number 0%Z.

Definition convert_upper_alpha (number : list N) : Z :=
  fold_left (λ result ch, result * 26 + (Z.of_N ch - Z.of_N (ord "A") + 1))%Z number 0%Z.

Definition convert_mixed_alpha (number : list N) : Z :=
  convert_upper_alpha (upper number).

Definition scheme_converters : gmap string (list N → outcome Z) :=
  {[ "decimal" := convert_decimal;
     "lower-alpha" := λ number, Normal (convert_lower_alpha number);
     "upper-alpha" := λ number, Normal (convert_upper_alpha number);
     "mixed-alpha" := λ number, Normal (convert_mixed_alpha number) ]}.

(** *** Character sets for numbering schemes *)

Definition digits : string := "0123456789".
Definition ascii_lowercase : string := "abcdefghijklmnopqrstuvwxyz".
Definition ascii_uppercase : string := "ABCDEFGHIJKLMNOPQRSTUVWXYZ".

Definition scheme_character_sets : gmap string (gset N) :=
  {[ "decimal" := list_to_set (u digits);
     "lower-alpha" := list_to_set (u ascii_lowercase);
     "upper-alpha" := list_to_set (u ascii_uppercase);
     "mixed-alpha" := list_to_set (u (ascii_lowercase +:+ ascii_uppercase)) ]}.

Definition all_scheme_names : gset string := dom scheme_character_sets.

(** The inner loop of [categorize_number]: the first character outside
    [charset] removes [scheme_name] and breaks. *)
Fixpoint categorize_scan (charset : gset N) (scheme_name : string)
    (number : list N) (schemes : gset string) : outcome (gset string) :=
  match number with
  | [] => Normal schemes
  | ch :: rest =>
      if decide (ch ∈ charset)
      then categorize_scan charset scheme_name rest schemes
      else set_remove scheme_name schemes
  end.

(** The body of the outer loop of [categorize_number]. *)
Definition categorize_step (number : list N) (scheme_name : string)
    (schemes : gset string) : outcome (gset string) :=
  charset <- dict_get scheme_character_sets scheme_name ;;
  categorize_scan charset scheme_name number schemes.

(** The loop visits the keys of the dict in the order of [elements];
    [categorize_number_any_order] shows that the order is immaterial. *)
Definition categorize_number (number : list N) : outcome (gset string) :=
  let schemes := all_scheme_names in
  for_each (elements (dom scheme_character_sets)) (categorize_step number) schemes.

(** *** [listalyze] *)

Definition dq : string := String "034"%char EmptyString.

Definition not_iterable_message (numbers : pyobj) : string :=
  "'" +:+ type_name numbers +:+ "' object is not iterable ("
  +:+ dq +:+ "numbers" +:+ dq +:+ " parameter)".

Definition not_unicode_message (number : pyobj) (i : nat) : string :=
  "'" +:+ type_name number +:+ "' object is not a unicode string "
  +:+ "(item with index " +:+ format_d i +:+ " returned from "
  +:+ dq +:+ "numbers" +:+ dq +:+ " iterable)".

(** Lines 196-201: make a list from the [numbers] iterable. *)
Definition listalyze_make_list (numbers : pyobj) : outcome (list pyobj) :=
  match py_iter numbers with
  | Some items => Normal items
  | None => Raise (TypeError (not_iterable_message numbers))
  end.

(** Lines 211-217: only accept unicode strings, and strip them. *)
Definition listalyze_check_unicode (nl_iter : list nat)
    (numbers_list : list pyobj) : outcome (list pyobj) :=
  for_each nl_iter
    (λ i numbers_list,
       number <- getitem numbers_list i ;;
       match number with
       | PyUnicode s => Normal (<[i := PyUnicode (strip s)]> numbers_list)
       | _ => Raise (TypeError (not_unicode_message number i))
       end)
    numbers_list.

Definition dot : N := ord ".".

(** Lines 219-234: the trailing dots. *)
Definition listalyze_dots (require_dot : bool) (dont_recognize_scheme : result)
    (nl_iter : list nat) (numbers_list : list pyobj) : outcome (list pyobj) :=
  if require_dot then
    for_each nl_iter
      (λ i numbers_list,
         number <- bind (getitem numbers_list i) as_unicode ;;
         if (length number <? 2)%nat then Return dont_recognize_scheme else
         last_ch <- getlast number ;;
         if negb (last_ch =? dot)%N then Return dont_recognize_scheme else
         Normal (<[i := PyUnicode (slice_init number)]> numbers_list))
      numbers_list
  else
    for_each nl_iter
      (λ i numbers_list,
         number <- bind (getitem numbers_list i) as_unicode ;;
         if (length number <? 1)%nat then Return dont_recognize_scheme else
         last_ch <- getlast number ;;
         let numbers_list :=
           if (last_ch =? dot)%N
           then <[i := PyUnicode (slice_init number)]> numbers_list
           else numbers_list in
         number <- bind (getitem numbers_list i) as_unicode ;;
         if bool_decide (number = []) then Return dont_recognize_scheme else
         Normal numbers_list)
      numbers_list.

(** Lines 237-240: the schemes that match every number. *)
Definition listalyze_find_schemes (numbers_list : list pyobj)
  : outcome (gset string) :=
  for_each numbers_list
    (λ number number_schemes,
       number <- as_unicode number ;;
       schemes <- categorize_number number ;;
       Normal (number_schemes ∩ schemes))
    all_scheme_names.

(** Lines 243-245: without mixed-case support, drop the mixed-case scheme. *)
Definition listalyze_filter_mixed (mixed_case : bool)
    (number_schemes : gset string) : outcome (gset string) :=
  if negb mixed_case then
    if decide ("mixed-alpha" ∈ number_schemes)
    then set_remove "mixed-alpha" number_schemes
    else Normal number_schemes
  else Normal number_schemes.

(** Lines 249-250: mixed-alpha gives way to any alternative scheme. *)
Definition listalyze_tie_break (number_schemes : gset string)
  : outcome (gset string) :=
  if (1 <? size number_schemes)%nat && bool_decide ("mixed-alpha" ∈ number_schemes)
  then set_remove "mixed-alpha" number_schemes
  else Normal number_schemes.

(** Lines 243-259: from the schemes that match every number to the one
    scheme in use and its converter. *)
Definition listalyze_choose (mixed_case : bool) (dont_recognize_scheme : result)
    (number_schemes : gset string) : outcome (string * (list N → outcome Z)) :=
  number_schemes <- listalyze_filter_mixed mixed_case number_schemes ;;
  number_schemes <- listalyze_tie_break number_schemes ;;
  if negb (size number_schemes =? 1)%nat then Return dont_recognize_scheme else
  scheme <- getitem (elements number_schemes) 0 ;;
  converter <- dict_get scheme_converters scheme ;;
  Normal (scheme, converter).

(** Lines 260-264: convert the numbers and detect the default order. *)
Definition listalyze_convert (converter : list N → outcome Z)
    (nl_iter : list nat) (numbers_list : list pyobj)
  : outcome (list pyobj * bool) :=
  let default_order := true in
  for_each nl_iter
    (λ i '(numbers_list, default_order),
       number <- bind (getitem numbers_list i) as_unicode ;;
       value <- converter number ;;
       let numbers_list := <[i := PyInt value]> numbers_list in
       x <- getitem numbers_list i ;;
       Normal (numbers_list,
               if py_ne_int x (Z.of_nat i + 1) then false else default_order))
    (numbers_list, default_order).

Definition listalyze (numbers : pyobj) (require_dot mixed_case : bool)
  : outcome result :=
  numbers_list <- listalyze_make_list numbers ;;
  let nl_iter := seq 0 (length numbers_list) in
  let raw_numbers_list := numbers_list in
  let dont_recognize_scheme : result := (None, raw_numbers_list, false) in
  numbers_list <- listalyze_check_unicode nl_iter numbers_list ;;
  numbers_list <- listalyze_dots require_dot dont_recognize_scheme nl_iter numbers_list ;;
  number_schemes <- listalyze_find_schemes numbers_list ;;
  chosen <- listalyze_choose mixed_case dont_recognize_scheme number_schemes ;;
  let '(scheme, converter) := chosen in
  converted <- listalyze_convert converter nl_iter numbers_list ;;
  let '(numbers_list, default_order) := converted in
  let scheme := if String.eqb scheme "mixed-alpha" then "upper-alpha" else scheme in
  Return (Some scheme, numbers_list, default_order).

(** The list of unicode strings [items] as an argument of [listalyze]. *)
Definition ulist (items : list (list N)) : pyobj := PyList (PyUnicode <$> items).

(** ** Definitions for the statements *)

(** One pass over the cells of a list, each rewritten from its index
    and old content: what a loop [for i in nl_iter: l[i] = f(i, l[i])]
    computes. *)
Fixpoint traverse {A} (f : nat → A → outcome A) (k : nat) (l : list A)
  : outcome (list A) :=
  match l with
  | [] => Normal []
  | x :: rest =>
      y <- f k x ;;
      ys <- traverse f (S k) rest ;;
      Normal (y :: ys)
  end.

(** The characters of [string.digits], [string.ascii_lowercase] and
    [string.ascii_uppercase] by their code points. *)
Definition is_digit (ch : N) : bool := ((48 <=? ch) && (ch <=? 57))%N.
Definition is_lower (ch : N) : bool := ((97 <=? ch) && (ch <=? 122))%N.
Definition is_upper (ch : N) : bool := ((65 <=? ch) && (ch <=? 90))%N.
Definition is_letter (ch : N) : bool := is_lower ch || is_upper ch.

(** The set that holds each scheme name whose flag is set. *)
Definition schemes_of (d l up m : bool) : gset string :=
  (if d then {["decimal"]} else ∅) ∪ (if l then {["lower-alpha"]} else ∅)
  ∪ (if up then {["upper-alpha"]} else ∅) ∪ (if m then {["mixed-alpha"]} else ∅).

(** The value of a statement that completes. *)
Definition normal_value {A} (c : outcome A) : option A :=
  match c with
  | Normal a => Some a
  | _ => None
  end.

(** The set that holds each scheme name on which [f] is true. *)
Definition schemes_where (f : string → bool) : gset string :=
  schemes_of (f "decimal") (f "lower-alpha") (f "upper-alpha") (f "mixed-alpha").

(** The predicate of the character set of a scheme. *)
Definition fit_of (scheme : string) : N → bool :=
  if String.eqb scheme "decimal" then is_digit
  else if String.eqb scheme "lower-alpha" then is_lower
  else if String.eqb scheme "upper-alpha" then is_upper
  else is_letter.

(** Every character of every label satisfies [p]. *)
Definition all_fit (p : N → bool) (labels : list (list N)) : bool :=
  forallb (forallb p) labels.

(** [type( o ) is unicode] *)
Definition is_unicode (o : pyobj) : bool :=
  match o with
  | PyUnicode _ => true
  | _ => false
  end.

(** What the loop of lines 211-217 does to the cell at index [i]. *)
Definition check_cell (i : nat) (number : pyobj) : outcome pyobj :=
  match number with
  | PyUnicode s => Normal (PyUnicode (strip s))
  | _ => Raise (TypeError (not_unicode_message number i))
  end.

(** A trimmed label under the dot policy: the label without its dot,
    or [None] when the policy rejects it. *)
Definition normalize_label (require_dot : bool) (number : list N) : option (list N) :=
  if require_dot then
    if (length number <? 2)%nat then None
    else if bool_decide (last number = Some dot) then Some (slice_init number)
    else None
  else
    if (length number <? 1)%nat then None
    else
      let number' :=
        if bool_decide (last number = Some dot) then slice_init number else number in
      if bool_decide (number' = []) then None else Some number'.

(** What the loops of lines 219-234 do to the cell at index [i]. *)
Definition dots_cell (require_dot : bool) (dont_recognize_scheme : result)
    (i : nat) (number : pyobj) : outcome pyobj :=
  number <- as_unicode number ;;
  match normalize_label require_dot number with
  | Some number' => Normal (PyUnicode number')
  | None => Return dont_recognize_scheme
  end.

(** The scheme that lines 243-255 keep, from the flag [mixed_case]
    and the flags of the schemes that match every label. *)
Definition pick (mixed_case d l up m : bool) : option string :=
  match d, l, up with
  | true, false, false => Some "decimal"
  | false, true, false => Some "lower-alpha"
  | false, false, true => Some "upper-alpha"
  | false, false, false => if mixed_case && m then Some "mixed-alpha" else None
  | _, _, _ => None
  end.

(** The value of a string of decimal digits. *)
Definition decimal_value (number : list N) : Z :=
  fold_left (λ acc ch, acc * 10 + (Z.of_N ch - 48))%Z number 0%Z.

(** The ordinal of a normalized label in a scheme. *)
Definition ordinal (scheme : string) (label : list N) : Z :=
  if String.eqb scheme "decimal" then decimal_value label
  else if String.eqb scheme "lower-alpha" then convert_lower_alpha label
  else if String.eqb scheme "upper-alpha" then convert_upper_alpha label
  else convert_mixed_alpha label.

(** The values [1, 2, ...] counted from position [k]: what the loop of
    lines 260-264 checks. *)
Fixpoint in_default_order (k : nat) (values : list Z) : bool :=
  match values with
  | [] => true
  | v :: rest => (v =? Z.of_nat k + 1)%Z && in_default_order (S k) rest
  end.

(** The labels of a call, trimmed and under the dot policy. *)
Definition normalize (require_dot : bool) (items : list (list N))
  : option (list (list N)) :=
  mapM (normalize_label require_dot) (strip <$> items).

(** The scheme in use for normalized labels, [None] when there is none. *)
Definition resolve (mixed_case : bool) (labels : list (list N)) : option string :=
  pick mixed_case (all_fit is_digit labels) (all_fit is_lower labels)
    (all_fit is_upper labels) (all_fit is_letter labels).

(** Lines 268-269: the name under which a scheme is reported. *)
Definition reported (scheme : string) : string :=
  if String.eqb scheme "mixed-alpha" then "upper-alpha" else scheme.

(** The character set of a scheme. *)
Definition charset_of (scheme : string) : gset N :=
  default ∅ (scheme_character_sets !! scheme).

(** Following the words of the specification: the index of a letter
    in its alphabet, counted from 1 (0 for a character that is not in
    the alphabet), and the value of a label as the left-to-right fold
    [value * 26 + letter_index_from_1]. *)
Definition letter_index_from_1 (alphabet : string) (ch : N) : Z :=
  match list_find (λ c, c = ch) (u alphabet) with
  | Some (i, _) => Z.of_nat i + 1
  | None => 0
  end.

Definition bijective_base26 (alphabet : string) (label : list N) : Z :=
  fold_left (λ value ch, value * 26 + letter_index_from_1 alphabet ch)%Z label 0%Z.

(** The labels [a, b, ..., z, aa, ab] of the test of the source. *)
Definition alphabet_28 : list (list N) :=
  ((λ i, [(ord "a" + N.of_nat i)%N]) <$> seq 0 26) ++ [u "aa"; u "ab"].

(** The candidate schemes of normalized labels once lines 237-250 have
    run: intersection, mixed-case filter, tie-break. *)
Definition candidates (mixed_case : bool) (labels : list (list N))
  : outcome (gset string) :=
  number_schemes <- listalyze_find_schemes (PyUnicode <$> labels) ;;
  number_schemes <- listalyze_filter_mixed mixed_case number_schemes ;;
  listalyze_tie_break number_schemes.

(** A trailing dot is stripped when present. *)
Definition strip_dot (number : list N) : list N :=
  if bool_decide (last number = Some dot) then slice_init number else number.

(** The labels that an ordered list with [n] items shows in decimal:
    [1.], [2.], ... *)
Definition decimal_counter (n : nat) : list (list N) :=
  (λ i, u (format_d i) ++ [dot]) <$> seq 1 n.

(** ** The tests of the source *)

Example test_non_iterable :
  listalyze (PyInt 14) true false
  = Raise (TypeError ("'int' object is not iterable (" +:+ dq +:+ "numbers" +:+ dq +:+ " parameter)")).
Proof. reflexivity. Qed.

Example test_dotted_required :
  listalyze (ulist [u "1."; u "2"]) true false
  = Return (None, [PyUnicode (u "1."); PyUnicode (u "2")], false).
Proof. vm_compute. reflexivity. Qed.

Example test_dot_optional :
  listalyze (ulist [u "1."; u "2"]) false false
  = Return (Some "decimal", [PyInt 1; PyInt 2], true).
Proof. vm_compute. reflexivity. Qed.

Example test_non_unicode :
  listalyze (PyList [PyUnicode (u "1"); PyStr "2"; PyUnicode (u "3")]) true false
  = Raise (TypeError (not_unicode_message (PyStr "2") 1)).
Proof. vm_compute. reflexivity. Qed.

Example test_decimal :
  listalyze (ulist [u "1"; u "9"; u "10"; u "11"; u "99"; u "100"; u "101";
                    u "999"; u "1000"; u "1001"]) false false
  = Return (Some "decimal",
            PyInt <$> [1; 9; 10; 11; 99; 100; 101; 999; 1000; 1001]%Z, false).
Proof. vm_compute. reflexivity. Qed.

Example test_upper_alpha :
  listalyze (ulist [u "A"; u "B"; u "C."; u "Z"; u "AA"; u "AB"; u "AZ"; u "BA"]) false false
  = Return (Some "upper-alpha", PyInt <$> [1; 2; 3; 26; 27; 28; 52; 53]%Z, false).
Proof. vm_compute. reflexivity. Qed.

(** The call of the docstring: [D.] is the fourth letter in third
    position, so the order is not the default one (the docstring
    prints [True]). *)
Example docstring_usage :
  listalyze (ulist [u "A."; u "B."; u "D."]) true false
  = Return (Some "upper-alpha", [PyInt 1; PyInt 2; PyInt 4], false).
Proof. vm_compute. reflexivity. Qed.

Example test_lower_alpha :
  listalyze (ulist [u "a"; u "b"; u "c."; u "z"; u "aa"; u "ab"; u "az"; u "ba"]) false false
  = Return (Some "lower-alpha", PyInt <$> [1; 2; 3; 26; 27; 28; 52; 53]%Z, false).
Proof. vm_compute. reflexivity. Qed.

(** ** Reasoning about outcomes and loops *)

Lemma bind_assoc {A B C} (c : outcome A) (k : A → outcome B) (h : B → outcome C) :
  bind (bind c k) h = bind c (λ a, bind (k a) h).
Proof. by destruct c. Qed.

Lemma bind_ext {A B} (c : outcome A) (k h : A → outcome B) :
  (∀ a, k a = h a) → bind c k = bind c h.
Proof. intros E. destruct c; simpl; auto. Qed.

Lemma for_each_app {A S} (xs ys : list A) (body : A → S → outcome S) (s : S) :
  for_each (xs ++ ys) body s = bind (for_each xs body s) (for_each ys body).
Proof.
  revert s. induction xs as [|x xs IH]; intros s; simpl; [done|].
  rewrite bind_assoc. apply bind_ext. intros s'. apply IH.
Qed.

Lemma for_each_in_place {A} (f : nat → A → outcome A)
    (body : nat → list A → outcome (list A)) :
  (∀ i l x, l !! i = Some x → body i l = (y <- f i x ;; Normal (<[i:=y]> l))) →
  ∀ todo done,
    for_each (seq (length done) (length todo)) body (done ++ todo)
    = (ys <- traverse f (length done) todo ;; Normal (done ++ ys)).
Proof.
  intros Hbody. induction todo as [|x todo IH]; intros done; simpl.
  - by rewrite app_nil_r.
  - rewrite (Hbody (length done) (done ++ x :: todo) x)
      by (by rewrite list_lookup_middle).
    rewrite !bind_assoc. apply bind_ext. intros y. simpl.
    replace (<[length done:=y]> (done ++ x :: todo)) with ((done ++ [y]) ++ todo).
    2:{ rewrite insert_app_r_alt by lia. rewrite Nat.sub_diag. simpl.
        by rewrite <- app_assoc. }
    replace (S (length done)) with (length (done ++ [y]))
      by (rewrite length_app; simpl; lia).
    rewrite IH, !bind_assoc. apply bind_ext. intros ys. simpl.
    by rewrite <- app_assoc.
Qed.

Lemma for_each_whole_list {A} (f : nat → A → outcome A)
    (body : nat → list A → outcome (list A)) (l : list A) :
  (∀ i l x, l !! i = Some x → body i l = (y <- f i x ;; Normal (<[i:=y]> l))) →
  for_each (seq 0 (length l)) body l = traverse f 0 l.
Proof.
  intros Hbody. pose proof (for_each_in_place f body Hbody l []) as E.
  simpl in E. rewrite E. destruct (traverse f 0 l); reflexivity.
Qed.

(** ** Characters and character sets *)

Ltac enumerate_charset :=
  rewrite elem_of_list_to_set;
  match goal with
  | |- context [u ?s] =>
      let l := eval vm_compute in (u s) in change (u s) with l
  end;
  rewrite !elem_of_cons, elem_of_nil;
  unfold is_letter, is_digit, is_lower, is_upper; lia.

Lemma elem_of_digits ch :
  ch ∈ (list_to_set (u digits) : gset N) ↔ is_digit ch = true.
Proof. enumerate_charset. Qed.

Lemma elem_of_lowercase ch :
  ch ∈ (list_to_set (u ascii_lowercase) : gset N) ↔ is_lower ch = true.
Proof. enumerate_charset. Qed.

Lemma elem_of_uppercase ch :
  ch ∈ (list_to_set (u ascii_uppercase) : gset N) ↔ is_upper ch = true.
Proof. enumerate_charset. Qed.

Lemma elem_of_letters ch :
  ch ∈ (list_to_set (u (ascii_lowercase +:+ ascii_uppercase)) : gset N)
  ↔ is_letter ch = true.
Proof. enumerate_charset. Qed.

Lemma digit_not_letter ch : is_digit ch = true → is_letter ch = false.
Proof. unfold is_digit, is_letter, is_lower, is_upper. lia. Qed.

Lemma lower_not_upper ch : is_lower ch = true → is_upper ch = false.
Proof. unfold is_lower, is_upper. lia. Qed.

Lemma lower_not_digit ch : is_lower ch = true → is_digit ch = false.
Proof. unfold is_lower, is_digit. lia. Qed.

Lemma upper_not_digit ch : is_upper ch = true → is_digit ch = false.
Proof. unfold is_upper, is_digit. lia. Qed.

Lemma lower_is_letter ch : is_lower ch = true → is_letter ch = true.
Proof. unfold is_letter. by intros ->. Qed.

Lemma upper_is_letter ch : is_upper ch = true → is_letter ch = true.
Proof. unfold is_letter. intros ->. by rewrite orb_true_r. Qed.

(** ** What [categorize_number] computes *)

Lemma normal_value_Some {A} (c : outcome A) (a : A) :
  normal_value c = Some a → c = Normal a.
Proof. destruct c; simpl; congruence. Qed.

Lemma all_scheme_names_eq : all_scheme_names = schemes_of true true true true.
Proof. compute_done. Qed.

Lemma schemes_of_intersection a b c d a' b' c' d' :
  schemes_of a b c d ∩ schemes_of a' b' c' d'
  = schemes_of (a && a') (b && b') (c && c') (d && d').
Proof. destruct a, b, c, d, a', b', c', d'; compute_done. Qed.

Lemma elem_of_schemes_of name d l up m :
  name ∈ schemes_of d l up m
  ↔ name = "decimal" ∧ d = true ∨ name = "lower-alpha" ∧ l = true
    ∨ name = "upper-alpha" ∧ up = true ∨ name = "mixed-alpha" ∧ m = true.
Proof.
  unfold schemes_of. rewrite !elem_of_union.
  destruct d, l, up, m;
    rewrite ?elem_of_singleton, ?elem_of_empty; intuition congruence.
Qed.

Lemma categorize_scan_spec (charset : gset N) (p : N → bool) name number schemes :
  (∀ ch, ch ∈ charset ↔ p ch = true) →
  categorize_scan charset name number schemes
  = if forallb p number then Normal schemes else set_remove name schemes.
Proof.
  intros Hp. induction number as [|ch rest IH]; simpl; [done|].
  destruct (decide (ch ∈ charset)) as [Hin|Hout].
  - apply Hp in Hin. by rewrite Hin, IH.
  - destruct (p ch) eqn:E; [|done]. by apply Hp in E.
Qed.

Lemma scheme_character_sets_decimal :
  dict_get scheme_character_sets "decimal" = Normal (list_to_set (u digits)).
Proof. reflexivity. Qed.

Lemma scheme_character_sets_lower :
  dict_get scheme_character_sets "lower-alpha" = Normal (list_to_set (u ascii_lowercase)).
Proof. reflexivity. Qed.

Lemma scheme_character_sets_upper :
  dict_get scheme_character_sets "upper-alpha" = Normal (list_to_set (u ascii_uppercase)).
Proof. reflexivity. Qed.

Lemma scheme_character_sets_mixed :
  dict_get scheme_character_sets "mixed-alpha"
  = Normal (list_to_set (u (ascii_lowercase +:+ ascii_uppercase))).
Proof. reflexivity. Qed.

Lemma scheme_character_sets_keys :
  elements (dom scheme_character_sets) ≡ₚ
  ["decimal"; "lower-alpha"; "upper-alpha"; "mixed-alpha"].
Proof. compute_done. Qed.

Lemma set_remove_decimal l up m :
  set_remove "decimal" (schemes_of true l up m) = Normal (schemes_of false l up m).
Proof. apply normal_value_Some. destruct l, up, m; compute_done. Qed.

Lemma set_remove_lower d up m :
  set_remove "lower-alpha" (schemes_of d true up m) = Normal (schemes_of d false up m).
Proof. apply normal_value_Some. destruct d, up, m; compute_done. Qed.

Lemma set_remove_upper d l m :
  set_remove "upper-alpha" (schemes_of d l true m) = Normal (schemes_of d l false m).
Proof. apply normal_value_Some. destruct d, l, m; compute_done. Qed.

Lemma set_remove_mixed d l up :
  set_remove "mixed-alpha" (schemes_of d l up true) = Normal (schemes_of d l up false).
Proof. apply normal_value_Some. destruct d, l, up; compute_done. Qed.

Lemma categorize_number_spec number :
  categorize_number number
  = Normal (schemes_of (forallb is_digit number) (forallb is_lower number)
              (forallb is_upper number) (forallb is_letter number)).
Proof.
  unfold categorize_number.
  set (keys := elements (dom scheme_character_sets)).
  let l := eval vm_compute in keys in
    assert (keys = l) as -> by compute_done.
  cbn [for_each]. unfold categorize_step.
  rewrite ?scheme_character_sets_decimal, ?scheme_character_sets_lower,
    ?scheme_character_sets_upper, ?scheme_character_sets_mixed.
  rewrite all_scheme_names_eq. cbn [bind].
  rewrite (categorize_scan_spec _ _ _ _ _ elem_of_letters).
  destruct (forallb is_letter number); rewrite ?set_remove_mixed; cbn [bind];
  rewrite (categorize_scan_spec _ _ _ _ _ elem_of_uppercase);
  destruct (forallb is_upper number); rewrite ?set_remove_upper; cbn [bind];
  rewrite (categorize_scan_spec _ _ _ _ _ elem_of_lowercase);
  destruct (forallb is_lower number); rewrite ?set_remove_lower; cbn [bind];
  rewrite (categorize_scan_spec _ _ _ _ _ elem_of_digits);
  destruct (forallb is_digit number); rewrite ?set_remove_decimal; reflexivity.
Qed.

Lemma elem_of_all_scheme_names name :
  name ∈ all_scheme_names
  ↔ name = "decimal" ∨ name = "lower-alpha" ∨ name = "upper-alpha" ∨ name = "mixed-alpha".
Proof. rewrite all_scheme_names_eq, elem_of_schemes_of. tauto. Qed.

Lemma schemes_where_ext (f g : string → bool) :
  (∀ name, name ∈ all_scheme_names → f name = g name) →
  schemes_where f = schemes_where g.
Proof.
  intros H. unfold schemes_where.
  by rewrite !H by (apply elem_of_all_scheme_names; tauto).
Qed.

Lemma categorize_step_spec number name (f : string → bool) :
  name ∈ all_scheme_names → f name = true →
  categorize_step number name (schemes_where f)
  = Normal (schemes_where
              (λ n, if String.eqb n name then forallb (fit_of name) number else f n)).
Proof.
  intros Hname Hf. unfold categorize_step, schemes_where.
  apply elem_of_all_scheme_names in Hname as [-> | [-> | [-> | ->]]];
    cbn [String.eqb Ascii.eqb Bool.eqb fit_of]; rewrite Hf.
  - rewrite scheme_character_sets_decimal. cbn [bind].
    rewrite (categorize_scan_spec _ _ _ _ _ elem_of_digits).
    destruct (forallb is_digit number); [done|apply set_remove_decimal].
  - rewrite scheme_character_sets_lower. cbn [bind].
    rewrite (categorize_scan_spec _ _ _ _ _ elem_of_lowercase).
    destruct (forallb is_lower number); [done|apply set_remove_lower].
  - rewrite scheme_character_sets_upper. cbn [bind].
    rewrite (categorize_scan_spec _ _ _ _ _ elem_of_uppercase).
    destruct (forallb is_upper number); [done|apply set_remove_upper].
  - rewrite scheme_character_sets_mixed. cbn [bind].
    rewrite (categorize_scan_spec _ _ _ _ _ elem_of_letters).
    destruct (forallb is_letter number); [done|apply set_remove_mixed].
Qed.

Lemma categorize_loop_any_order number keys :
  NoDup keys →
  ∀ f : string → bool,
    (∀ k, k ∈ keys → k ∈ all_scheme_names ∧ f k = true) →
    for_each keys (categorize_step number) (schemes_where f)
    = Normal (schemes_where
                (λ n, if bool_decide (n ∈ keys)
                      then forallb (fit_of n) number else f n)).
Proof.
  induction 1 as [|k keys Hk Hnodup IH]; intros f Hkeys.
  - cbn [for_each]. apply (f_equal Normal), schemes_where_ext. intros name _.
    by rewrite bool_decide_eq_false_2 by apply not_elem_of_nil.
  - cbn [for_each].
    destruct (Hkeys k ltac:(left)) as [Hname Hf].
    rewrite categorize_step_spec by done. cbn [bind].
    rewrite IH.
    + apply (f_equal Normal), schemes_where_ext. intros name _.
      destruct (decide (name ∈ keys)) as [Hin|Hout].
      * rewrite !bool_decide_eq_true_2; [done|by right|done].
      * rewrite (bool_decide_eq_false_2 (name ∈ keys)) by done.
        destruct (String.eqb_spec name k) as [->|Hne].
        -- rewrite bool_decide_eq_true_2; [done|by left].
        -- rewrite bool_decide_eq_false_2; [done|].
           rewrite elem_of_cons. tauto.
    + intros k' Hk'. destruct (Hkeys k' ltac:(by right)) as [Hname' Hf'].
      split; [done|].
      destruct (String.eqb_spec k' k) as [->|Hne]; [done|done].
Qed.

(** The order in which the loop of [categorize_number] visits the
    schemes does not matter. *)
Lemma categorize_number_any_order number keys :
  keys ≡ₚ elements (dom scheme_character_sets) →
  for_each keys (categorize_step number) all_scheme_names = categorize_number number.
Proof.
  intros Hperm.
  assert (Hall : ∀ k, k ∈ keys ↔ k ∈ all_scheme_names).
  { intros k. rewrite Hperm. apply elem_of_elements. }
  change all_scheme_names with (schemes_where (λ _, true)) at 1.
  rewrite categorize_loop_any_order.
  - rewrite categorize_number_spec. apply (f_equal Normal).
    unfold schemes_where.
    rewrite !bool_decide_eq_true_2
      by (apply Hall, elem_of_all_scheme_names; tauto).
    reflexivity.
  - rewrite Hperm. apply NoDup_elements.
  - intros k Hk. split; [by apply Hall|done].
Qed.

Lemma find_schemes_from labels d l up m :
  for_each (PyUnicode <$> labels)
    (λ number number_schemes,
       number <- as_unicode number ;;
       schemes <- categorize_number number ;;
       Normal (number_schemes ∩ schemes))
    (schemes_of d l up m)
  = Normal (schemes_of (d && all_fit is_digit labels) (l && all_fit is_lower labels)
              (up && all_fit is_upper labels) (m && all_fit is_letter labels)).
Proof.
  revert d l up m. induction labels as [|label labels IH]; intros d l up m.
  - simpl. by rewrite !andb_true_r.
  - cbn [fmap list_fmap for_each as_unicode bind].
    rewrite categorize_number_spec. cbn [bind].
    rewrite schemes_of_intersection, IH. unfold all_fit. simpl.
    by rewrite !andb_assoc.
Qed.

Lemma listalyze_find_schemes_spec labels :
  listalyze_find_schemes (PyUnicode <$> labels)
  = Normal (schemes_of (all_fit is_digit labels) (all_fit is_lower labels)
              (all_fit is_upper labels) (all_fit is_letter labels)).
Proof.
  unfold listalyze_find_schemes. rewrite all_scheme_names_eq.
  apply find_schemes_from.
Qed.

(** ** What the loops of [listalyze] compute *)

(** Every list of values is a list of unicode strings, or has a first
    item that is not one. *)
Lemma unicode_items_or_not (l : list pyobj) :
  (∃ items, l = PyUnicode <$> items)
  ∨ (∃ pre o post, l = (PyUnicode <$> pre) ++ o :: post ∧ is_unicode o = false).
Proof.
  induction l as [|x l [[items ->]|(pre & o & post & -> & Ho)]].
  - left. by exists [].
  - destruct x as [| | | | |s| |];
      try (right; by eexists [], _, _).
    left. by exists (s :: items).
  - destruct x as [| | | | |s| |];
      try (right; by eexists [], _, _).
    right. by exists (s :: pre), o, post.
Qed.

Lemma listalyze_check_unicode_traverse (numbers_list : list pyobj) :
  listalyze_check_unicode (seq 0 (length numbers_list)) numbers_list
  = traverse check_cell 0 numbers_list.
Proof.
  apply for_each_whole_list. intros i l x Hx.
  unfold getitem. rewrite Hx. simpl. by destruct x.
Qed.

Lemma traverse_check_unicode k items :
  traverse check_cell k (PyUnicode <$> items) = Normal (PyUnicode <$> (strip <$> items)).
Proof.
  revert k. induction items as [|s items IH]; intros k; simpl; [done|].
  by rewrite IH.
Qed.

Lemma traverse_check_not_unicode k pre o post :
  is_unicode o = false →
  traverse check_cell k ((PyUnicode <$> pre) ++ o :: post)
  = Raise (TypeError (not_unicode_message o (k + length pre))).
Proof.
  intros Ho. revert k. induction pre as [|s pre IH]; intros k; simpl.
  - rewrite Nat.add_0_r. by destruct o.
  - rewrite IH. simpl. by rewrite Nat.add_succ_r.
Qed.

Lemma last_length_pos {A} (s : list A) : (0 < length s)%nat → is_Some (last s).
Proof.
  destruct s as [|x s] using rev_ind; simpl; [lia|].
  rewrite last_snoc. eauto.
Qed.

Lemma listalyze_dots_traverse require_dot dont (numbers_list : list pyobj) :
  listalyze_dots require_dot dont (seq 0 (length numbers_list)) numbers_list
  = traverse (dots_cell require_dot dont) 0 numbers_list.
Proof.
  unfold listalyze_dots. destruct require_dot.
  - apply for_each_whole_list. intros i l x Hx.
    unfold getitem, dots_cell, normalize_label. rewrite Hx. simpl.
    destruct (as_unicode x) as [s| |]; simpl; try done.
    destruct (length s <? 2)%nat eqn:Hlen; [done|].
    apply Nat.ltb_ge in Hlen.
    destruct (last_length_pos s ltac:(lia)) as [ch Hch].
    unfold getlast. rewrite Hch. cbn [bind].
    destruct (N.eqb_spec ch dot) as [->|Hne]; cbn [negb].
    + by rewrite bool_decide_eq_true_2.
    + rewrite bool_decide_eq_false_2; [done|congruence].
  - apply for_each_whole_list. intros i l x Hx.
    unfold getitem, dots_cell, normalize_label. rewrite Hx. simpl.
    destruct x as [| | | | |s| |]; simpl; try done.
    destruct (length s <? 1)%nat eqn:Hlen; [done|].
    apply Nat.ltb_ge in Hlen.
    destruct (last_length_pos s ltac:(lia)) as [ch Hch].
    unfold getlast. rewrite Hch. cbn [bind].
    assert (Hi : (i < length l)%nat) by (by eapply lookup_lt_Some).
    destruct (N.eqb_spec ch dot) as [->|Hne].
    + rewrite (bool_decide_eq_true_2 (Some dot = Some dot)) by done.
      rewrite list_lookup_insert_eq by done. cbn [as_unicode bind].
      by case_bool_decide.
    + rewrite (bool_decide_eq_false_2 (Some ch = Some dot)) by congruence.
      rewrite Hx. cbn [as_unicode bind]. case_bool_decide; [done|].
      cbn [bind]. by rewrite list_insert_id.
Qed.

Lemma traverse_dots require_dot dont k (trimmed : list (list N)) :
  traverse (dots_cell require_dot dont) k (PyUnicode <$> trimmed)
  = match mapM (normalize_label require_dot) trimmed with
    | Some labels => Normal (PyUnicode <$> labels)
    | None => Return dont
    end.
Proof.
  revert k. induction trimmed as [|s trimmed IH]; intros k; [done|].
  cbn [fmap list_fmap traverse]. unfold dots_cell at 1. cbn [as_unicode bind].
  rewrite IH. cbn [mapM].
  destruct (normalize_label require_dot s) as [s'|]; [|done]. simpl.
  by destruct (mapM (normalize_label require_dot) trimmed).
Qed.

Lemma listalyze_choose_spec mixed_case dont d l up m :
  listalyze_choose mixed_case dont (schemes_of d l up m)
  = match pick mixed_case d l up m with
    | Some scheme =>
        converter <- dict_get scheme_converters scheme ;; Normal (scheme, converter)
    | None => Return dont
    end.
Proof. destruct mixed_case, d, l, up, m; vm_compute; reflexivity. Qed.

Lemma int_digits_spec acc number :
  forallb is_digit number = true →
  int_digits acc number
  = Some (fold_left (λ acc ch, acc * 10 + (Z.of_N ch - 48))%Z number acc).
Proof.
  revert acc. induction number as [|ch rest IH]; intros acc H; simpl in *; [done|].
  apply andb_true_iff in H as [Hch Hrest].
  unfold digit_value. unfold is_digit in Hch. rewrite Hch. by apply IH.
Qed.

Lemma convert_decimal_spec number :
  number ≠ [] → forallb is_digit number = true →
  convert_decimal number = Normal (decimal_value number).
Proof.
  intros Hne Hd. unfold convert_decimal, py_int.
  destruct number as [|ch rest]; [done|].
  by rewrite int_digits_spec.
Qed.

(** The scheme that is kept matches every label. *)
Lemma pick_fits mixed_case d l up m scheme :
  pick mixed_case d l up m = Some scheme →
  scheme = "decimal" ∧ d = true ∨ scheme = "lower-alpha" ∧ l = true
  ∨ scheme = "upper-alpha" ∧ up = true
  ∨ scheme = "mixed-alpha" ∧ m = true ∧ mixed_case = true
    ∧ d = false ∧ l = false ∧ up = false.
Proof.
  destruct mixed_case, d, l, up, m; simpl; intros [= <-]; tauto.
Qed.

Lemma all_fit_elem p (labels : list (list N)) label :
  all_fit p labels = true → label ∈ labels → forallb p label = true.
Proof.
  unfold all_fit. rewrite forallb_forall. intros H Hin.
  apply H. by apply list_elem_of_In.
Qed.

Lemma converter_spec mixed_case labels scheme :
  pick mixed_case (all_fit is_digit labels) (all_fit is_lower labels)
    (all_fit is_upper labels) (all_fit is_letter labels) = Some scheme →
  Forall (λ label, label ≠ []) labels →
  ∃ converter,
    dict_get scheme_converters scheme = Normal converter
    ∧ ∀ label, label ∈ labels → converter label = Normal (ordinal scheme label).
Proof.
  intros Hpick Hne.
  destruct (pick_fits _ _ _ _ _ _ Hpick)
    as [[-> Hd]|[[-> Hl]|[[-> Hu]|(-> & Hm & _)]]].
  - exists convert_decimal. split; [reflexivity|]. intros label Hin.
    apply convert_decimal_spec.
    + by apply (proj1 (Forall_forall _ _) Hne).
    + by eapply all_fit_elem.
  - by eexists.
  - by eexists.
  - by eexists.
Qed.

Lemma convert_loop_from (converter : list N → outcome Z) (f : list N → Z)
    (todo : list (list N)) :
  (∀ label, label ∈ todo → converter label = Normal (f label)) →
  ∀ (done : list pyobj) (default_order : bool),
    for_each (seq (length done) (length todo))
      (λ i '(numbers_list, default_order),
         number <- bind (getitem numbers_list i) as_unicode ;;
         value <- converter number ;;
         let numbers_list := <[i := PyInt value]> numbers_list in
         x <- getitem numbers_list i ;;
         Normal (numbers_list,
                 if py_ne_int x (Z.of_nat i + 1) then false else default_order))
      (done ++ (PyUnicode <$> todo), default_order)
    = Normal (done ++ (PyInt <$> (f <$> todo)),
              default_order && in_default_order (length done) (f <$> todo)).
Proof.
  induction todo as [|label todo IH]; intros Hconv done default_order.
  - simpl. by rewrite andb_true_r.
  - cbn [length seq for_each fmap list_fmap].
    unfold getitem at 1. rewrite list_lookup_middle by done.
    cbn [bind as_unicode]. rewrite Hconv by left. cbn [bind].
    unfold getitem at 1.
    rewrite list_lookup_insert_eq by (rewrite length_app; simpl; lia).
    cbn [bind py_ne_int].
    replace (<[length done:=PyInt (f label)]> (done ++ PyUnicode label :: (PyUnicode <$> todo)))
      with ((done ++ [PyInt (f label)]) ++ (PyUnicode <$> todo)).
    2:{ rewrite insert_app_r_alt by lia. rewrite Nat.sub_diag. simpl.
        by rewrite <- app_assoc. }
    replace (S (length done)) with (length (done ++ [PyInt (f label)]))
      by (rewrite length_app; simpl; lia).
    rewrite IH by (intros; apply Hconv; by right).
    rewrite <- app_assoc. simpl. f_equal. f_equal.
    rewrite length_app. simpl. rewrite Nat.add_1_r.
    destruct (f label =? Z.of_nat (length done) + 1)%Z, default_order; reflexivity.
Qed.

Lemma listalyze_convert_spec converter f labels :
  (∀ label, label ∈ labels → converter label = Normal (f label)) →
  listalyze_convert converter (seq 0 (length labels)) (PyUnicode <$> labels)
  = Normal (PyInt <$> (f <$> labels), in_default_order 0 (f <$> labels)).
Proof.
  intros Hconv. apply (convert_loop_from converter f labels Hconv [] true).
Qed.

(** ** [listalyze] on a list of unicode strings *)

Lemma normalize_label_nonempty require_dot number number' :
  normalize_label require_dot number = Some number' → number' ≠ [].
Proof.
  unfold normalize_label. destruct require_dot.
  - destruct (length number <? 2)%nat eqn:Hlen; [done|].
    apply Nat.ltb_ge in Hlen. case_bool_decide; [|done].
    intros [= <-] E. apply (f_equal length) in E.
    unfold slice_init in E. rewrite length_take in E. simpl in E. lia.
  - destruct (length number <? 1)%nat; [done|].
    case_bool_decide; case_bool_decide; congruence.
Qed.

Lemma normalize_nonempty require_dot items labels :
  normalize require_dot items = Some labels → Forall (λ label, label ≠ []) labels.
Proof.
  unfold normalize. intros H. apply mapM_Some_1 in H.
  induction H as [|x y l k Hxy _ IH]; constructor; [|done].
  by eapply normalize_label_nonempty.
Qed.

Lemma normalize_length require_dot items labels :
  normalize require_dot items = Some labels → length labels = length items.
Proof.
  unfold normalize. intros H. apply length_mapM in H.
  by rewrite length_fmap in H.
Qed.

(** [listalyze] depends on [numbers] through the items it iterates over. *)
Lemma listalyze_iterable numbers l require_dot mixed_case :
  py_iter numbers = Some l →
  listalyze numbers require_dot mixed_case = listalyze (PyList l) require_dot mixed_case.
Proof. intros H. unfold listalyze, listalyze_make_list. by rewrite H. Qed.

Lemma listalyze_unicode_list items require_dot mixed_case :
  listalyze (ulist items) require_dot mixed_case
  = match normalize require_dot items with
    | None => Return (None, PyUnicode <$> items, false)
    | Some labels =>
        match resolve mixed_case labels with
        | None => Return (None, PyUnicode <$> items, false)
        | Some scheme =>
            Return (Some (reported scheme),
                    PyInt <$> (ordinal scheme <$> labels),
                    in_default_order 0 (ordinal scheme <$> labels))
        end
    end.
Proof.
  unfold listalyze, ulist. cbn [listalyze_make_list py_iter bind].
  rewrite listalyze_check_unicode_traverse, traverse_check_unicode.
  cbn [bind].
  replace (length (PyUnicode <$> items))
    with (length (PyUnicode <$> (strip <$> items))) by (by rewrite !length_fmap).
  rewrite listalyze_dots_traverse, traverse_dots.
  fold (normalize require_dot items).
  destruct (normalize require_dot items) as [labels|] eqn:Hnorm; [|done].
  cbn [bind]. rewrite listalyze_find_schemes_spec. cbn [bind].
  rewrite listalyze_choose_spec. fold (resolve mixed_case labels).
  destruct (resolve mixed_case labels) as [scheme|] eqn:Hres; [|done].
  destruct (converter_spec mixed_case labels scheme Hres
              (normalize_nonempty _ _ _ Hnorm)) as (converter & -> & Hconv).
  cbn [bind]. rewrite !length_fmap, <- (normalize_length _ _ _ Hnorm).
  by rewrite (listalyze_convert_spec converter (ordinal scheme) labels Hconv).
Qed.

Lemma listalyze_not_iterable numbers require_dot mixed_case :
  py_iter numbers = None →
  listalyze numbers require_dot mixed_case
  = Raise (TypeError (not_iterable_message numbers)).
Proof. intros H. unfold listalyze, listalyze_make_list. by rewrite H. Qed.

Lemma listalyze_not_unicode pre o post require_dot mixed_case :
  is_unicode o = false →
  listalyze (PyList ((PyUnicode <$> pre) ++ o :: post)) require_dot mixed_case
  = Raise (TypeError (not_unicode_message o (length pre))).
Proof.
  intros Ho. unfold listalyze. cbn [listalyze_make_list py_iter bind].
  rewrite listalyze_check_unicode_traverse.
  by rewrite (traverse_check_not_unicode 0 pre o post Ho).
Qed.

(** Every call either raises one of the two type errors or runs on a
    list of unicode strings. *)
Lemma listalyze_cases numbers require_dot mixed_case :
  (py_iter numbers = None
   ∧ listalyze numbers require_dot mixed_case
     = Raise (TypeError (not_iterable_message numbers)))
  ∨ (∃ pre o post,
       py_iter numbers = Some ((PyUnicode <$> pre) ++ o :: post)
       ∧ is_unicode o = false
       ∧ listalyze numbers require_dot mixed_case
         = Raise (TypeError (not_unicode_message o (length pre))))
  ∨ (∃ items,
       py_iter numbers = Some (PyUnicode <$> items)
       ∧ listalyze numbers require_dot mixed_case
         = listalyze (ulist items) require_dot mixed_case).
Proof.
  destruct (py_iter numbers) as [l|] eqn:Hiter.
  - right. rewrite (listalyze_iterable _ _ _ _ Hiter).
    destruct (unicode_items_or_not l) as [[items ->]|(pre & o & post & -> & Ho)].
    + right. by exists items.
    + left. exists pre, o, post. by rewrite listalyze_not_unicode.
  - left. by rewrite listalyze_not_iterable.
Qed.

Lemma listalyze_returns_inv numbers require_dot mixed_case r :
  listalyze numbers require_dot mixed_case = Return r →
  ∃ items,
    py_iter numbers = Some (PyUnicode <$> items)
    ∧ listalyze (ulist items) require_dot mixed_case = Return r.
Proof.
  intros H.
  destruct (listalyze_cases numbers require_dot mixed_case)
    as [[_ E]|[(pre & o & post & _ & _ & E)|(items & Hiter & E)]];
    rewrite E in H; try discriminate.
  by exists items.
Qed.

(** The two shapes of what a call on unicode strings returns. *)
Lemma listalyze_unicode_result items require_dot mixed_case :
  listalyze (ulist items) require_dot mixed_case
  = Return (None, PyUnicode <$> items, false)
  ∨ ∃ labels scheme,
      normalize require_dot items = Some labels
      ∧ resolve mixed_case labels = Some scheme
      ∧ listalyze (ulist items) require_dot mixed_case
        = Return (Some (reported scheme),
                  PyInt <$> (ordinal scheme <$> labels),
                  in_default_order 0 (ordinal scheme <$> labels)).
Proof.
  rewrite listalyze_unicode_list.
  destruct (normalize require_dot items) as [labels|]; [|by left].
  destruct (resolve mixed_case labels) as [scheme|] eqn:Hres; [|by left].
  right. by exists labels, scheme.
Qed.

(** ** Bounds on the ordinals *)

Lemma decimal_fold_nonneg number acc :
  forallb is_digit number = true → (0 ≤ acc)%Z →
  (0 ≤ fold_left (λ acc ch, acc * 10 + (Z.of_N ch - 48)) number acc)%Z.
Proof.
  revert acc. induction number as [|ch rest IH]; intros acc H Hacc; simpl in *; [done|].
  apply andb_true_iff in H as [Hch Hrest]. apply IH; [done|].
  unfold is_digit in Hch. lia.
Qed.

Lemma decimal_value_nonneg number :
  forallb is_digit number = true → (0 ≤ decimal_value number)%Z.
Proof. intros H. by apply decimal_fold_nonneg. Qed.

Lemma alpha_fold_pos (base : Z) (p : N → bool) number acc :
  (∀ ch, p ch = true → 1 ≤ Z.of_N ch - base + 1)%Z →
  forallb p number = true → (0 ≤ acc)%Z →
  (acc ≤ fold_left (λ result ch, result * 26 + (Z.of_N ch - base + 1)) number acc)%Z
  ∧ (number ≠ [] →
     1 ≤ fold_left (λ result ch, result * 26 + (Z.of_N ch - base + 1)) number acc)%Z.
Proof.
  intros Hp. revert acc.
  induction number as [|ch rest IH]; intros acc H Hacc; simpl in *; [split; [lia|done]|].
  apply andb_true_iff in H as [Hch Hrest]. apply Hp in Hch.
  destruct (IH (acc * 26 + (Z.of_N ch - base + 1))%Z Hrest ltac:(lia)) as [Hle _].
  split; [lia|]. intros _. lia.
Qed.

Lemma convert_lower_alpha_pos number :
  number ≠ [] → forallb is_lower number = true → (1 ≤ convert_lower_alpha number)%Z.
Proof.
  intros Hne H. unfold convert_lower_alpha.
  apply (alpha_fold_pos (Z.of_N (ord "a")) is_lower number 0%Z); try done.
  intros ch. unfold is_lower. change (Z.of_N (ord "a")) with 97%Z. lia.
Qed.

Lemma convert_upper_alpha_pos number :
  number ≠ [] → forallb is_upper number = true → (1 ≤ convert_upper_alpha number)%Z.
Proof.
  intros Hne H. unfold convert_upper_alpha.
  apply (alpha_fold_pos (Z.of_N (ord "A")) is_upper number 0%Z); try done.
  intros ch. unfold is_upper. change (Z.of_N (ord "A")) with 65%Z. lia.
Qed.

Lemma upper_is_upper number :
  forallb is_letter number = true → forallb is_upper (upper number) = true.
Proof.
  induction number as [|ch rest IH]; simpl; [done|].
  rewrite !andb_true_iff. intros [Hch Hrest]. split; [|by apply IH].
  unfold is_letter, is_lower, is_upper in Hch. unfold upper_char, is_upper.
  destruct ((97 <=? ch)%N && (ch <=? 122)%N) eqn:E; lia.
Qed.

Lemma convert_mixed_alpha_pos number :
  number ≠ [] → forallb is_letter number = true → (1 ≤ convert_mixed_alpha number)%Z.
Proof.
  intros Hne H. unfold convert_mixed_alpha. apply convert_upper_alpha_pos.
  - by destruct number.
  - by apply upper_is_upper.
Qed.

Lemma in_default_order_spec k values :
  in_default_order k values = true
  ↔ ∀ i v, values !! i = Some v → v = (Z.of_nat (k + i) + 1)%Z.
Proof.
  revert k. induction values as [|v rest IH]; intros k; simpl.
  - split; [|done]. intros _ i v'. by rewrite lookup_nil.
  - rewrite andb_true_iff, IH. split.
    + intros [Hv Hrest] [|i] v'; simpl.
      * intros [= <-]. rewrite Nat.add_0_r. lia.
      * intros Hi. rewrite (Hrest i v' Hi). lia.
    + intros H. split.
      * specialize (H 0%nat v eq_refl). rewrite Nat.add_0_r in H. lia.
      * intros i v' Hi. rewrite (H (S i) v' Hi). lia.
Qed.

Lemma ordinal_bounds mixed_case labels scheme label :
  resolve mixed_case labels = Some scheme →
  Forall (λ label, label ≠ []) labels →
  label ∈ labels →
  (0 ≤ ordinal scheme label)%Z
  ∧ (reported scheme ≠ "decimal" → 1 ≤ ordinal scheme label)%Z.
Proof.
  intros Hres Hne Hin.
  assert (Hlabel : label ≠ []) by (by apply (proj1 (Forall_forall _ _) Hne)).
  destruct (pick_fits _ _ _ _ _ _ Hres)
    as [[-> H]|[[-> H]|[[-> H]|(-> & H & _)]]];
    pose proof (all_fit_elem _ _ _ H Hin) as Hfit; unfold ordinal; simpl.
  - split; [by apply decimal_value_nonneg|]. by intros [].
  - pose proof (convert_lower_alpha_pos _ Hlabel Hfit). split; intros; lia.
  - pose proof (convert_upper_alpha_pos _ Hlabel Hfit). split; intros; lia.
  - pose proof (convert_mixed_alpha_pos _ Hlabel Hfit). split; intros; lia.
Qed.

Lemma decimal_fold_zero number acc :
  forallb is_digit number = true → (0 ≤ acc)%Z →
  fold_left (λ acc ch, acc * 10 + (Z.of_N ch - 48))%Z number acc = 0%Z
  ↔ acc = 0%Z ∧ Forall (λ ch, ch = ord "0") number.
Proof.
  revert acc. induction number as [|ch rest IH]; intros acc H Hacc; simpl in *.
  - split; [by intros ->|by intros [-> _]].
  - apply andb_true_iff in H as [Hch Hrest]. unfold is_digit in Hch.
    rewrite IH by (done || lia). rewrite Forall_cons.
    change (ord "0") with 48%N. split.
    + intros [E Hzero]. repeat split; [lia|lia|done].
    + intros (-> & -> & Hzero). by split.
Qed.

Lemma ordinal_zero mixed_case labels scheme label :
  resolve mixed_case labels = Some scheme →
  Forall (λ label, label ≠ []) labels →
  label ∈ labels →
  ordinal scheme label = 0%Z
  ↔ reported scheme = "decimal" ∧ Forall (λ ch, ch = ord "0") label.
Proof.
  intros Hres Hne Hin.
  destruct (ordinal_bounds _ _ _ _ Hres Hne Hin) as [_ Hpos].
  destruct (pick_fits _ _ _ _ _ _ Hres)
    as [[-> H]|[[-> H]|[[-> H]|(-> & H & _)]]].
  - pose proof (all_fit_elem _ _ _ H Hin) as Hfit.
    unfold ordinal, decimal_value. simpl.
    rewrite (decimal_fold_zero label 0%Z Hfit) by lia. tauto.
  - split; [intros E|by intros [[=] _]]. specialize (Hpos ltac:(done)). lia.
  - split; [intros E|by intros [[=] _]]. specialize (Hpos ltac:(done)). lia.
  - split; [intros E|by intros [[=] _]]. specialize (Hpos ltac:(done)). lia.
Qed.

(** Distinct labels of a scheme have distinct ordinals. *)
Lemma alpha_fold_inj (base : Z) (p : N → bool) :
  (∀ ch, p ch = true → 1 ≤ Z.of_N ch - base + 1 ≤ 26)%Z →
  ∀ s t, forallb p s = true → forallb p t = true →
    fold_left (λ result ch, result * 26 + (Z.of_N ch - base + 1))%Z s 0%Z
    = fold_left (λ result ch, result * 26 + (Z.of_N ch - base + 1))%Z t 0%Z →
    s = t.
Proof.
  intros Hp.
  assert (Hpos : ∀ ch, p ch = true → (1 ≤ Z.of_N ch - base + 1)%Z)
    by (intros ch H; apply Hp in H; lia).
  induction s as [|c s IH] using rev_ind; intros t Hs Ht E.
  - destruct t as [|c' t _] using rev_ind; [done|].
    rewrite forallb_app in Ht. apply andb_true_iff in Ht as [Ht Hc'].
    simpl in Hc'. rewrite andb_true_r in Hc'.
    rewrite fold_left_app in E. simpl in E.
    pose proof (alpha_fold_pos base p t 0%Z Hpos Ht ltac:(lia)) as [Hge _].
    apply Hp in Hc'. lia.
  - rewrite forallb_app in Hs. apply andb_true_iff in Hs as [Hs Hc].
    simpl in Hc. rewrite andb_true_r in Hc.
    pose proof (alpha_fold_pos base p s 0%Z Hpos Hs ltac:(lia)) as [Hges _].
    destruct t as [|c' t _] using rev_ind.
    + rewrite fold_left_app in E. simpl in E. apply Hp in Hc. lia.
    + rewrite forallb_app in Ht. apply andb_true_iff in Ht as [Ht Hc'].
      simpl in Hc'. rewrite andb_true_r in Hc'.
      pose proof (alpha_fold_pos base p t 0%Z Hpos Ht ltac:(lia)) as [Hget _].
      rewrite !fold_left_app in E. simpl in E.
      apply Hp in Hc, Hc'.
      assert (c = c') as -> by lia.
      f_equal. apply IH; [done..|lia].
Qed.

Lemma convert_lower_alpha_inj s t :
  forallb is_lower s = true → forallb is_lower t = true →
  convert_lower_alpha s = convert_lower_alpha t → s = t.
Proof.
  apply (alpha_fold_inj (Z.of_N (ord "a")) is_lower).
  intros ch. unfold is_lower. change (Z.of_N (ord "a")) with 97%Z. lia.
Qed.

Lemma convert_upper_alpha_inj s t :
  forallb is_upper s = true → forallb is_upper t = true →
  convert_upper_alpha s = convert_upper_alpha t → s = t.
Proof.
  apply (alpha_fold_inj (Z.of_N (ord "A")) is_upper).
  intros ch. unfold is_upper. change (Z.of_N (ord "A")) with 65%Z. lia.
Qed.

(** ** Bijective base 26 *)

Lemma elem_of_charset_decimal ch : ch ∈ charset_of "decimal" ↔ is_digit ch = true.
Proof. apply elem_of_digits. Qed.

Lemma elem_of_charset_lower ch : ch ∈ charset_of "lower-alpha" ↔ is_lower ch = true.
Proof. apply elem_of_lowercase. Qed.

Lemma elem_of_charset_upper ch : ch ∈ charset_of "upper-alpha" ↔ is_upper ch = true.
Proof. apply elem_of_uppercase. Qed.

Lemma elem_of_charset_mixed ch : ch ∈ charset_of "mixed-alpha" ↔ is_letter ch = true.
Proof. apply elem_of_letters. Qed.

Lemma Forall_charset (cs : gset N) (p : N → bool) (label : list N) :
  (∀ ch, ch ∈ cs ↔ p ch = true) →
  Forall (λ ch, ch ∈ cs) label ↔ forallb p label = true.
Proof.
  intros Hp. rewrite forallb_forall, Forall_forall.
  split; intros H ch Hin; apply Hp, H; by apply list_elem_of_In.
Qed.

Lemma letter_range (first ch : N) :
  (first ≤ ch)%N → (ch ≤ first + 25)%N →
  ∃ n, (n < 26)%nat ∧ ch = (first + N.of_nat n)%N.
Proof. intros H1 H2. exists (N.to_nat (ch - first)). lia. Qed.

Lemma letter_index_lower ch :
  is_lower ch = true →
  letter_index_from_1 ascii_lowercase ch = (Z.of_N ch - Z.of_N (ord "a") + 1)%Z.
Proof.
  unfold is_lower. intros H.
  destruct (letter_range 97 ch ltac:(lia) ltac:(lia)) as (n & Hn & ->).
  do 26 (destruct n as [|n]; [vm_compute; reflexivity|]). lia.
Qed.

Lemma letter_index_upper ch :
  is_upper ch = true →
  letter_index_from_1 ascii_uppercase ch = (Z.of_N ch - Z.of_N (ord "A") + 1)%Z.
Proof.
  unfold is_upper. intros H.
  destruct (letter_range 65 ch ltac:(lia) ltac:(lia)) as (n & Hn & ->).
  do 26 (destruct n as [|n]; [vm_compute; reflexivity|]). lia.
Qed.

Lemma fold_left_ext_Forall {A B} (f g : A → B → A) (p : B → bool) (l : list B) (a : A) :
  (∀ a b, p b = true → f a b = g a b) →
  forallb p l = true → fold_left f l a = fold_left g l a.
Proof.
  intros Hfg. revert a. induction l as [|b l IH]; intros a H; simpl in *; [done|].
  apply andb_true_iff in H as [Hb Hl]. rewrite Hfg by done. by apply IH.
Qed.

Lemma convert_lower_alpha_base26 label :
  forallb is_lower label = true →
  convert_lower_alpha label = bijective_base26 ascii_lowercase label.
Proof.
  intros H. apply (fold_left_ext_Forall _ _ is_lower); [|done].
  intros value ch Hch. by rewrite letter_index_lower.
Qed.

Lemma convert_upper_alpha_base26 label :
  forallb is_upper label = true →
  convert_upper_alpha label = bijective_base26 ascii_uppercase label.
Proof.
  intros H. apply (fold_left_ext_Forall _ _ is_upper); [|done].
  intros value ch Hch. by rewrite letter_index_upper.
Qed.

(** ** Resolution of the scheme *)

Lemma reported_not_mixed scheme : reported scheme ≠ "mixed-alpha".
Proof.
  unfold reported. destruct (String.eqb_spec scheme "mixed-alpha"); [discriminate|done].
Qed.

Lemma all_fit_exclusive (p q : N → bool) (labels : list (list N)) :
  (∀ ch, p ch = true → q ch = false) →
  labels ≠ [] → Forall (λ label, label ≠ []) labels →
  all_fit p labels = true → all_fit q labels = false.
Proof.
  intros Hpq Hlabels Hne Hp.
  destruct labels as [|[|ch label] labels]; [done| |].
  - by inversion Hne.
  - simpl in *. apply andb_true_iff in Hp as [Hp _].
    apply andb_true_iff in Hp as [Hp _]. by rewrite (Hpq ch Hp).
Qed.

Lemma all_fit_weaken (p q : N → bool) (labels : list (list N)) :
  (∀ ch, p ch = true → q ch = true) →
  all_fit p labels = true → all_fit q labels = true.
Proof.
  intros Hpq. unfold all_fit. rewrite !forallb_forall.
  intros H label Hin. specialize (H label Hin). rewrite forallb_forall in *.
  auto.
Qed.

Lemma listalyze_filter_mixed_spec mixed_case d l up m :
  listalyze_filter_mixed mixed_case (schemes_of d l up m)
  = Normal (schemes_of d l up (mixed_case && m)).
Proof. apply normal_value_Some. destruct mixed_case, d, l, up, m; compute_done. Qed.

Lemma listalyze_tie_break_spec d l up m :
  listalyze_tie_break (schemes_of d l up m)
  = Normal (schemes_of d l up (m && negb (d || l || up))).
Proof. apply normal_value_Some. destruct d, l, up, m; compute_done. Qed.

Lemma pick_remaining mixed_case d l up m :
  match pick mixed_case d l up m with
  | Some scheme =>
      schemes_of d l up ((mixed_case && m) && negb (d || l || up)) = {[scheme]}
  | None => size (schemes_of d l up ((mixed_case && m) && negb (d || l || up))) ≠ 1%nat
  end.
Proof. destruct mixed_case, d, l, up, m; compute_done. Qed.

Lemma candidates_spec mixed_case labels :
  candidates mixed_case labels
  = Normal (schemes_of (all_fit is_digit labels) (all_fit is_lower labels)
              (all_fit is_upper labels)
              ((mixed_case && all_fit is_letter labels)
               && negb (all_fit is_digit labels || all_fit is_lower labels
                        || all_fit is_upper labels))).
Proof.
  unfold candidates. rewrite listalyze_find_schemes_spec. cbn [bind].
  rewrite listalyze_filter_mixed_spec. cbn [bind].
  apply listalyze_tie_break_spec.
Qed.

Lemma candidates_at_most_one mixed_case labels :
  labels ≠ [] → Forall (λ label, label ≠ []) labels →
  ∃ remaining, candidates mixed_case labels = Normal remaining
               ∧ (size remaining ≤ 1)%nat.
Proof.
  intros Hlabels Hne. rewrite candidates_spec. eexists. split; [reflexivity|].
  destruct (all_fit is_digit labels) eqn:Hd.
  - rewrite (all_fit_exclusive is_digit is_lower labels) by
      (try done; intros ch H; apply digit_not_letter in H;
       unfold is_letter in H; by apply orb_false_iff in H as [? ?]).
    rewrite (all_fit_exclusive is_digit is_upper labels) by
      (try done; intros ch H; apply digit_not_letter in H;
       unfold is_letter in H; by apply orb_false_iff in H as [? ?]).
    rewrite (all_fit_exclusive is_digit is_letter labels)
      by (try done; apply digit_not_letter).
    destruct mixed_case; compute_done.
  - destruct (all_fit is_lower labels) eqn:Hl.
    + rewrite (all_fit_exclusive is_lower is_upper labels)
        by (try done; apply lower_not_upper).
      destruct mixed_case, (all_fit is_letter labels); compute_done.
    + destruct mixed_case, (all_fit is_upper labels), (all_fit is_letter labels);
        compute_done.
Qed.

Lemma resolved_iff_single_candidate items require_dot mixed_case labels :
  normalize require_dot items = Some labels →
  ∃ remaining,
    candidates mixed_case labels = Normal remaining
    ∧ ((∃ scheme value_list default_order,
          remaining = {[scheme]}
          ∧ listalyze (ulist items) require_dot mixed_case
            = Return (Some (reported scheme), value_list, default_order))
       ∨ (size remaining ≠ 1%nat
          ∧ listalyze (ulist items) require_dot mixed_case
            = Return (None, PyUnicode <$> items, false))).
Proof.
  intros Hnorm. rewrite candidates_spec. eexists. split; [reflexivity|].
  rewrite listalyze_unicode_list, Hnorm. unfold resolve.
  pose proof (pick_remaining mixed_case (all_fit is_digit labels)
                (all_fit is_lower labels) (all_fit is_upper labels)
                (all_fit is_letter labels)) as Hpick.
  destruct (pick mixed_case _ _ _ _) as [scheme|].
  - left. by eexists scheme, _, _.
  - by right.
Qed.

(** ** The dot policy *)

Lemma slice_init_snoc (s : list N) ch : slice_init (s ++ [ch]) = s.
Proof.
  unfold slice_init. apply take_app_length'.
  rewrite length_app. simpl. lia.
Qed.

Lemma last_fits (p : N → bool) (s : list N) ch :
  forallb p s = true → last s = Some ch → p ch = true.
Proof.
  intros H Hlast. rewrite forallb_forall in H. apply H.
  by apply list_elem_of_In, last_Some_elem_of.
Qed.

(** A trimmed label that is [body], with or without a dot after it,
    is normalized to [body], whenever it is accepted. *)
Lemma normalize_label_body (p : N → bool) require_dot number body number' :
  p dot = false → body ≠ [] → forallb p body = true →
  number = body ∨ number = body ++ [dot] →
  normalize_label require_dot number = Some number' → number' = body.
Proof.
  intros Hdot Hbody Hp Hnumber.
  assert (Hlast : last body ≠ Some dot).
  { intros E. apply (last_fits p) in E; [congruence|done]. }
  unfold normalize_label.
  destruct Hnumber as [->| ->].
  - rewrite (bool_decide_eq_false_2 (last body = Some dot)) by done.
    destruct require_dot.
    + by destruct (length body <? 2)%nat.
    + destruct (length body <? 1)%nat; [done|].
      case_bool_decide; congruence.
  - rewrite last_snoc, (bool_decide_eq_true_2 (Some dot = Some dot)) by done.
    rewrite slice_init_snoc.
    destruct require_dot.
    + destruct (length (body ++ [dot]) <? 2)%nat; congruence.
    + destruct (length (body ++ [dot]) <? 1)%nat; [done|].
      case_bool_decide; congruence.
Qed.

Lemma normalize_elem require_dot items labels x :
  normalize require_dot items = Some labels → x ∈ items →
  ∃ label, label ∈ labels ∧ normalize_label require_dot (strip x) = Some label.
Proof.
  unfold normalize. intros H Hx. apply mapM_Some_1 in H.
  apply (list_elem_of_fmap_2 strip) in Hx.
  apply list_elem_of_lookup in Hx as [i Hi].
  destruct (Forall2_lookup_l _ _ _ _ _ H Hi) as (label & Hlabel & E).
  exists label. split; [|done]. apply list_elem_of_lookup. eauto.
Qed.

Lemma normalize_rejects require_dot items x :
  x ∈ items → normalize_label require_dot (strip x) = None →
  normalize require_dot items = None.
Proof.
  intros Hx Hnone. unfold normalize. apply mapM_None_2, Exists_exists.
  exists (strip x). split; [|done]. by apply list_elem_of_fmap_2.
Qed.

Lemma listalyze_rejected_labels items require_dot mixed_case :
  normalize require_dot items = None →
  listalyze (ulist items) require_dot mixed_case
  = Return (None, PyUnicode <$> items, false).
Proof. intros H. by rewrite listalyze_unicode_list, H. Qed.

Lemma listalyze_dots_spec require_dot dont (trimmed : list (list N)) :
  listalyze_dots require_dot dont (seq 0 (length trimmed)) (PyUnicode <$> trimmed)
  = match mapM (normalize_label require_dot) trimmed with
    | Some labels => Normal (PyUnicode <$> labels)
    | None => Return dont
    end.
Proof.
  replace (length trimmed) with (length (PyUnicode <$> trimmed))
    by apply length_fmap.
  by rewrite listalyze_dots_traverse, traverse_dots.
Qed.

Lemma mapM_pointwise {A B} (f : A → option B) (g : A → B) (l : list A) :
  Forall (λ x, f x = Some (g x)) l → mapM f l = Some (g <$> l).
Proof.
  intros H. apply mapM_Some_2.
  induction H; simpl; by constructor.
Qed.

Lemma slice_init_dot (number : list N) :
  last number = Some dot → number = slice_init number ++ [dot].
Proof.
  intros H. apply last_Some in H as [body ->]. by rewrite slice_init_snoc.
Qed.

Lemma normalize_label_required_None number :
  (length number < 2)%nat ∨ last number ≠ Some dot →
  normalize_label true number = None.
Proof.
  unfold normalize_label. intros [H|H].
  - apply Nat.ltb_lt in H. by rewrite H.
  - destruct (length number <? 2)%nat; [done|].
    by rewrite bool_decide_eq_false_2.
Qed.

Lemma normalize_label_required_Some number :
  (2 ≤ length number)%nat → last number = Some dot →
  normalize_label true number = Some (slice_init number).
Proof.
  unfold normalize_label. intros Hlen Hlast.
  apply Nat.ltb_ge in Hlen. by rewrite Hlen, bool_decide_eq_true_2.
Qed.

Lemma normalize_label_optional_None number :
  number = [] ∨ number = [dot] → normalize_label false number = None.
Proof. by intros [-> | ->]. Qed.

Lemma normalize_label_optional_Some number :
  number ≠ [] → number ≠ [dot] →
  normalize_label false number = Some (strip_dot number).
Proof.
  unfold normalize_label, strip_dot. intros Hne Hdot.
  destruct number as [|ch rest]; [done|]. cbn [length Nat.ltb Nat.leb]. cbv zeta.
  destruct (bool_decide (last (ch :: rest) = Some dot)) eqn:Hlast.
  - apply bool_decide_eq_true in Hlast.
    rewrite bool_decide_eq_false_2; [done|].
    intros E. apply slice_init_dot in Hlast. rewrite E in Hlast. by simpl in Hlast.
  - by rewrite bool_decide_eq_false_2.
Qed.

(** ** The messages identify the item *)

Lemma string_length_append (s t : string) :
  String.length (s +:+ t) = (String.length s + String.length t)%nat.
Proof.
  induction s as [|c s IH]; [reflexivity|].
  change (String.length (String c s +:+ t)) with (S (String.length (s +:+ t))).
  by rewrite IH.
Qed.

Lemma string_append_cancel_r (s1 s2 t : string) :
  s1 +:+ t = s2 +:+ t → s1 = s2.
Proof.
  revert s2. induction s1 as [|c s1 IH]; intros [|c' s2] H.
  - done.
  - apply (f_equal String.length) in H.
    rewrite !string_length_append in H. simpl in H. lia.
  - apply (f_equal String.length) in H.
    rewrite !string_length_append in H. simpl in H. lia.
  - injection H as -> H. f_equal. by apply IH.
Qed.

Lemma to_uint_not_Nil (i : nat) : Nat.to_uint i ≠ Decimal.Nil.
Proof.
  intros E. pose proof (f_equal Nat.of_uint E) as E'.
  rewrite DecimalNat.Unsigned.of_to in E'. subst i. discriminate E.
Qed.

Lemma format_d_inj i j : format_d i = format_d j → i = j.
Proof.
  unfold format_d. intros H.
  apply (f_equal NilZero.uint_of_string) in H.
  rewrite !NilZero.usu in H by apply to_uint_not_Nil.
  injection H as H. by apply DecimalNat.Unsigned.to_uint_inj.
Qed.

Lemma type_name_cases o :
  type_name o ∈ ["NoneType"; "bool"; "int"; "long"; "str"; "unicode"; "list"; "tuple"].
Proof.
  destruct o as [| |z| | | | |]; cbn [type_name];
    try destruct ((- maxint - 1 <=? z) && (z <=? maxint))%Z;
    apply list_elem_of_In; simpl; tauto.
Qed.

Lemma not_unicode_message_inj o i o' j :
  not_unicode_message o i = not_unicode_message o' j →
  type_name o = type_name o' ∧ i = j.
Proof.
  unfold not_unicode_message.
  pose proof (type_name_cases o) as Ho. pose proof (type_name_cases o') as Ho'.
  apply list_elem_of_In in Ho, Ho'. simpl in Ho, Ho'.
  destruct Ho as [<- | [<- | [<- | [<- | [<- | [<- | [<- | [<- | []]]]]]]]];
    destruct Ho' as [<- | [<- | [<- | [<- | [<- | [<- | [<- | [<- | []]]]]]]]];
    simpl; intros H; try discriminate H; split; try reflexivity;
    repeat (injection H as H);
    match type of H with
    | _ +:+ ?a +:+ ?s = _ +:+ ?b +:+ ?s => change (a +:+ s = b +:+ s) in H
    end;
    by apply string_append_cancel_r, format_d_inj in H.
Qed.

(** ** The properties of the specification *)

(** C1 (as amended). Whenever [listalyze] returns without a numbering
    scheme, the value list is the list of the original labels, as
    they were produced by [numbers]: same length, same order, and
    neither trimmed nor stripped of a dot; [default_order] is false. *)
Theorem no_scheme_returns_raw_labels numbers require_dot mixed_case value_list default_order :
  listalyze numbers require_dot mixed_case = Return (None, value_list, default_order) →
  ∃ items,
    py_iter numbers = Some value_list
    ∧ value_list = PyUnicode <$> items
    ∧ default_order = false.
Proof.
  intros H. apply listalyze_returns_inv in H as (items & Hiter & H).
  exists items. rewrite Hiter.
  destruct (listalyze_unicode_result items require_dot mixed_case)
    as [E|(labels & scheme & _ & _ & E)]; rewrite E in H; [|discriminate].
  by injection H as <- <-.
Qed.

Lemma no_scheme_returns_raw_labels_witness :
  ∃ items,
    py_iter (ulist [u " 1."; u "2"]) = Some [PyUnicode (u " 1."); PyUnicode (u "2")]
    ∧ [PyUnicode (u " 1."); PyUnicode (u "2")] = PyUnicode <$> items
    ∧ false = false.
Proof.
  apply (no_scheme_returns_raw_labels (ulist [u " 1."; u "2"]) true false).
  vm_compute. reflexivity.
Defined.

(** C1, the claim as stated fails: the labels of the fallback value
    list keep their surrounding whitespace. *)
Lemma fallback_labels_not_trimmed :
  ∃ value_list,
    listalyze (ulist [u " 1."; u "2"]) true false = Return (None, value_list, false)
    ∧ value_list = [PyUnicode (u " 1."); PyUnicode (u "2")]
    ∧ value_list ≠ PyUnicode <$> (strip <$> [u " 1."; u "2"]).
Proof.
  eexists. split; [vm_compute; reflexivity|]. split; [reflexivity|].
  vm_compute. discriminate.
Qed.

(** C2 (as amended). Whenever a scheme is resolved, every item of the
    value list is an integer that is at least 0, and at least 1 unless
    the scheme is decimal; it is 0 exactly when the scheme is decimal
    and the normalized label is made of the digit 0 only. *)
Theorem converted_values_bounds numbers require_dot mixed_case scheme value_list default_order :
  listalyze numbers require_dot mixed_case
  = Return (Some scheme, value_list, default_order) →
  Forall (λ x, ∃ z, x = PyInt z ∧ (0 ≤ z)%Z ∧ (scheme ≠ "decimal" → (1 ≤ z)%Z))
    value_list
  ∧ ∃ items labels,
      py_iter numbers = Some (PyUnicode <$> items)
      ∧ normalize require_dot items = Some labels
      ∧ Forall2 (λ label x, ∃ z, x = PyInt z
                   ∧ (z = 0%Z ↔ scheme = "decimal" ∧ Forall (λ ch, ch = ord "0") label))
          labels value_list.
Proof.
  intros H. apply listalyze_returns_inv in H as (items & Hiter & H).
  destruct (listalyze_unicode_result items require_dot mixed_case)
    as [E|(labels & sch & Hnorm & Hres & E)]; rewrite E in H; [discriminate|].
  injection H as <- <- <-.
  pose proof (normalize_nonempty _ _ _ Hnorm) as Hne. split.
  - rewrite <- list_fmap_compose. apply Forall_fmap, Forall_forall.
    intros label Hin. simpl. eexists. split; [reflexivity|].
    by eapply ordinal_bounds.
  - exists items, labels. repeat split; [done..|].
    rewrite <- list_fmap_compose. apply Forall2_fmap_r, Forall_Forall2_diag.
    apply Forall_forall. intros label Hin. simpl.
    eexists. split; [reflexivity|]. by eapply ordinal_zero.
Qed.

Lemma converted_values_bounds_witness :
  Forall (λ x, ∃ z, x = PyInt z ∧ (0 ≤ z)%Z ∧ ("lower-alpha" ≠ "decimal" → (1 ≤ z)%Z))
    [PyInt 26; PyInt 27]
  ∧ ∃ items labels,
      py_iter (ulist [u "z."; u "aa."]) = Some (PyUnicode <$> items)
      ∧ normalize true items = Some labels
      ∧ Forall2 (λ label x, ∃ z, x = PyInt z
                   ∧ (z = 0%Z ↔ "lower-alpha" = "decimal" ∧ Forall (λ ch, ch = ord "0") label))
          labels [PyInt 26; PyInt 27].
Proof.
  apply (converted_values_bounds (ulist [u "z."; u "aa."]) true false "lower-alpha"
           [PyInt 26; PyInt 27] false).
  vm_compute. reflexivity.
Defined.

(** C2, the claim as stated fails: the decimal label [0.] converts to 0. *)
Lemma decimal_zero_is_converted_to_zero :
  ∃ scheme value_list default_order z,
    listalyze (ulist [u "0."]) true false
    = Return (Some scheme, value_list, default_order)
    ∧ value_list = [PyInt z] ∧ z = 0%Z ∧ ¬ (1 ≤ z)%Z.
Proof.
  exists "decimal", [PyInt 0], false, 0%Z.
  split; [vm_compute; reflexivity|]. repeat split. lia.
Qed.

(** C3. The alphabetic converters are bijective base 26: on a
    non-empty label made of the letters of the scheme, the ordinal is
    the left-to-right fold [value * 26 + letter_index_from_1], with 1
    for the first letter of the alphabet and 26 for the last, and
    distinct labels have distinct ordinals; [z] is 26 and [aa] is 27,
    and the labels [a, ..., z, aa, ab] convert to [1, ..., 28] in
    default order. *)
Theorem alpha_converters_bijective_base26 :
  (∀ label, label ≠ [] → Forall (λ ch, ch ∈ charset_of "lower-alpha") label →
     scheme_converters !! "lower-alpha" = Some (λ number, Normal (convert_lower_alpha number))
     ∧ convert_lower_alpha label = bijective_base26 ascii_lowercase label)
  ∧ (∀ label, label ≠ [] → Forall (λ ch, ch ∈ charset_of "upper-alpha") label →
     scheme_converters !! "upper-alpha" = Some (λ number, Normal (convert_upper_alpha number))
     ∧ convert_upper_alpha label = bijective_base26 ascii_uppercase label)
  ∧ (∀ label label',
       Forall (λ ch, ch ∈ charset_of "lower-alpha") label →
       Forall (λ ch, ch ∈ charset_of "lower-alpha") label' →
       convert_lower_alpha label = convert_lower_alpha label' → label = label')
  ∧ (∀ label label',
       Forall (λ ch, ch ∈ charset_of "upper-alpha") label →
       Forall (λ ch, ch ∈ charset_of "upper-alpha") label' →
       convert_upper_alpha label = convert_upper_alpha label' → label = label')
  ∧ letter_index_from_1 ascii_lowercase (ord "a") = 1%Z
  ∧ letter_index_from_1 ascii_lowercase (ord "z") = 26%Z
  ∧ letter_index_from_1 ascii_uppercase (ord "A") = 1%Z
  ∧ letter_index_from_1 ascii_uppercase (ord "Z") = 26%Z
  ∧ convert_lower_alpha (u "z") = 26%Z ∧ convert_lower_alpha (u "aa") = 27%Z
  ∧ convert_upper_alpha (u "Z") = 26%Z ∧ convert_upper_alpha (u "AA") = 27%Z
  ∧ listalyze (ulist alphabet_28) false false
    = Return (Some "lower-alpha", PyInt <$> (Z.of_nat <$> seq 1 28), true)
  ∧ listalyze (ulist ((λ label, label ++ u ".") <$> alphabet_28)) true false
    = Return (Some "lower-alpha", PyInt <$> (Z.of_nat <$> seq 1 28), true).
Proof.
  split; [|split; [|split; [|split]]].
  - intros label _ H. split; [reflexivity|].
    apply convert_lower_alpha_base26.
    by apply (Forall_charset _ _ _ elem_of_charset_lower).
  - intros label _ H. split; [reflexivity|].
    apply convert_upper_alpha_base26.
    by apply (Forall_charset _ _ _ elem_of_charset_upper).
  - intros label label' H H'.
    apply convert_lower_alpha_inj;
      by apply (Forall_charset _ _ _ elem_of_charset_lower).
  - intros label label' H H'.
    apply convert_upper_alpha_inj;
      by apply (Forall_charset _ _ _ elem_of_charset_upper).
  - repeat split; vm_compute; reflexivity.
Qed.

Lemma alpha_converters_bijective_base26_witness :
  convert_lower_alpha (u "ba") = bijective_base26 ascii_lowercase (u "ba")
  ∧ convert_upper_alpha (u "AZ") = bijective_base26 ascii_uppercase (u "AZ").
Proof.
  split.
  - apply (proj1 alpha_converters_bijective_base26 (u "ba")); [discriminate|].
    apply (Forall_charset _ _ _ elem_of_charset_lower). reflexivity.
  - apply (proj1 (proj2 alpha_converters_bijective_base26) (u "AZ")); [discriminate|].
    apply (Forall_charset _ _ _ elem_of_charset_upper). reflexivity.
Defined.

(** C4. The labels [a.] and [B.] are not recognized without
    [mixed_case]; with it they resolve to values 1 and 2 under the name
    [upper-alpha].  So does every input whose letters mix the cases,
    and no call returns the name [mixed-alpha]. *)
Theorem mixed_alpha_reported_as_upper_alpha :
  listalyze (ulist [u "a."; u "B."]) true false
  = Return (None, [PyUnicode (u "a."); PyUnicode (u "B.")], false)
  ∧ listalyze (ulist [u "a."; u "B."]) true true
    = Return (Some "upper-alpha", [PyInt 1; PyInt 2], true)
  ∧ (∀ items require_dot labels,
       normalize require_dot items = Some labels →
       all_fit is_letter labels = true →
       all_fit is_lower labels = false → all_fit is_upper labels = false →
       listalyze (ulist items) require_dot false
       = Return (None, PyUnicode <$> items, false)
       ∧ listalyze (ulist items) require_dot true
         = Return (Some "upper-alpha",
                   PyInt <$> (convert_mixed_alpha <$> labels),
                   in_default_order 0 (convert_mixed_alpha <$> labels)))
  ∧ (∀ numbers require_dot mixed_case value_list default_order,
       listalyze numbers require_dot mixed_case
       ≠ Return (Some "mixed-alpha", value_list, default_order)).
Proof.
  split; [vm_compute; reflexivity|]. split; [vm_compute; reflexivity|]. split.
  - intros items require_dot labels Hnorm Hm Hl Hu.
    assert (Hd : all_fit is_digit labels = false).
    { destruct (all_fit is_digit labels) eqn:Hd; [|done].
      assert (labels ≠ []) by (intros ->; discriminate).
      rewrite (all_fit_exclusive is_digit is_letter labels) in Hm;
        eauto using normalize_nonempty, digit_not_letter. }
    rewrite !listalyze_unicode_list, Hnorm. unfold resolve.
    by rewrite Hd, Hl, Hu, Hm.
  - intros numbers require_dot mixed_case value_list default_order H.
    apply listalyze_returns_inv in H as (items & _ & H).
    destruct (listalyze_unicode_result items require_dot mixed_case)
      as [E|(labels & scheme & _ & _ & E)]; rewrite E in H; [discriminate|].
    injection H as H _ _. by apply reported_not_mixed in H.
Qed.

Lemma mixed_alpha_reported_as_upper_alpha_witness :
  listalyze (ulist [u " aB. "; u "Cd."]) true false
  = Return (None, PyUnicode <$> [u " aB. "; u "Cd."], false)
  ∧ listalyze (ulist [u " aB. "; u "Cd."]) true true
    = Return (Some "upper-alpha",
              PyInt <$> (convert_mixed_alpha <$> [u "aB"; u "Cd"]),
              in_default_order 0 (convert_mixed_alpha <$> [u "aB"; u "Cd"])).
Proof.
  apply (proj1 (proj2 (proj2 mixed_alpha_reported_as_upper_alpha))
           [u " aB. "; u "Cd."] true [u "aB"; u "Cd"]);
    vm_compute; reflexivity.
Defined.

(** C5 (as amended). The tie-break removes [mixed-alpha] whenever more
    than one candidate is left after the [mixed_case] filter and
    [mixed-alpha] is one of them, and only then; on a non-empty input
    at most one candidate remains; on the empty input the three
    candidates [decimal], [lower-alpha] and [upper-alpha] remain and no
    scheme is resolved; a scheme is resolved exactly when a single
    candidate remains, and it is that candidate; lowercase labels with
    [mixed_case] set resolve to [lower-alpha]. *)
Theorem tie_break_keeps_at_most_one_scheme :
  (∀ number_schemes : gset string,
     (1 < size number_schemes)%nat → "mixed-alpha" ∈ number_schemes →
     listalyze_tie_break number_schemes = Normal (number_schemes ∖ {["mixed-alpha"]}))
  ∧ (∀ number_schemes : gset string,
       ¬ ((1 < size number_schemes)%nat ∧ "mixed-alpha" ∈ number_schemes) →
       listalyze_tie_break number_schemes = Normal number_schemes)
  ∧ (∀ items require_dot mixed_case labels,
       normalize require_dot items = Some labels →
       ∃ remaining,
         candidates mixed_case labels = Normal remaining
         ∧ (items ≠ [] → (size remaining ≤ 1)%nat)
         ∧ ((∃ scheme value_list default_order,
               remaining = {[scheme]}
               ∧ listalyze (ulist items) require_dot mixed_case
                 = Return (Some (reported scheme), value_list, default_order))
            ∨ (size remaining ≠ 1%nat
               ∧ listalyze (ulist items) require_dot mixed_case
                 = Return (None, PyUnicode <$> items, false))))
  ∧ (∀ items require_dot labels,
       normalize require_dot items = Some labels → labels ≠ [] →
       all_fit is_lower labels = true →
       listalyze (ulist items) require_dot true
       = Return (Some "lower-alpha",
                 PyInt <$> (convert_lower_alpha <$> labels),
                 in_default_order 0 (convert_lower_alpha <$> labels)))
  ∧ listalyze (ulist [u "a."; u "b."]) true true
    = Return (Some "lower-alpha", [PyInt 1; PyInt 2], true)
  ∧ (∀ require_dot mixed_case,
       normalize require_dot [] = Some []
       ∧ candidates mixed_case []
         = Normal {["decimal"; "lower-alpha"; "upper-alpha"]}
       ∧ size ({["decimal"; "lower-alpha"; "upper-alpha"]} : gset string) = 3%nat
       ∧ listalyze (ulist []) require_dot mixed_case = Return (None, [], false)).
Proof.
  split; [|split; [|split; [|split; [|split]]]].
  - intros ns Hsize Hin. unfold listalyze_tie_break, set_remove.
    apply Nat.ltb_lt in Hsize. rewrite Hsize, bool_decide_eq_true_2 by done.
    simpl. by rewrite decide_True.
  - intros ns H. unfold listalyze_tie_break.
    destruct (1 <? size ns)%nat eqn:Hsize; [|done].
    apply Nat.ltb_lt in Hsize. rewrite bool_decide_eq_false_2; [done|tauto].
  - intros items require_dot mixed_case labels Hnorm.
    pose proof (normalize_nonempty _ _ _ Hnorm) as Hne.
    pose proof (normalize_length _ _ _ Hnorm) as Hlen.
    rewrite candidates_spec. eexists. split; [reflexivity|]. split.
    + intros Hitems.
      assert (Hlabels : labels ≠ []).
      { intros ->. destruct items; [done|discriminate]. }
      destruct (candidates_at_most_one mixed_case labels Hlabels Hne)
        as (remaining & E & Hsize).
      rewrite candidates_spec in E. by injection E as <-.
    + destruct (resolved_iff_single_candidate items require_dot mixed_case
                  labels Hnorm) as (remaining & E & H).
      rewrite candidates_spec in E. by injection E as <-.
  - intros items require_dot labels Hnorm Hlabels Hl.
    pose proof (normalize_nonempty _ _ _ Hnorm) as Hne.
    rewrite listalyze_unicode_list, Hnorm. unfold resolve.
    rewrite Hl.
    rewrite (all_fit_exclusive is_lower is_digit labels)
      by (try done; apply lower_not_digit).
    by rewrite (all_fit_exclusive is_lower is_upper labels)
      by (try done; apply lower_not_upper).
  - vm_compute. reflexivity.
  - intros require_dot mixed_case. repeat apply conj.
    + by destruct require_dot.
    + rewrite candidates_spec. apply normal_value_Some.
      destruct mixed_case; compute_done.
    + compute_done.
    + by destruct require_dot, mixed_case.
Qed.

Lemma tie_break_keeps_at_most_one_scheme_witness :
  listalyze_tie_break {["lower-alpha"; "mixed-alpha"]}
  = Normal ({["lower-alpha"; "mixed-alpha"]} ∖ {["mixed-alpha"]})
  ∧ listalyze (ulist [u "x"; u "y."; u "zz"]) false true
    = Return (Some "lower-alpha",
              PyInt <$> (convert_lower_alpha <$> [u "x"; u "y"; u "zz"]),
              in_default_order 0 (convert_lower_alpha <$> [u "x"; u "y"; u "zz"])).
Proof.
  split.
  - apply (proj1 tie_break_keeps_at_most_one_scheme); vm_compute; [lia|reflexivity].
  - apply (proj1 (proj2 (proj2 (proj2 tie_break_keeps_at_most_one_scheme)))
             [u "x"; u "y."; u "zz"] false [u "x"; u "y"; u "zz"]);
      [vm_compute; reflexivity|discriminate|vm_compute; reflexivity].
Defined.

(** C5, the claim as stated fails: on the empty input the tie-break
    leaves three candidates, not at most one. *)
Lemma empty_input_keeps_three_candidates :
  ∃ remaining,
    normalize true [] = Some []
    ∧ candidates true [] = Normal remaining
    ∧ size remaining = 3%nat
    ∧ ¬ (size remaining ≤ 1)%nat
    ∧ listalyze (ulist []) true true = Return (None, [], false).
Proof.
  exists {["decimal"; "lower-alpha"; "upper-alpha"]}. repeat apply conj.
  - reflexivity.
  - rewrite candidates_spec. apply normal_value_Some. compute_done.
  - compute_done.
  - assert (E : size ({["decimal"; "lower-alpha"; "upper-alpha"]} : gset string) = 3%nat)
      by compute_done.
    rewrite E. lia.
  - reflexivity.
Qed.

(** C6. The character set of decimal is disjoint from those of the
    alphabetic schemes.  An input with a label made of digits and a
    label made of letters, each with or without its dot, is never
    recognized, whatever the flags: once the labels pass the dot
    policy, no scheme matches them all. *)
Theorem digits_and_letters_never_resolve :
  (charset_of "decimal" ## charset_of "lower-alpha"
   ∧ charset_of "decimal" ## charset_of "upper-alpha"
   ∧ charset_of "decimal" ## charset_of "mixed-alpha")
  ∧ (∀ items require_dot mixed_case x y digits_only letters_only,
       x ∈ items → y ∈ items →
       digits_only ≠ [] → letters_only ≠ [] →
       Forall (λ ch, ch ∈ charset_of "decimal") digits_only →
       Forall (λ ch, ch ∈ charset_of "mixed-alpha") letters_only →
       strip x = digits_only ∨ strip x = digits_only ++ [dot] →
       strip y = letters_only ∨ strip y = letters_only ++ [dot] →
       listalyze (ulist items) require_dot mixed_case
       = Return (None, PyUnicode <$> items, false)
       ∧ ∀ labels, normalize require_dot items = Some labels →
                   listalyze_find_schemes (PyUnicode <$> labels) = Normal ∅)
  ∧ (∀ mixed_case,
       listalyze (ulist [u "1."; u "a."]) true mixed_case
       = Return (None, [PyUnicode (u "1."); PyUnicode (u "a.")], false)
       ∧ listalyze (ulist [u "1."; u "A."]) true mixed_case
         = Return (None, [PyUnicode (u "1."); PyUnicode (u "A.")], false)
       ∧ listalyze (ulist [u "a."; u "1."]) true mixed_case
         = Return (None, [PyUnicode (u "a."); PyUnicode (u "1.")], false)).
Proof.
  split; [|split].
  - repeat split; intros ch Hd Ha; apply elem_of_charset_decimal in Hd.
    + apply elem_of_charset_lower, lower_is_letter in Ha.
      apply digit_not_letter in Hd. congruence.
    + apply elem_of_charset_upper, upper_is_letter in Ha.
      apply digit_not_letter in Hd. congruence.
    + apply elem_of_charset_mixed in Ha.
      apply digit_not_letter in Hd. congruence.
  - intros items require_dot mixed_case x y ds ls Hx Hy Hds Hls Hd Hl Ex Ey.
    apply (Forall_charset _ _ _ elem_of_charset_decimal) in Hd.
    apply (Forall_charset _ _ _ elem_of_charset_mixed) in Hl.
    assert (Hnone : ∀ labels, normalize require_dot items = Some labels →
              all_fit is_digit labels = false ∧ all_fit is_lower labels = false
              ∧ all_fit is_upper labels = false ∧ all_fit is_letter labels = false).
    { intros labels Hnorm.
      destruct (normalize_elem _ _ _ x Hnorm Hx) as (x' & Hx' & Nx).
      destruct (normalize_elem _ _ _ y Hnorm Hy) as (y' & Hy' & Ny).
      apply (normalize_label_body is_digit _ _ ds) in Nx; [|done..]. subst x'.
      apply (normalize_label_body is_letter _ _ ls) in Ny; [|done..]. subst y'.
      assert (Hletter : all_fit is_letter labels = false).
      { destruct (all_fit is_letter labels) eqn:E; [|done].
        pose proof (all_fit_elem _ _ _ E Hx') as Hfit.
        destruct ds as [|ch ds]; [done|]. simpl in *.
        apply andb_true_iff in Hd as [Hd _]. apply andb_true_iff in Hfit as [Hfit _].
        apply digit_not_letter in Hd. congruence. }
      assert (Hdigit : all_fit is_digit labels = false).
      { destruct (all_fit is_digit labels) eqn:E; [|done].
        pose proof (all_fit_elem _ _ _ E Hy') as Hfit.
        destruct ls as [|ch ls]; [done|]. simpl in *.
        apply andb_true_iff in Hl as [Hl _]. apply andb_true_iff in Hfit as [Hfit _].
        apply digit_not_letter in Hfit. congruence. }
      repeat split; try done.
      - destruct (all_fit is_lower labels) eqn:E; [|done].
        apply (all_fit_weaken _ is_letter) in E; [congruence|apply lower_is_letter].
      - destruct (all_fit is_upper labels) eqn:E; [|done].
        apply (all_fit_weaken _ is_letter) in E; [congruence|apply upper_is_letter]. }
    split.
    + rewrite listalyze_unicode_list.
      destruct (normalize require_dot items) as [labels|]; [|done].
      destruct (Hnone labels eq_refl) as (Hd' & Hl' & Hu' & Hm').
      unfold resolve. rewrite Hd', Hl', Hu', Hm'. by destruct mixed_case.
    + intros labels Hnorm. rewrite listalyze_find_schemes_spec.
      destruct (Hnone labels Hnorm) as (-> & -> & -> & ->).
      apply (f_equal Normal). compute_done.
  - intros []; repeat split; vm_compute; reflexivity.
Qed.

Lemma digits_and_letters_never_resolve_witness :
  listalyze (ulist [u "x"; u " 12."; u "Ab "]) false true
  = Return (None, PyUnicode <$> [u "x"; u " 12."; u "Ab "], false).
Proof.
  apply (proj1 (proj2 digits_and_letters_never_resolve)
           [u "x"; u " 12."; u "Ab "] false true (u " 12.") (u "Ab ") (u "12") (u "Ab")).
  - apply list_elem_of_In. simpl. tauto.
  - apply list_elem_of_In. simpl. tauto.
  - discriminate.
  - discriminate.
  - apply (Forall_charset _ _ _ elem_of_charset_decimal). reflexivity.
  - apply (Forall_charset _ _ _ elem_of_charset_mixed). reflexivity.
  - right. vm_compute. reflexivity.
  - left. vm_compute. reflexivity.
Defined.

(** C7. With [require_dot], a trimmed label that is shorter than two
    characters or does not end in a dot makes the whole call fail, and
    otherwise each label loses exactly its last character, a dot.
    Without [require_dot], a trimmed label that is empty, or empty once
    its dot is stripped, makes the whole call fail, and otherwise each
    label loses its trailing dot when it has one.  In both cases the
    call goes on with the stripped labels: what it returns is the
    scheme in use for them, their ordinals in that scheme and whether
    these are in default order, or no scheme when there is none in use
    for them. *)
Theorem dot_policy :
  (∀ trimmed dont number,
     number ∈ trimmed → (length number < 2)%nat ∨ last number ≠ Some dot →
     listalyze_dots true dont (seq 0 (length trimmed)) (PyUnicode <$> trimmed)
     = Return dont)
  ∧ (∀ items mixed_case x,
       x ∈ items → (length (strip x) < 2)%nat ∨ last (strip x) ≠ Some dot →
       listalyze (ulist items) true mixed_case
       = Return (None, PyUnicode <$> items, false))
  ∧ (∀ trimmed dont,
       Forall (λ number, (2 ≤ length number)%nat ∧ last number = Some dot) trimmed →
       listalyze_dots true dont (seq 0 (length trimmed)) (PyUnicode <$> trimmed)
       = Normal (PyUnicode <$> (slice_init <$> trimmed))
       ∧ Forall (λ number, number = slice_init number ++ [dot]) trimmed)
  ∧ (∀ trimmed dont number,
       number ∈ trimmed → number = [] ∨ number = [dot] →
       listalyze_dots false dont (seq 0 (length trimmed)) (PyUnicode <$> trimmed)
       = Return dont)
  ∧ (∀ items mixed_case x,
       x ∈ items → strip x = [] ∨ strip x = [dot] →
       listalyze (ulist items) false mixed_case
       = Return (None, PyUnicode <$> items, false))
  ∧ (∀ trimmed dont,
       Forall (λ number, number ≠ [] ∧ number ≠ [dot]) trimmed →
       listalyze_dots false dont (seq 0 (length trimmed)) (PyUnicode <$> trimmed)
       = Normal (PyUnicode <$> (strip_dot <$> trimmed)))
  ∧ (∀ items mixed_case,
       Forall (λ x, (2 ≤ length (strip x))%nat ∧ last (strip x) = Some dot) items →
       listalyze (ulist items) true mixed_case
       = match resolve mixed_case (slice_init <$> (strip <$> items)) with
         | Some scheme =>
             Return (Some (reported scheme),
                     PyInt <$> (ordinal scheme <$> (slice_init <$> (strip <$> items))),
                     in_default_order 0
                       (ordinal scheme <$> (slice_init <$> (strip <$> items))))
         | None => Return (None, PyUnicode <$> items, false)
         end)
  ∧ (∀ items mixed_case,
       Forall (λ x, strip x ≠ [] ∧ strip x ≠ [dot]) items →
       listalyze (ulist items) false mixed_case
       = match resolve mixed_case (strip_dot <$> (strip <$> items)) with
         | Some scheme =>
             Return (Some (reported scheme),
                     PyInt <$> (ordinal scheme <$> (strip_dot <$> (strip <$> items))),
                     in_default_order 0
                       (ordinal scheme <$> (strip_dot <$> (strip <$> items))))
         | None => Return (None, PyUnicode <$> items, false)
         end).
Proof.
  repeat apply conj.
  - intros trimmed dont number Hin H. rewrite listalyze_dots_spec.
    rewrite (mapM_None_2 (normalize_label true) trimmed); [done|].
    apply Exists_exists. exists number. split; [done|].
    by apply normalize_label_required_None.
  - intros items mixed_case x Hin H. apply listalyze_rejected_labels.
    apply (normalize_rejects true items x Hin).
    by apply normalize_label_required_None.
  - intros trimmed dont H. split.
    + rewrite listalyze_dots_spec.
      rewrite (mapM_pointwise (normalize_label true) slice_init); [done|].
      eapply Forall_impl; [exact H|]. intros number [Hlen Hlast].
      by apply normalize_label_required_Some.
    + eapply Forall_impl; [exact H|]. intros number [_ Hlast].
      by apply slice_init_dot.
  - intros trimmed dont number Hin H. rewrite listalyze_dots_spec.
    rewrite (mapM_None_2 (normalize_label false) trimmed); [done|].
    apply Exists_exists. exists number. split; [done|].
    by apply normalize_label_optional_None.
  - intros items mixed_case x Hin H. apply listalyze_rejected_labels.
    apply (normalize_rejects false items x Hin).
    by apply normalize_label_optional_None.
  - intros trimmed dont H. rewrite listalyze_dots_spec.
    rewrite (mapM_pointwise (normalize_label false) strip_dot); [done|].
    eapply Forall_impl; [exact H|]. intros number [Hne Hdot].
    by apply normalize_label_optional_Some.
  - intros items mixed_case H. rewrite listalyze_unicode_list. unfold normalize.
    rewrite (mapM_pointwise (normalize_label true) slice_init); [done|].
    apply Forall_fmap. eapply Forall_impl; [exact H|]. intros x [Hlen Hlast].
    by apply normalize_label_required_Some.
  - intros items mixed_case H. rewrite listalyze_unicode_list. unfold normalize.
    rewrite (mapM_pointwise (normalize_label false) strip_dot); [done|].
    apply Forall_fmap. eapply Forall_impl; [exact H|]. intros x [Hne Hdot].
    by apply normalize_label_optional_Some.
Qed.

Lemma dot_policy_witness :
  listalyze (ulist [u "1."; u " 2 "]) true false
  = Return (None, PyUnicode <$> [u "1."; u " 2 "], false)
  ∧ listalyze_dots true (None, [], false) (seq 0 (length [u "1."; u "b.."]))
      (PyUnicode <$> [u "1."; u "b.."])
    = Normal (PyUnicode <$> (slice_init <$> [u "1."; u "b.."]))
  ∧ listalyze (ulist [u "1"; u " . "]) false true
    = Return (None, PyUnicode <$> [u "1"; u " . "], false)
  ∧ listalyze_dots false (None, [], false) (seq 0 (length [u "1."; u "2"; u ".."]))
      (PyUnicode <$> [u "1."; u "2"; u ".."])
    = Normal (PyUnicode <$> (strip_dot <$> [u "1."; u "2"; u ".."]))
  ∧ listalyze (ulist [u " 12. "; u "7."]) true false
    = Return (Some "decimal", [PyInt 12; PyInt 7], false)
  ∧ listalyze (ulist [u "1.."; u "2."]) true false
    = Return (None, PyUnicode <$> [u "1.."; u "2."], false)
  ∧ listalyze (ulist [u "a."; u " b"; u "c."]) false false
    = Return (Some "lower-alpha", [PyInt 1; PyInt 2; PyInt 3], true)
  ∧ listalyze (ulist [u "1.."; u "2"]) false false
    = Return (None, PyUnicode <$> [u "1.."; u "2"], false).
Proof.
  destruct dot_policy as (_ & Hreq & Hstrip & _ & Hopt & Hstrip' & Hgo & Hgo').
  repeat apply conj.
  - apply (Hreq [u "1."; u " 2 "] false (u " 2 ")).
    + apply list_elem_of_In. simpl. tauto.
    + left. vm_compute. lia.
  - apply (Hstrip [u "1."; u "b.."] (None, [], false)).
    repeat constructor.
  - apply (Hopt [u "1"; u " . "] true (u " . ")).
    + apply list_elem_of_In. simpl. tauto.
    + right. vm_compute. reflexivity.
  - apply (Hstrip' [u "1."; u "2"; u ".."] (None, [], false)).
    repeat constructor; discriminate.
  - rewrite (Hgo [u " 12. "; u "7."] false); [vm_compute; reflexivity|].
    repeat constructor; vm_compute; lia.
  - rewrite (Hgo [u "1.."; u "2."] false); [vm_compute; reflexivity|].
    repeat constructor; vm_compute; lia.
  - rewrite (Hgo' [u "a."; u " b"; u "c."] false); [vm_compute; reflexivity|].
    repeat constructor; discriminate.
  - rewrite (Hgo' [u "1.."; u "2"] false); [vm_compute; reflexivity|].
    repeat constructor; discriminate.
Defined.

(** C8 (as amended). A [numbers] that is not iterable raises a
    [TypeError] whose message names its type.  An iterable with an item
    that is not a unicode string raises a [TypeError] whose message
    names the position and the type of the first such item: the one at
    index [k] when the items before it are unicode strings.  In both
    cases nothing is returned.  The message determines the position
    and the name of the type.  The type of an integer is named as
    Python 2 names it: [long] for a [long] and for an integer outside
    the range of [int], and [int] within the range. *)
Theorem contract_errors_raise :
  (∀ numbers require_dot mixed_case,
     py_iter numbers = None →
     listalyze numbers require_dot mixed_case
     = Raise (TypeError ("'" +:+ type_name numbers +:+ "' object is not iterable ("
                         +:+ dq +:+ "numbers" +:+ dq +:+ " parameter)")))
  ∧ (∀ numbers require_dot mixed_case items k o,
       py_iter numbers = Some items →
       items !! k = Some o → is_unicode o = false →
       (∀ j x, (j < k)%nat → items !! j = Some x → is_unicode x = true) →
       listalyze numbers require_dot mixed_case
       = Raise (TypeError ("'" +:+ type_name o +:+ "' object is not a unicode string "
                           +:+ "(item with index " +:+ format_d k +:+ " returned from "
                           +:+ dq +:+ "numbers" +:+ dq +:+ " iterable)")))
  ∧ (∀ numbers require_dot mixed_case items k o,
       py_iter numbers = Some items →
       items !! k = Some o → is_unicode o = false →
       ∃ msg, listalyze numbers require_dot mixed_case = Raise (TypeError msg))
  ∧ (∀ o k o' k',
       not_unicode_message o k = not_unicode_message o' k' →
       type_name o = type_name o' ∧ k = k')
  ∧ (∀ z require_dot mixed_case,
       listalyze (PyLong z) require_dot mixed_case
       = Raise (TypeError ("'long' object is not iterable ("
                           +:+ dq +:+ "numbers" +:+ dq +:+ " parameter)"))
       ∧ listalyze (PyList [PyLong z]) require_dot mixed_case
         = Raise (TypeError ("'long' object is not a unicode string "
                             +:+ "(item with index 0 returned from "
                             +:+ dq +:+ "numbers" +:+ dq +:+ " iterable)")))
  ∧ (∀ z require_dot mixed_case,
       listalyze (PyInt z) require_dot mixed_case
       = Raise (TypeError ("'" +:+ (if bool_decide (- maxint - 1 ≤ z ≤ maxint)%Z
                                    then "int" else "long")
                           +:+ "' object is not iterable ("
                           +:+ dq +:+ "numbers" +:+ dq +:+ " parameter)"))).
Proof.
  repeat apply conj; [| | |apply not_unicode_message_inj|..].
  - intros numbers require_dot mixed_case H. by apply listalyze_not_iterable.
  - intros numbers require_dot mixed_case items k o Hiter Hk Ho Hbefore.
    rewrite (listalyze_iterable _ _ _ _ Hiter).
    destruct (unicode_items_or_not items)
      as [[us ->]|(pre & o' & post & -> & Ho')].
    + apply list_lookup_fmap_Some in Hk as (s & -> & _). discriminate.
    + destruct (Nat.lt_trichotomy k (length pre)) as [Hlt|[->|Hgt]].
      * rewrite lookup_app_l in Hk by (by rewrite length_fmap).
        apply list_lookup_fmap_Some in Hk as (s & -> & _). discriminate.
      * rewrite list_lookup_middle in Hk by (by rewrite length_fmap).
        injection Hk as ->. by apply listalyze_not_unicode.
      * specialize (Hbefore (length pre) o' Hgt).
        rewrite list_lookup_middle in Hbefore by (by rewrite length_fmap).
        specialize (Hbefore eq_refl). congruence.
  - intros numbers require_dot mixed_case items k o Hiter Hk Ho.
    destruct (listalyze_cases numbers require_dot mixed_case)
      as [[_ E]|[(pre & o' & post & _ & _ & E)|(us & Hiter' & _)]]; eauto.
    rewrite Hiter in Hiter'. injection Hiter' as ->.
    apply list_lookup_fmap_Some in Hk as (s & -> & _). discriminate.
  - intros z require_dot mixed_case. split.
    + by rewrite listalyze_not_iterable.
    + by rewrite (listalyze_not_unicode [] (PyLong z) []).
  - intros z require_dot mixed_case. rewrite listalyze_not_iterable by done.
    unfold not_iterable_message. cbn [type_name].
    destruct ((- maxint - 1 <=? z) && (z <=? maxint))%Z eqn:E.
    + rewrite bool_decide_eq_true_2; [done|lia].
    + rewrite bool_decide_eq_false_2; [done|lia].
Qed.

Lemma contract_errors_raise_witness :
  listalyze (PyInt 14) true false
  = Raise (TypeError ("'int' object is not iterable ("
                      +:+ dq +:+ "numbers" +:+ dq +:+ " parameter)"))
  ∧ listalyze (PyList [PyUnicode (u "1"); PyStr "2"; PyUnicode (u "3")]) true false
    = Raise (TypeError ("'str' object is not a unicode string "
                        +:+ "(item with index 1 returned from "
                        +:+ dq +:+ "numbers" +:+ dq +:+ " iterable)"))
  ∧ listalyze (PyInt (2 ^ 70)) true false
    = Raise (TypeError ("'long' object is not iterable ("
                        +:+ dq +:+ "numbers" +:+ dq +:+ " parameter)"))
  ∧ listalyze (PyList [PyUnicode (u "1"); PyLong 5]) true false
    = Raise (TypeError ("'long' object is not a unicode string "
                        +:+ "(item with index 1 returned from "
                        +:+ dq +:+ "numbers" +:+ dq +:+ " iterable)")).
Proof.
  destruct contract_errors_raise as (Hiter & Hitem & _ & _ & _ & _).
  repeat apply conj.
  - apply (Hiter (PyInt 14) true false). reflexivity.
  - apply (Hitem (PyList [PyUnicode (u "1"); PyStr "2"; PyUnicode (u "3")]) true false
             [PyUnicode (u "1"); PyStr "2"; PyUnicode (u "3")] 1%nat (PyStr "2"));
      try reflexivity.
    intros [|j] x Hj; [|lia]. simpl. by intros [= <-].
  - apply (Hiter (PyInt (2 ^ 70)) true false). reflexivity.
  - apply (Hitem (PyList [PyUnicode (u "1"); PyLong 5]) true false
             [PyUnicode (u "1"); PyLong 5] 1%nat (PyLong 5));
      try reflexivity.
    intros [|j] x Hj; [|lia]. simpl. by intros [= <-].
Defined.

(** C8, the claim as stated fails: the item at index 1 is not a unicode
    string, and the error names index 0 and the type of the item there. *)
Lemma later_item_is_not_the_one_reported :
  [PyStr "1"; PyInt 2] !! 1%nat = Some (PyInt 2)
  ∧ is_unicode (PyInt 2) = false
  ∧ listalyze (PyList [PyStr "1"; PyInt 2]) true false
    = Raise (TypeError ("'str' object is not a unicode string "
                        +:+ "(item with index 0 returned from "
                        +:+ dq +:+ "numbers" +:+ dq +:+ " iterable)"))
  ∧ listalyze (PyList [PyStr "1"; PyInt 2]) true false
    ≠ Raise (TypeError (not_unicode_message (PyInt 2) 1)).
Proof. repeat split; vm_compute; congruence. Qed.

(** C9. On a finite iterable of unicode strings [listalyze] does not
    raise: it returns a scheme with integers, or it returns no scheme,
    the original labels and [False]; the latter whenever a label fails
    the dot policy or is empty once normalized, and whenever the
    candidates left are not exactly one. *)
Theorem unicode_input_never_raises numbers items require_dot mixed_case :
  py_iter numbers = Some (PyUnicode <$> items) →
  (listalyze numbers require_dot mixed_case
   = Return (None, PyUnicode <$> items, false)
   ∨ ∃ scheme values default_order,
       listalyze numbers require_dot mixed_case
       = Return (Some scheme, PyInt <$> values, default_order))
  ∧ (∀ x, x ∈ items → normalize_label require_dot (strip x) = None →
          listalyze numbers require_dot mixed_case
          = Return (None, PyUnicode <$> items, false))
  ∧ (∀ labels remaining,
       normalize require_dot items = Some labels →
       candidates mixed_case labels = Normal remaining →
       size remaining ≠ 1%nat →
       listalyze numbers require_dot mixed_case
       = Return (None, PyUnicode <$> items, false)).
Proof.
  intros Hiter. rewrite (listalyze_iterable _ _ _ _ Hiter).
  fold (ulist items). repeat apply conj.
  - destruct (listalyze_unicode_result items require_dot mixed_case)
      as [E|(labels & scheme & _ & _ & E)]; [by left|].
    right. by eexists _, _, _.
  - intros x Hx Hnone. apply listalyze_rejected_labels.
    by apply (normalize_rejects _ _ x).
  - intros labels remaining Hnorm Hcand Hsize.
    destruct (resolved_iff_single_candidate items require_dot mixed_case labels Hnorm)
      as (remaining' & Hcand' & [(scheme & vl & d & -> & _)|[_ E]]); [|done].
    rewrite Hcand in Hcand'. injection Hcand' as ->.
    by rewrite size_singleton in Hsize.
Qed.

Lemma unicode_input_never_raises_witness :
  (listalyze (PyTuple [PyUnicode (u "i."); PyUnicode (u "ii?")]) true true
   = Return (None, PyUnicode <$> [u "i."; u "ii?"], false)
   ∨ ∃ scheme values default_order,
       listalyze (PyTuple [PyUnicode (u "i."); PyUnicode (u "ii?")]) true true
       = Return (Some scheme, PyInt <$> values, default_order))
  ∧ (listalyze (PyUnicode (u "12")) false false
     = Return (None, PyUnicode <$> [u "1"; u "2"], false)
     ∨ ∃ scheme values default_order,
         listalyze (PyUnicode (u "12")) false false
         = Return (Some scheme, PyInt <$> values, default_order)).
Proof.
  split.
  - apply (unicode_input_never_raises
             (PyTuple [PyUnicode (u "i."); PyUnicode (u "ii?")]) [u "i."; u "ii?"]
             true true).
    reflexivity.
  - apply (unicode_input_never_raises (PyUnicode (u "12")) [u "1"; u "2"] false false).
    reflexivity.
Defined.

(** C10 (as amended). Whenever a scheme is resolved, [default_order]
    is true exactly when every converted value is its position counted
    from 1; the labels [1, 2, 4] give false.  An empty input resolves
    no scheme and is returned with [default_order] false; the loop of
    lines 260-264 itself, run on no item, leaves [default_order] true. *)
Theorem default_order_detection :
  (∀ numbers require_dot mixed_case scheme value_list default_order,
     listalyze numbers require_dot mixed_case
     = Return (Some scheme, value_list, default_order) →
     (default_order = true
      ↔ ∀ i x, value_list !! i = Some x → x = PyInt (Z.of_nat i + 1)))
  ∧ listalyze (ulist [u "1"; u "2"; u "4"]) false false
    = Return (Some "decimal", [PyInt 1; PyInt 2; PyInt 4], false)
  ∧ (∀ require_dot mixed_case,
       listalyze (ulist []) require_dot mixed_case = Return (None, [], false))
  ∧ (∀ converter, listalyze_convert converter [] [] = Normal ([], true)).
Proof.
  repeat apply conj.
  - intros numbers require_dot mixed_case scheme value_list default_order H.
    apply listalyze_returns_inv in H as (items & _ & H).
    destruct (listalyze_unicode_result items require_dot mixed_case)
      as [E|(labels & sch & _ & _ & E)]; rewrite E in H; [discriminate|].
    injection H as _ <- <-. rewrite in_default_order_spec. split.
    + intros Hv i x Hi.
      apply list_lookup_fmap_Some in Hi as (v & -> & Hi).
      by rewrite (Hv i v Hi).
    + intros Hx i v Hi.
      specialize (Hx i (PyInt v) (list_lookup_fmap_Some_2 PyInt _ _ _ Hi)).
      by injection Hx.
  - vm_compute. reflexivity.
  - by intros [] [].
  - reflexivity.
Qed.

Lemma default_order_detection_witness :
  (true = true
   ↔ ∀ i x, [PyInt 1; PyInt 2; PyInt 3] !! i = Some x → x = PyInt (Z.of_nat i + 1))
  ∧ (false = true
     ↔ ∀ i x, [PyInt 2; PyInt 1] !! i = Some x → x = PyInt (Z.of_nat i + 1)).
Proof.
  split.
  - apply (proj1 default_order_detection
             (ulist [u "A."; u "B."; u "C."]) true false "upper-alpha").
    vm_compute. reflexivity.
  - apply (proj1 default_order_detection
             (ulist [u "2"; u "1"]) false false "decimal").
    vm_compute. reflexivity.
Defined.

(** C10, the claim as stated fails: an empty input is returned with
    [default_order] false. *)
Lemma empty_input_is_not_in_default_order :
  ∃ default_order,
    listalyze (ulist []) true false = Return (None, [], default_order)
    ∧ default_order = false ∧ default_order ≠ true.
Proof. exists false. repeat split. discriminate. Qed.

(** ** Further properties of the code *)

(** *** More on [categorize_number] *)

Lemma forallb_fit_charset (scheme : string) (number : list N) :
  scheme ∈ all_scheme_names →
  forallb (fit_of scheme) number = true
  ↔ Forall (λ ch, ch ∈ charset_of scheme) number.
Proof.
  intros H. symmetry.
  apply elem_of_all_scheme_names in H as [-> | [-> | [-> | ->]]].
  - apply (Forall_charset _ _ _ elem_of_charset_decimal).
  - apply (Forall_charset _ _ _ elem_of_charset_lower).
  - apply (Forall_charset _ _ _ elem_of_charset_upper).
  - apply (Forall_charset _ _ _ elem_of_charset_mixed).
Qed.

(** X1. [categorize_number] never raises, and the set it returns holds
    exactly the scheme names whose character set contains every
    character of the number. *)
Theorem categorize_number_superset number :
  ∃ schemes,
    categorize_number number = Normal schemes
    ∧ ∀ name, name ∈ schemes
              ↔ name ∈ all_scheme_names
                ∧ Forall (λ ch, ch ∈ charset_of name) number.
Proof.
  rewrite categorize_number_spec. eexists. split; [reflexivity|].
  intros name. rewrite elem_of_schemes_of, elem_of_all_scheme_names.
  rewrite <- (Forall_charset _ _ number elem_of_charset_decimal),
    <- (Forall_charset _ _ number elem_of_charset_lower),
    <- (Forall_charset _ _ number elem_of_charset_upper),
    <- (Forall_charset _ _ number elem_of_charset_mixed).
  split.
  - intros [[-> H]|[[-> H]|[[-> H]|[-> H]]]]; tauto.
  - intros [[-> | [-> | [-> | ->]]] H]; tauto.
Qed.

(** X2. The result of [categorize_number] does not depend on the order
    in which the loop visits the keys of [scheme_character_sets]. *)
Theorem categorize_number_order_independent number keys :
  keys ≡ₚ elements (dom scheme_character_sets) →
  for_each keys (categorize_step number) all_scheme_names
  = categorize_number number.
Proof.
  intros Hperm.
  assert (Hall : ∀ k, k ∈ keys ↔ k ∈ all_scheme_names).
  { intros k. rewrite Hperm. apply elem_of_elements. }
  change all_scheme_names with (schemes_where (λ _, true)) at 1.
  rewrite categorize_loop_any_order.
  - rewrite categorize_number_spec. apply (f_equal Normal).
    unfold schemes_where.
    rewrite !bool_decide_eq_true_2
      by (apply Hall, elem_of_all_scheme_names; tauto).
    reflexivity.
  - rewrite Hperm. apply NoDup_elements.
  - intros k Hk. split; [by apply Hall|done].
Qed.

Lemma categorize_number_order_independent_witness :
  for_each ["decimal"; "lower-alpha"; "upper-alpha"; "mixed-alpha"]
    (categorize_step (u "Ab")) all_scheme_names
  = categorize_number (u "Ab")
  ∧ for_each ["upper-alpha"; "mixed-alpha"; "decimal"; "lower-alpha"]
      (categorize_step (u "Ab")) all_scheme_names
    = categorize_number (u "Ab").
Proof.
  split; apply (categorize_number_order_independent (u "Ab")); compute_done.
Defined.

Lemma all_fit_concat (p : N → bool) (labels : list (list N)) :
  all_fit p labels = forallb p (concat labels).
Proof.
  unfold all_fit. induction labels as [|label labels IH]; simpl; [done|].
  by rewrite forallb_app, IH.
Qed.

(** X3. The schemes of a concatenation are the schemes common to its
    parts, and the schemes that match every label of a list are the
    schemes of the labels put end to end. *)
Theorem categorize_number_app :
  (∀ number number',
     ∃ schemes schemes',
       categorize_number number = Normal schemes
       ∧ categorize_number number' = Normal schemes'
       ∧ categorize_number (number ++ number') = Normal (schemes ∩ schemes'))
  ∧ (∀ labels : list (list N),
       listalyze_find_schemes (PyUnicode <$> labels)
       = categorize_number (concat labels)).
Proof.
  split.
  - intros number number'. rewrite !categorize_number_spec.
    eexists _, _. repeat split.
    by rewrite schemes_of_intersection, !forallb_app.
  - intros labels.
    by rewrite listalyze_find_schemes_spec, categorize_number_spec, !all_fit_concat.
Qed.

Lemma forallb_false_elem (p : N → bool) (number : list N) ch :
  ch ∈ number → p ch = false → forallb p number = false.
Proof.
  intros Hin Hp. destruct (forallb p number) eqn:E; [|done].
  rewrite forallb_forall in E. rewrite E in Hp; [done|by apply list_elem_of_In].
Qed.

Lemma forallb_weaken (p q : N → bool) (number : list N) :
  (∀ ch, p ch = true → q ch = true) →
  forallb p number = true → forallb q number = true.
Proof. rewrite !forallb_forall. auto. Qed.

Lemma forallb_exclusive (p q : N → bool) (number : list N) :
  (∀ ch, p ch = true → q ch = false) →
  number ≠ [] → forallb p number = true → forallb q number = false.
Proof.
  intros Hpq Hne Hp. destruct number as [|ch rest]; [done|]. simpl in *.
  apply andb_true_iff in Hp as [Hp _]. by rewrite (Hpq ch Hp).
Qed.

Lemma letter_cases ch : is_letter ch = true → is_lower ch = true ∨ is_upper ch = true.
Proof. unfold is_letter. intros H. by apply orb_true_iff in H. Qed.

(** X4. What [categorize_number] returns by the kind of the number:
    all four schemes for the empty string; [decimal] alone for digits;
    the scheme of the case and [mixed-alpha] for letters of one case;
    [mixed-alpha] alone for letters of both cases; and no scheme as
    soon as one character is neither a digit nor a letter, or digits
    and letters are mixed. *)
Theorem categorize_number_kinds :
  categorize_number [] = Normal all_scheme_names
  ∧ (∀ number, number ≠ [] →
       Forall (λ ch, ch ∈ charset_of "decimal") number →
       categorize_number number = Normal {["decimal"]})
  ∧ (∀ number, number ≠ [] →
       Forall (λ ch, ch ∈ charset_of "lower-alpha") number →
       categorize_number number = Normal {["lower-alpha"; "mixed-alpha"]})
  ∧ (∀ number, number ≠ [] →
       Forall (λ ch, ch ∈ charset_of "upper-alpha") number →
       categorize_number number = Normal {["upper-alpha"; "mixed-alpha"]})
  ∧ (∀ number low up,
       Forall (λ ch, ch ∈ charset_of "mixed-alpha") number →
       low ∈ number → low ∈ charset_of "lower-alpha" →
       up ∈ number → up ∈ charset_of "upper-alpha" →
       categorize_number number = Normal {["mixed-alpha"]})
  ∧ (∀ number ch,
       ch ∈ number → ch ∉ charset_of "decimal" → ch ∉ charset_of "mixed-alpha" →
       categorize_number number = Normal ∅)
  ∧ (∀ number digit letter,
       digit ∈ number → digit ∈ charset_of "decimal" →
       letter ∈ number → letter ∈ charset_of "mixed-alpha" →
       categorize_number number = Normal ∅).
Proof.
  repeat apply conj.
  - rewrite categorize_number_spec. apply (f_equal Normal). compute_done.
  - intros number Hne H.
    apply (Forall_charset _ _ _ elem_of_charset_decimal) in H.
    rewrite categorize_number_spec, H.
    rewrite (forallb_exclusive is_digit is_letter) by (done || apply digit_not_letter).
    rewrite (forallb_exclusive is_digit is_lower), (forallb_exclusive is_digit is_upper);
      try done; intros ch Hch; apply digit_not_letter in Hch;
      unfold is_letter in Hch; by apply orb_false_iff in Hch as [? ?].
  - intros number Hne H.
    apply (Forall_charset _ _ _ elem_of_charset_lower) in H.
    rewrite categorize_number_spec, H.
    rewrite (forallb_weaken is_lower is_letter) by (done || apply lower_is_letter).
    rewrite (forallb_exclusive is_lower is_digit) by (done || apply lower_not_digit).
    rewrite (forallb_exclusive is_lower is_upper) by (done || apply lower_not_upper).
    apply (f_equal Normal). compute_done.
  - intros number Hne H.
    apply (Forall_charset _ _ _ elem_of_charset_upper) in H.
    rewrite categorize_number_spec, H.
    rewrite (forallb_weaken is_upper is_letter) by (done || apply upper_is_letter).
    rewrite (forallb_exclusive is_upper is_digit) by (done || apply upper_not_digit).
    rewrite (forallb_exclusive is_upper is_lower).
    + apply (f_equal Normal). compute_done.
    + intros ch. unfold is_upper, is_lower. lia.
    + done.
    + done.
  - intros number low up H Hlow Hl Hup Hu.
    apply (Forall_charset _ _ _ elem_of_charset_mixed) in H.
    apply elem_of_charset_lower in Hl. apply elem_of_charset_upper in Hu.
    rewrite categorize_number_spec, H.
    rewrite (forallb_false_elem is_upper number low Hlow)
      by (by apply lower_not_upper).
    rewrite (forallb_false_elem is_lower number up Hup)
      by (revert Hu; unfold is_upper, is_lower; lia).
    rewrite (forallb_false_elem is_digit number low Hlow)
      by (by apply lower_not_digit).
    apply (f_equal Normal). compute_done.
  - intros number ch Hin Hd Hm.
    rewrite elem_of_charset_decimal in Hd. rewrite elem_of_charset_mixed in Hm.
    apply not_true_is_false in Hd, Hm.
    assert (Hl : is_lower ch = false)
      by (destruct (is_lower ch) eqn:E; [by rewrite (lower_is_letter _ E) in Hm|done]).
    assert (Hu : is_upper ch = false)
      by (destruct (is_upper ch) eqn:E; [by rewrite (upper_is_letter _ E) in Hm|done]).
    rewrite categorize_number_spec.
    by rewrite !(forallb_false_elem _ number ch Hin).
  - intros number digit letter Hdigit Hd Hletter Hl.
    apply elem_of_charset_decimal in Hd. apply elem_of_charset_mixed in Hl.
    pose proof (digit_not_letter _ Hd) as Hdl.
    assert (is_lower digit = false ∧ is_upper digit = false) as [Hlo Hup]
      by (unfold is_letter in Hdl; by apply orb_false_iff in Hdl).
    assert (Hld : is_digit letter = false)
      by (destruct (is_digit letter) eqn:E; [by rewrite (digit_not_letter _ E) in Hl|done]).
    rewrite categorize_number_spec.
    rewrite (forallb_false_elem is_digit number letter Hletter Hld).
    by rewrite !(forallb_false_elem _ number digit Hdigit).
Qed.

Lemma categorize_number_kinds_witness :
  categorize_number (u "2009") = Normal {["decimal"]}
  ∧ categorize_number (u "iv") = Normal {["lower-alpha"; "mixed-alpha"]}
  ∧ categorize_number (u "XIV") = Normal {["upper-alpha"; "mixed-alpha"]}
  ∧ categorize_number (u "aB") = Normal {["mixed-alpha"]}
  ∧ categorize_number (u "-1") = Normal ∅
  ∧ categorize_number (u "1a") = Normal ∅.
Proof.
  destruct categorize_number_kinds as (_ & Hd & Hl & Hu & Hm & Hx & Hdl).
  repeat apply conj.
  - apply Hd; [discriminate|].
    apply (Forall_charset _ _ _ elem_of_charset_decimal). reflexivity.
  - apply Hl; [discriminate|].
    apply (Forall_charset _ _ _ elem_of_charset_lower). reflexivity.
  - apply Hu; [discriminate|].
    apply (Forall_charset _ _ _ elem_of_charset_upper). reflexivity.
  - apply (Hm (u "aB") (ord "a") (ord "B")).
    + apply (Forall_charset _ _ _ elem_of_charset_mixed). reflexivity.
    + apply list_elem_of_In. simpl. tauto.
    + apply elem_of_charset_lower. reflexivity.
    + apply list_elem_of_In. simpl. tauto.
    + apply elem_of_charset_upper. reflexivity.
  - apply (Hx (u "-1") (ord "-")).
    + apply list_elem_of_In. simpl. tauto.
    + rewrite elem_of_charset_decimal. discriminate.
    + rewrite elem_of_charset_mixed. discriminate.
  - apply (Hdl (u "1a") (ord "1") (ord "a")).
    + apply list_elem_of_In. simpl. tauto.
    + apply elem_of_charset_decimal. reflexivity.
    + apply list_elem_of_In. simpl. tauto.
    + apply elem_of_charset_mixed. reflexivity.
Defined.

(** *** More on the converters *)

Lemma upper_upper_id number :
  forallb is_upper number = true → upper number = number.
Proof.
  induction number as [|ch rest IH]; [done|]. cbn [forallb].
  rewrite andb_true_iff. intros [Hch Hrest].
  change (upper (ch :: rest)) with (upper_char ch :: upper rest).
  rewrite IH by done.
  f_equal. unfold upper_char. unfold is_upper in Hch.
  destruct ((97 <=? ch)%N && (ch <=? 122)%N) eqn:E; [lia|done].
Qed.

Lemma upper_idempotent number : upper (upper number) = upper number.
Proof.
  unfold upper. rewrite <- list_fmap_compose. apply list_fmap_ext.
  intros _ ch _. simpl. unfold upper_char.
  destruct ((97 <=? ch)%N && (ch <=? 122)%N) eqn:E; [|by rewrite E].
  destruct ((97 <=? ch - 32)%N && (ch - 32 <=? 122)%N) eqn:E'; [lia|done].
Qed.

Lemma convert_upper_of_lower_from number acc :
  forallb is_lower number = true →
  fold_left (λ result ch, result * 26 + (Z.of_N ch - Z.of_N (ord "A") + 1))%Z
    (upper number) acc
  = fold_left (λ result ch, result * 26 + (Z.of_N ch - Z.of_N (ord "a") + 1))%Z
      number acc.
Proof.
  revert acc. induction number as [|ch rest IH]; intros acc H; [done|].
  cbn [forallb] in H. apply andb_true_iff in H as [Hch Hrest].
  change (upper (ch :: rest)) with (upper_char ch :: upper rest).
  cbn [fold_left]. rewrite <- IH by done.
  f_equal. unfold upper_char. unfold is_lower in Hch. rewrite Hch.
  change (Z.of_N (ord "A")) with 65%Z. change (Z.of_N (ord "a")) with 97%Z. lia.
Qed.

(** X5. [convert_mixed_alpha] agrees with [convert_lower_alpha] on
    lowercase labels and with [convert_upper_alpha] on uppercase
    labels, and two labels made of letters have the same ordinal
    exactly when they are equal up to case. *)
Theorem convert_mixed_alpha_agrees :
  (∀ number, Forall (λ ch, ch ∈ charset_of "lower-alpha") number →
     convert_mixed_alpha number = convert_lower_alpha number)
  ∧ (∀ number, Forall (λ ch, ch ∈ charset_of "upper-alpha") number →
       convert_mixed_alpha number = convert_upper_alpha number)
  ∧ (∀ number number',
       Forall (λ ch, ch ∈ charset_of "mixed-alpha") number →
       Forall (λ ch, ch ∈ charset_of "mixed-alpha") number' →
       convert_mixed_alpha number = convert_mixed_alpha number'
       ↔ upper number = upper number').
Proof.
  repeat apply conj.
  - intros number H. apply (Forall_charset _ _ _ elem_of_charset_lower) in H.
    by apply convert_upper_of_lower_from.
  - intros number H. apply (Forall_charset _ _ _ elem_of_charset_upper) in H.
    unfold convert_mixed_alpha. by rewrite upper_upper_id.
  - intros number number' H H'.
    apply (Forall_charset _ _ _ elem_of_charset_mixed) in H, H'.
    unfold convert_mixed_alpha. split; [|by intros ->].
    apply convert_upper_alpha_inj; by apply upper_is_upper.
Qed.

Lemma convert_mixed_alpha_agrees_witness :
  convert_mixed_alpha (u "ab") = convert_lower_alpha (u "ab")
  ∧ convert_mixed_alpha (u "AB") = convert_upper_alpha (u "AB")
  ∧ (convert_mixed_alpha (u "aB") = convert_mixed_alpha (u "Ab")
     ↔ upper (u "aB") = upper (u "Ab")).
Proof.
  destruct convert_mixed_alpha_agrees as (Hl & Hu & Hm).
  repeat apply conj.
  - apply Hl. apply (Forall_charset _ _ _ elem_of_charset_lower). reflexivity.
  - apply Hu. apply (Forall_charset _ _ _ elem_of_charset_upper). reflexivity.
  - apply Hm; apply (Forall_charset _ _ _ elem_of_charset_mixed); reflexivity.
  - apply Hm; apply (Forall_charset _ _ _ elem_of_charset_mixed); reflexivity.
Defined.

(** Every positive integer is reached. *)
Lemma alpha_fold_surj (base : Z) (p : N → bool) :
  (∀ r, 0 ≤ r < 26 → ∃ ch, p ch = true ∧ Z.of_N ch - base + 1 = r + 1)%Z →
  ∀ (k : nat) (n : Z), (1 ≤ n ≤ Z.of_nat k)%Z →
    ∃ number, number ≠ [] ∧ forallb p number = true
      ∧ fold_left (λ result ch, result * 26 + (Z.of_N ch - base + 1))%Z number 0%Z = n.
Proof.
  intros Hletter. induction k as [|k IH]; intros n Hn; [lia|].
  pose proof (Z.div_mod (n - 1) 26 ltac:(lia)) as Hdiv.
  pose proof (Z.mod_pos_bound (n - 1) 26 ltac:(lia)) as Hmod.
  destruct (Hletter ((n - 1) mod 26)%Z Hmod) as (ch & Hch & Hval).
  destruct (Z.eq_dec ((n - 1) / 26)%Z 0%Z) as [Hq|Hq].
  - exists [ch]. repeat split; [done|by simpl; rewrite Hch|]. simpl. lia.
  - assert (Hpos : (0 ≤ (n - 1) / 26)%Z) by (apply Z.div_pos; lia).
    destruct (IH ((n - 1) / 26)%Z ltac:(lia)) as (number & Hne & Hp & Hfold).
    exists (number ++ [ch]). repeat split.
    + by destruct number.
    + rewrite forallb_app, Hp. simpl. by rewrite Hch.
    + rewrite fold_left_app, Hfold. simpl. lia.
Qed.

Lemma lower_letter_at (r : Z) :
  (0 ≤ r < 26)%Z →
  ∃ ch, is_lower ch = true ∧ (Z.of_N ch - Z.of_N (ord "a") + 1 = r + 1)%Z.
Proof.
  intros Hr. exists (Z.to_N (97 + r)). change (Z.of_N (ord "a")) with 97%Z.
  unfold is_lower. lia.
Qed.

Lemma upper_letter_at (r : Z) :
  (0 ≤ r < 26)%Z →
  ∃ ch, is_upper ch = true ∧ (Z.of_N ch - Z.of_N (ord "A") + 1 = r + 1)%Z.
Proof.
  intros Hr. exists (Z.to_N (65 + r)). change (Z.of_N (ord "A")) with 65%Z.
  unfold is_upper. lia.
Qed.

(** X6. Every integer from 1 on is the ordinal of a non-empty label of
    lowercase letters, and of a non-empty label of uppercase letters. *)
Theorem alpha_converters_onto (n : Z) :
  (1 ≤ n)%Z →
  (∃ number, number ≠ [] ∧ Forall (λ ch, ch ∈ charset_of "lower-alpha") number
             ∧ convert_lower_alpha number = n)
  ∧ (∃ number, number ≠ [] ∧ Forall (λ ch, ch ∈ charset_of "upper-alpha") number
               ∧ convert_upper_alpha number = n).
Proof.
  intros Hn. split.
  - destruct (alpha_fold_surj (Z.of_N (ord "a")) is_lower lower_letter_at
                (Z.to_nat n) n ltac:(lia)) as (number & Hne & Hp & Hfold).
    exists number. repeat split; [done| |done].
    by apply (Forall_charset _ _ _ elem_of_charset_lower).
  - destruct (alpha_fold_surj (Z.of_N (ord "A")) is_upper upper_letter_at
                (Z.to_nat n) n ltac:(lia)) as (number & Hne & Hp & Hfold).
    exists number. repeat split; [done| |done].
    by apply (Forall_charset _ _ _ elem_of_charset_upper).
Qed.

Lemma alpha_converters_onto_witness :
  (∃ number, number ≠ [] ∧ Forall (λ ch, ch ∈ charset_of "lower-alpha") number
             ∧ convert_lower_alpha number = 703%Z)
  ∧ (∃ number, number ≠ [] ∧ Forall (λ ch, ch ∈ charset_of "upper-alpha") number
               ∧ convert_upper_alpha number = 703%Z).
Proof. apply (alpha_converters_onto 703). lia. Defined.

Lemma alpha_fold_bounds (base : Z) (p : N → bool) :
  (∀ ch, p ch = true → 1 ≤ Z.of_N ch - base + 1 ≤ 26)%Z →
  ∀ number acc, forallb p number = true → (0 ≤ acc)%Z →
    let v := fold_left (λ result ch, result * 26 + (Z.of_N ch - base + 1))%Z number acc in
    let P := (26 ^ Z.of_nat (length number))%Z in
    (25 * acc * P + P - 1 ≤ 25 * v ≤ 25 * acc * P + 26 * P - 26)%Z.
Proof.
  intros Hp. induction number as [|ch rest IH]; intros acc H Hacc.
  - simpl. lia.
  - cbn [forallb] in H. apply andb_true_iff in H as [Hch Hrest].
    apply Hp in Hch. cbn [fold_left length].
    specialize (IH (acc * 26 + (Z.of_N ch - base + 1))%Z Hrest ltac:(lia)).
    cbv zeta in *.
    rewrite Nat2Z.inj_succ, Z.pow_succ_r by lia.
    set (P := (26 ^ Z.of_nat (length rest))%Z) in *.
    assert (HP : (0 < P)%Z) by (apply Z.pow_pos_nonneg; lia).
    set (d := (Z.of_N ch - base + 1)%Z) in *.
    assert (P ≤ d * P ≤ 26 * P)%Z by nia.
    nia.
Qed.

Lemma alpha_fold_shortlex (base : Z) (p : N → bool) :
  (∀ ch, p ch = true → 1 ≤ Z.of_N ch - base + 1 ≤ 26)%Z →
  ∀ number number', forallb p number = true → forallb p number' = true →
    let f := fold_left (λ result ch, result * 26 + (Z.of_N ch - base + 1))%Z in
    ((length number < length number')%nat → f number 0 < f number' 0)%Z
    ∧ (∀ pre c c' rest rest',
         number = pre ++ c :: rest → number' = pre ++ c' :: rest' →
         length rest = length rest' → (c < c')%N →
         f number 0 < f number' 0)%Z.
Proof.
  intros Hp number number' H H'. cbv zeta. split.
  - intros Hlen.
    pose proof (alpha_fold_bounds base p Hp number 0%Z H ltac:(lia)) as B.
    pose proof (alpha_fold_bounds base p Hp number' 0%Z H' ltac:(lia)) as B'.
    cbv zeta in B, B'.
    assert (26 * 26 ^ Z.of_nat (length number) ≤ 26 ^ Z.of_nat (length number'))%Z.
    { rewrite <- Z.pow_succ_r by lia. apply Z.pow_le_mono_r; lia. }
    lia.
  - intros pre c c' rest rest' -> -> Hlen Hc.
    rewrite forallb_app in H, H'. cbn [forallb] in H, H'.
    apply andb_true_iff in H as [Hpre H]. apply andb_true_iff in H as [Hch Hrest].
    apply andb_true_iff in H' as [_ H']. apply andb_true_iff in H' as [Hch' Hrest'].
    rewrite !fold_left_app. cbn [fold_left].
    pose proof (alpha_fold_bounds base p Hp pre 0%Z Hpre ltac:(lia)) as Bpre.
    cbv zeta in Bpre.
    set (A := fold_left (λ result ch, result * 26 + (Z.of_N ch - base + 1))%Z pre 0%Z) in *.
    assert (HA : (0 ≤ A)%Z).
    { assert (0 < 26 ^ Z.of_nat (length pre))%Z by (apply Z.pow_pos_nonneg; lia). lia. }
    pose proof (Hp _ Hch) as Hd. pose proof (Hp _ Hch') as Hd'.
    pose proof (alpha_fold_bounds base p Hp rest _ Hrest
                  ltac:(instantiate (1 := (A * 26 + (Z.of_N c - base + 1))%Z); lia)) as B.
    pose proof (alpha_fold_bounds base p Hp rest' _ Hrest'
                  ltac:(instantiate (1 := (A * 26 + (Z.of_N c' - base + 1))%Z); lia)) as B'.
    cbv zeta in B, B'. rewrite <- Hlen in B'.
    set (P := (26 ^ Z.of_nat (length rest))%Z) in *.
    assert (HP : (0 < P)%Z) by (apply Z.pow_pos_nonneg; lia).
    assert ((A * 26 + (Z.of_N c - base + 1) + 1) * P
            ≤ (A * 26 + (Z.of_N c' - base + 1)) * P)%Z
      by (apply Z.mul_le_mono_nonneg_r; lia).
    lia.
Qed.

(** X7. The ordinals of the alphabetic converters order the labels as
    a counter produces them: a shorter label comes before a longer
    one, and of two labels of one length the one with the smaller
    letter at the first difference comes first. *)
Theorem alpha_converters_shortlex :
  (∀ number number',
     Forall (λ ch, ch ∈ charset_of "lower-alpha") number →
     Forall (λ ch, ch ∈ charset_of "lower-alpha") number' →
     ((length number < length number')%nat →
      convert_lower_alpha number < convert_lower_alpha number')%Z
     ∧ (∀ pre c c' rest rest',
          number = pre ++ c :: rest → number' = pre ++ c' :: rest' →
          length rest = length rest' → (c < c')%N →
          convert_lower_alpha number < convert_lower_alpha number')%Z)
  ∧ (∀ number number',
       Forall (λ ch, ch ∈ charset_of "upper-alpha") number →
       Forall (λ ch, ch ∈ charset_of "upper-alpha") number' →
       ((length number < length number')%nat →
        convert_upper_alpha number < convert_upper_alpha number')%Z
       ∧ (∀ pre c c' rest rest',
            number = pre ++ c :: rest → number' = pre ++ c' :: rest' →
            length rest = length rest' → (c < c')%N →
            convert_upper_alpha number < convert_upper_alpha number')%Z).
Proof.
  split; intros number number' H H'.
  - apply (Forall_charset _ _ _ elem_of_charset_lower) in H, H'.
    apply (alpha_fold_shortlex (Z.of_N (ord "a")) is_lower); [|done..].
    intros ch. unfold is_lower. change (Z.of_N (ord "a")) with 97%Z. lia.
  - apply (Forall_charset _ _ _ elem_of_charset_upper) in H, H'.
    apply (alpha_fold_shortlex (Z.of_N (ord "A")) is_upper); [|done..].
    intros ch. unfold is_upper. change (Z.of_N (ord "A")) with 65%Z. lia.
Qed.

Lemma alpha_converters_shortlex_witness :
  (convert_lower_alpha (u "zz") < convert_lower_alpha (u "aaa"))%Z
  ∧ (convert_upper_alpha (u "ABZ") < convert_upper_alpha (u "ACA"))%Z.
Proof.
  destruct alpha_converters_shortlex as [Hl Hu]. split.
  - apply (Hl (u "zz") (u "aaa")).
    + apply (Forall_charset _ _ _ elem_of_charset_lower). reflexivity.
    + apply (Forall_charset _ _ _ elem_of_charset_lower). reflexivity.
    + simpl. lia.
  - apply (Hu (u "ABZ") (u "ACA")) with (pre := u "A") (c := ord "B")
        (c' := ord "C") (rest := u "Z") (rest' := u "A").
    + apply (Forall_charset _ _ _ elem_of_charset_upper). reflexivity.
    + apply (Forall_charset _ _ _ elem_of_charset_upper). reflexivity.
    + reflexivity.
    + reflexivity.
    + reflexivity.
    + reflexivity.
Defined.

(** *** Decimal numerals *)

Lemma decimal_fold_app number number' acc :
  fold_left (λ acc ch, acc * 10 + (Z.of_N ch - 48))%Z (number ++ number') acc
  = fold_left (λ acc ch, acc * 10 + (Z.of_N ch - 48))%Z number'
      (fold_left (λ acc ch, acc * 10 + (Z.of_N ch - 48))%Z number acc).
Proof. apply fold_left_app. Qed.

Lemma decimal_fold_shift number acc :
  fold_left (λ acc ch, acc * 10 + (Z.of_N ch - 48))%Z number acc
  = (acc * 10 ^ Z.of_nat (length number) + decimal_value number)%Z.
Proof.
  unfold decimal_value. revert acc.
  induction number as [|ch rest IH]; intros acc; cbn [fold_left length].
  - simpl. lia.
  - rewrite IH, (IH (0 * 10 + (Z.of_N ch - 48))%Z).
    rewrite Nat2Z.inj_succ, Z.pow_succ_r by lia. lia.
Qed.

Lemma decimal_value_lt number :
  forallb is_digit number = true →
  (0 ≤ decimal_value number < 10 ^ Z.of_nat (length number))%Z.
Proof.
  induction number as [|ch rest IH] using rev_ind; intros H.
  - simpl. unfold decimal_value. simpl. lia.
  - rewrite forallb_app in H. apply andb_true_iff in H as [Hrest Hch].
    simpl in Hch. rewrite andb_true_r in Hch. unfold is_digit in Hch.
    specialize (IH Hrest). unfold decimal_value in *.
    rewrite fold_left_app. cbn [fold_left].
    rewrite length_app, Nat2Z.inj_add. simpl length.
    rewrite Z.pow_add_r by lia. change (10 ^ Z.of_nat 1)%Z with 10%Z. lia.
Qed.

Lemma decimal_value_inj number number' :
  forallb is_digit number = true → forallb is_digit number' = true →
  length number = length number' →
  decimal_value number = decimal_value number' → number = number'.
Proof.
  revert number'. induction number as [|ch rest IH]; intros [|ch' rest'] H H' Hlen E;
    try done.
  cbn [forallb] in H, H'.
  apply andb_true_iff in H as [Hch Hrest]. apply andb_true_iff in H' as [Hch' Hrest'].
  injection Hlen as Hlen.
  unfold decimal_value in E. cbn [fold_left] in E.
  rewrite (decimal_fold_shift rest), (decimal_fold_shift rest'), <- Hlen in E.
  pose proof (decimal_value_lt rest Hrest) as B.
  pose proof (decimal_value_lt rest' Hrest') as B'. rewrite <- Hlen in B'.
  unfold is_digit in Hch, Hch'.
  set (P := (10 ^ Z.of_nat (length rest))%Z) in *.
  set (d := (0 * 10 + (Z.of_N ch - 48))%Z) in *.
  set (d' := (0 * 10 + (Z.of_N ch' - 48))%Z) in *.
  assert (Ed : d = d').
  { destruct (Z.lt_trichotomy d d') as [Hlt|[Heq|Hgt]]; [|done|].
    - assert ((d + 1) * P ≤ d' * P)%Z by (apply Z.mul_le_mono_nonneg_r; lia). lia.
    - assert ((d' + 1) * P ≤ d * P)%Z by (apply Z.mul_le_mono_nonneg_r; lia). lia. }
  rewrite Ed in E. f_equal; [unfold d, d' in Ed; lia|apply IH; try done; lia].
Qed.

(** X8. On a non-empty string of digits [convert_decimal] returns its
    positional value, which is below 10 to the number of digits and is
    not changed by a leading zero; the value of two strings put end to
    end is the first value shifted by the digits of the second plus the
    second value; strings of digits of one length with the same value
    are equal.  On the empty string it raises [ValueError]. *)
Theorem convert_decimal_positional :
  convert_decimal [] = Raise ValueError
  ∧ (∀ number, number ≠ [] →
       Forall (λ ch, ch ∈ charset_of "decimal") number →
       ∃ value,
         convert_decimal number = Normal value
         ∧ (0 ≤ value < 10 ^ Z.of_nat (length number))%Z
         ∧ convert_decimal (ord "0" :: number) = Normal value)
  ∧ (∀ number number' value value',
       convert_decimal number = Normal value →
       convert_decimal number' = Normal value' →
       Forall (λ ch, ch ∈ charset_of "decimal") number →
       Forall (λ ch, ch ∈ charset_of "decimal") number' →
       convert_decimal (number ++ number')
       = Normal (value * 10 ^ Z.of_nat (length number') + value')%Z
       ∧ (length number = length number' → value = value' → number = number')).
Proof.
  repeat apply conj.
  - reflexivity.
  - intros number Hne H.
    apply (Forall_charset _ _ _ elem_of_charset_decimal) in H.
    exists (decimal_value number). repeat apply conj.
    + by apply convert_decimal_spec.
    + by apply decimal_value_lt.
    + by apply decimal_value_lt.
    + by rewrite convert_decimal_spec.
  - intros number number' value value' E E' H H'.
    apply (Forall_charset _ _ _ elem_of_charset_decimal) in H, H'.
    assert (Hne : number ≠ []) by (intros ->; discriminate).
    assert (Hne' : number' ≠ []) by (intros ->; discriminate).
    rewrite convert_decimal_spec in E, E' by done.
    injection E as <-. injection E' as <-. split.
    + rewrite convert_decimal_spec.
      * unfold decimal_value at 1. rewrite fold_left_app.
        by rewrite decimal_fold_shift.
      * by destruct number.
      * by rewrite forallb_app, H, H'.
    + intros Hlen E. by apply decimal_value_inj.
Qed.

Lemma convert_decimal_positional_witness :
  (∃ value,
     convert_decimal (u "42") = Normal value
     ∧ (0 ≤ value < 10 ^ Z.of_nat (length (u "42")))%Z
     ∧ convert_decimal (ord "0" :: u "42") = Normal value)
  ∧ convert_decimal (u "20" ++ u "09") = Normal (20 * 10 ^ Z.of_nat (length (u "09")) + 9)%Z.
Proof.
  destruct convert_decimal_positional as (_ & Hv & Happ). split.
  - apply Hv; [discriminate|].
    apply (Forall_charset _ _ _ elem_of_charset_decimal). reflexivity.
  - apply (Happ (u "20") (u "09") 20%Z 9%Z); try reflexivity;
      apply (Forall_charset _ _ _ elem_of_charset_decimal); reflexivity.
Defined.

(** The decimal numeral of a natural number is a string of digits
    whose value is the number. *)
Lemma string_of_uint_digits d (a : nat) :
  forallb is_digit (u (NilEmpty.string_of_uint d)) = true
  ∧ fold_left (λ acc ch, acc * 10 + (Z.of_N ch - 48))%Z
      (u (NilEmpty.string_of_uint d)) (Z.of_nat a)
    = Z.of_nat (Nat.of_uint_acc d a).
Proof.
  revert a. induction d as [|d IH|d IH|d IH|d IH|d IH|d IH|d IH|d IH|d IH|d IH];
    intros a; [done|..];
    cbn [NilEmpty.string_of_uint Nat.of_uint_acc];
    change (u (String ?c ?s)) with (N_of_ascii c :: u s);
    cbn [forallb fold_left]; rewrite Nat.tail_mul_spec;
    match goal with
    | |- context [Nat.of_uint_acc d ?b] => destruct (IH b) as [Hd Hv]
    end;
    (split; [by rewrite Hd|]); rewrite <- Hv; f_equal;
    change (N_of_ascii ?c) with (ltac:(let x := eval vm_compute in (N_of_ascii c) in exact x));
    lia.
Qed.

Lemma format_d_digits (n : nat) :
  u (format_d n) ≠ [] ∧ forallb is_digit (u (format_d n)) = true
  ∧ decimal_value (u (format_d n)) = Z.of_nat n.
Proof.
  unfold format_d, NilZero.string_of_uint.
  pose proof (to_uint_not_Nil n) as Hnil.
  pose proof (DecimalNat.Unsigned.of_to n) as Hof. unfold Nat.of_uint in Hof.
  destruct (string_of_uint_digits (Nat.to_uint n) 0) as [Hd Hv].
  destruct (Nat.to_uint n) eqn:E; try done;
    (repeat apply conj; [done|exact Hd|unfold decimal_value; by rewrite <- Hof]).
Qed.

(** *** Whitespace *)

Lemma lstrip_app (s t : list N) :
  lstrip (s ++ t) = if forallb isspace s then lstrip t else lstrip s ++ t.
Proof.
  induction s as [|ch rest IH]; [done|]. cbn [app lstrip forallb].
  destruct (isspace ch); [exact IH|done].
Qed.

Lemma lstrip_spaces (s : list N) : forallb isspace s = true → lstrip s = [].
Proof.
  induction s as [|ch rest IH]; [done|]. cbn [forallb lstrip].
  destruct (isspace ch); [exact IH|done].
Qed.

Lemma forallb_rev {A} (p : A → bool) (l : list A) : forallb p (rev l) = forallb p l.
Proof.
  induction l as [|x l IH]; [done|]. simpl. rewrite forallb_app, IH. simpl.
  by rewrite andb_true_r, andb_comm.
Qed.

Lemma rstrip_app_spaces (s ws : list N) :
  forallb isspace ws = true → rstrip (s ++ ws) = rstrip s.
Proof.
  intros H. unfold rstrip. by rewrite rev_app_distr, lstrip_app, forallb_rev, H.
Qed.

Lemma rstrip_nil_spaces (s : list N) : forallb isspace s = true → rstrip s = [].
Proof.
  intros H. unfold rstrip. by rewrite lstrip_spaces by (by rewrite forallb_rev).
Qed.

(** Whitespace around a label does not change what [strip] gives. *)
Lemma strip_padding (ws s ws' : list N) :
  forallb isspace ws = true → forallb isspace ws' = true →
  strip (ws ++ s ++ ws') = strip s.
Proof.
  intros H H'. unfold strip. rewrite lstrip_app, H, lstrip_app.
  destruct (forallb isspace s) eqn:Hs.
  - rewrite (lstrip_spaces s Hs), (lstrip_spaces ws' H'). done.
  - by apply rstrip_app_spaces.
Qed.

Lemma strip_no_space (s : list N) first :
  head s = Some first → isspace first = false →
  (∀ l, last s = Some l → isspace l = false) →
  strip s = s.
Proof.
  intros Hhead Hfirst Hlast. destruct s as [|ch rest]; [done|].
  injection Hhead as ->. unfold strip. cbn [lstrip]. rewrite Hfirst.
  destruct (last_is_Some (first :: rest)) as [_ [l Hl]]; [done|].
  specialize (Hlast l Hl). apply last_Some in Hl as [s' Hs'].
  rewrite Hs'. unfold rstrip. rewrite rev_app_distr. cbn [rev app lstrip].
  rewrite Hlast. change (l :: rev s') with (rev [l] ++ rev s').
  by rewrite <- rev_app_distr, rev_involutive.
Qed.

Lemma digit_not_space ch : is_digit ch = true → isspace ch = false.
Proof. unfold is_digit, isspace. lia. Qed.

Lemma letter_not_space ch : is_letter ch = true → isspace ch = false.
Proof. unfold is_letter, is_lower, is_upper, isspace. lia. Qed.

(** *** More on [listalyze] *)

Lemma pick_names mixed_case d l up m scheme :
  pick mixed_case d l up m = Some scheme →
  reported scheme = "decimal" ∨ reported scheme = "lower-alpha"
  ∨ reported scheme = "upper-alpha".
Proof. destruct mixed_case, d, l, up, m; simpl; intros [= <-]; tauto. Qed.

(** X9. Whatever [listalyze] returns, the value list has one item per
    item of [numbers], the numbering type is [None] or one of
    [decimal], [lower-alpha] and [upper-alpha], and [default_order] is
    false when it is [None]. *)
Theorem listalyze_result_shape numbers require_dot mixed_case numbering_type
    value_list default_order :
  listalyze numbers require_dot mixed_case
  = Return (numbering_type, value_list, default_order) →
  ∃ items,
    py_iter numbers = Some items
    ∧ length value_list = length items
    ∧ (numbering_type = None ∧ default_order = false ∧ value_list = items
       ∨ (numbering_type = Some "decimal" ∨ numbering_type = Some "lower-alpha"
          ∨ numbering_type = Some "upper-alpha")
         ∧ Forall (λ x, ∃ z, x = PyInt z) value_list).
Proof.
  intros H. apply listalyze_returns_inv in H as (items & Hiter & H).
  exists (PyUnicode <$> items). split; [done|].
  destruct (listalyze_unicode_result items require_dot mixed_case)
    as [E|(labels & scheme & Hnorm & Hres & E)]; rewrite E in H.
  - injection H as <- <- <-. split; [done|]. by left.
  - injection H as <- <- <-. split.
    + by rewrite !length_fmap, (normalize_length _ _ _ Hnorm).
    + right. split.
      * destruct (pick_names _ _ _ _ _ _ Hres) as [-> |[-> | ->]]; tauto.
      * apply Forall_fmap, Forall_forall. intros z _. by exists z.
Qed.

Lemma listalyze_result_shape_witness :
  ∃ items,
    py_iter (PyTuple [PyUnicode (u "a."); PyUnicode (u "B.")]) = Some items
    ∧ length [PyInt 1; PyInt 2] = length items
    ∧ (Some "upper-alpha" = None ∧ true = false ∧ [PyInt 1; PyInt 2] = items
       ∨ (Some "upper-alpha" = Some "decimal" ∨ Some "upper-alpha" = Some "lower-alpha"
          ∨ Some "upper-alpha" = Some "upper-alpha")
         ∧ Forall (λ x, ∃ z, x = PyInt z) [PyInt 1; PyInt 2]).
Proof.
  apply (listalyze_result_shape (PyTuple [PyUnicode (u "a."); PyUnicode (u "B.")])
           true true).
  vm_compute. reflexivity.
Defined.

Lemma ordinal_converter mixed_case labels scheme :
  resolve mixed_case labels = Some scheme →
  Forall (λ label, label ≠ []) labels →
  ∃ converter,
    scheme_converters !! scheme = Some converter
    ∧ Forall (λ label, converter label = Normal (ordinal scheme label)) labels.
Proof.
  intros Hres Hne.
  destruct (converter_spec mixed_case labels scheme Hres Hne) as (converter & Hget & Hconv).
  exists converter. split.
  - unfold dict_get in Hget. by destruct (scheme_converters !! scheme) as [c|]; simplify_eq.
  - by apply Forall_forall.
Qed.

Lemma resolve_fits mixed_case labels scheme :
  resolve mixed_case labels = Some scheme →
  scheme ∈ all_scheme_names
  ∧ (scheme = "mixed-alpha" → mixed_case = true)
  ∧ labels ≠ []
  ∧ Forall (λ label, Forall (λ ch, ch ∈ charset_of scheme) label) labels.
Proof.
  intros Hres. unfold resolve in Hres.
  assert (Hlabels : labels ≠ []).
  { intros ->. by destruct mixed_case. }
  assert (Hall : ∀ p name, (∀ ch, ch ∈ charset_of name ↔ p ch = true) →
            all_fit p labels = true →
            Forall (λ label, Forall (λ ch, ch ∈ charset_of name) label) labels).
  { intros p name Hp H. apply Forall_forall. intros label Hin.
    apply (Forall_charset _ _ _ Hp). by eapply all_fit_elem. }
  destruct (pick_fits _ _ _ _ _ _ Hres)
    as [[-> H]|[[-> H]|[[-> H]|(-> & H & -> & _)]]];
    (repeat apply conj;
     [apply elem_of_all_scheme_names; tauto|done|done|]).
  - apply (Hall is_digit); [apply elem_of_charset_decimal|done].
  - apply (Hall is_lower); [apply elem_of_charset_lower|done].
  - apply (Hall is_upper); [apply elem_of_charset_upper|done].
  - apply (Hall is_letter); [apply elem_of_charset_mixed|done].
Qed.

(** X10. When [listalyze] returns a scheme, it is the name, coerced to
    upper case for [mixed-alpha], of a scheme whose character set
    holds every character of every normalized label; the labels are
    not empty, there is at least one, and the values are what the
    converter of [scheme_converters] for that scheme returns on them.
    [mixed-alpha] is only used with [mixed_case]. *)
Theorem listalyze_sound items require_dot mixed_case numbering_type value_list
    default_order :
  listalyze (ulist items) require_dot mixed_case
  = Return (Some numbering_type, value_list, default_order) →
  ∃ labels scheme converter,
    normalize require_dot items = Some labels
    ∧ labels ≠ []
    ∧ scheme_converters !! scheme = Some converter
    ∧ numbering_type = (if String.eqb scheme "mixed-alpha" then "upper-alpha" else scheme)
    ∧ (scheme = "mixed-alpha" → mixed_case = true)
    ∧ Forall (λ label, label ≠ [] ∧ Forall (λ ch, ch ∈ charset_of scheme) label) labels
    ∧ Forall2 (λ label x, ∃ z, converter label = Normal z ∧ x = PyInt z)
        labels value_list.
Proof.
  intros H.
  destruct (listalyze_unicode_result items require_dot mixed_case)
    as [E|(labels & scheme & Hnorm & Hres & E)]; rewrite E in H; [discriminate|].
  injection H as <- <- <-.
  pose proof (normalize_nonempty _ _ _ Hnorm) as Hne.
  destruct (ordinal_converter _ _ _ Hres Hne) as (converter & Hget & Hconv).
  destruct (resolve_fits _ _ _ Hres) as (_ & Hmixed & Hlabels & Hfit).
  exists labels, scheme, converter.
  split; [done|]. split; [done|]. split; [done|]. split; [reflexivity|].
  split; [done|]. split.
  - apply Forall_forall. intros label Hin. split.
    + by apply (proj1 (Forall_forall _ _) Hne).
    + by apply (proj1 (Forall_forall _ _) Hfit).
  - rewrite <- list_fmap_compose. apply Forall2_fmap_r, Forall_Forall2_diag.
    eapply Forall_impl; [exact Hconv|]. intros label Hl. simpl.
    exists (ordinal scheme label). by split.
Qed.

Lemma listalyze_sound_witness :
  ∃ labels scheme converter,
    normalize false [u " iv "; u "X."] = Some labels
    ∧ labels ≠ []
    ∧ scheme_converters !! scheme = Some converter
    ∧ "upper-alpha" = (if String.eqb scheme "mixed-alpha" then "upper-alpha" else scheme)
    ∧ (scheme = "mixed-alpha" → true = true)
    ∧ Forall (λ label, label ≠ [] ∧ Forall (λ ch, ch ∈ charset_of scheme) label) labels
    ∧ Forall2 (λ label x, ∃ z, converter label = Normal z ∧ x = PyInt z)
        labels [PyInt 256; PyInt 24].
Proof.
  apply (listalyze_sound [u " iv "; u "X."] false true "upper-alpha"
           [PyInt 256; PyInt 24] false).
  vm_compute. reflexivity.
Defined.

Lemma resolve_decimal mixed_case labels :
  labels ≠ [] → Forall (λ label, label ≠ []) labels →
  all_fit is_digit labels = true →
  resolve mixed_case labels = Some "decimal".
Proof.
  intros Hlabels Hne Hd. unfold resolve. rewrite Hd.
  rewrite (all_fit_exclusive is_digit is_lower labels), (all_fit_exclusive is_digit is_upper labels);
    try done; intros ch Hch; apply digit_not_letter in Hch;
    unfold is_letter in Hch; by apply orb_false_iff in Hch as [? ?].
Qed.

Lemma resolve_lower mixed_case labels :
  labels ≠ [] → Forall (λ label, label ≠ []) labels →
  all_fit is_lower labels = true →
  resolve mixed_case labels = Some "lower-alpha".
Proof.
  intros Hlabels Hne Hl. unfold resolve. rewrite Hl.
  rewrite (all_fit_exclusive is_lower is_digit labels) by (done || apply lower_not_digit).
  by rewrite (all_fit_exclusive is_lower is_upper labels) by (done || apply lower_not_upper).
Qed.

Lemma resolve_upper mixed_case labels :
  labels ≠ [] → Forall (λ label, label ≠ []) labels →
  all_fit is_upper labels = true →
  resolve mixed_case labels = Some "upper-alpha".
Proof.
  intros Hlabels Hne Hu. unfold resolve. rewrite Hu.
  rewrite (all_fit_exclusive is_upper is_digit labels) by (done || apply upper_not_digit).
  rewrite (all_fit_exclusive is_upper is_lower labels); [done| |done..].
  intros ch. unfold is_upper, is_lower. lia.
Qed.

Lemma all_fit_charset (p : N → bool) name (labels : list (list N)) :
  (∀ ch, ch ∈ charset_of name ↔ p ch = true) →
  Forall (λ label, Forall (λ ch, ch ∈ charset_of name) label) labels →
  all_fit p labels = true.
Proof.
  intros Hp H. unfold all_fit. apply forallb_forall. intros label Hin.
  apply (Forall_charset _ _ _ Hp).
  apply (proj1 (Forall_forall _ _) H). by apply list_elem_of_In.
Qed.

(** X11. Every non-empty input whose normalized labels are all made of
    the characters of [decimal], or all of [lower-alpha], or all of
    [upper-alpha], is recognized as that scheme whatever [mixed_case]
    is, with the values of its converter; with [mixed_case] set, every
    non-empty input whose normalized labels are made of letters is
    recognized. *)
Theorem listalyze_complete :
  (∀ items require_dot mixed_case labels scheme,
     normalize require_dot items = Some labels → labels ≠ [] →
     scheme = "decimal" ∨ scheme = "lower-alpha" ∨ scheme = "upper-alpha" →
     Forall (λ label, Forall (λ ch, ch ∈ charset_of scheme) label) labels →
     ∃ converter value_list default_order,
       scheme_converters !! scheme = Some converter
       ∧ listalyze (ulist items) require_dot mixed_case
         = Return (Some scheme, value_list, default_order)
       ∧ Forall2 (λ label x, ∃ z, converter label = Normal z ∧ x = PyInt z)
           labels value_list)
  ∧ (∀ items require_dot labels,
       normalize require_dot items = Some labels → labels ≠ [] →
       Forall (λ label, Forall (λ ch, ch ∈ charset_of "mixed-alpha") label) labels →
       ∃ scheme value_list default_order,
         listalyze (ulist items) require_dot true
         = Return (Some scheme, value_list, default_order)
         ∧ (scheme = "lower-alpha" ∨ scheme = "upper-alpha")).
Proof.
  split.
  - intros items require_dot mixed_case labels scheme Hnorm Hlabels Hscheme Hfit.
    pose proof (normalize_nonempty _ _ _ Hnorm) as Hne.
    assert (Hres : resolve mixed_case labels = Some scheme).
    { destruct Hscheme as [-> | [-> | ->]].
      - apply resolve_decimal; try done.
        by apply (all_fit_charset _ "decimal" _ elem_of_charset_decimal).
      - apply resolve_lower; try done.
        by apply (all_fit_charset _ "lower-alpha" _ elem_of_charset_lower).
      - apply resolve_upper; try done.
        by apply (all_fit_charset _ "upper-alpha" _ elem_of_charset_upper). }
    destruct (ordinal_converter _ _ _ Hres Hne) as (converter & Hget & Hconv).
    exists converter. eexists _, _. split; [done|]. split.
    + rewrite listalyze_unicode_list, Hnorm, Hres.
      by destruct Hscheme as [-> | [-> | ->]].
    + rewrite <- list_fmap_compose. apply Forall2_fmap_r, Forall_Forall2_diag.
      eapply Forall_impl; [exact Hconv|]. intros label Hl. simpl.
    exists (ordinal scheme label). by split.
  - intros items require_dot labels Hnorm Hlabels Hfit.
    pose proof (normalize_nonempty _ _ _ Hnorm) as Hne.
    apply (all_fit_charset _ "mixed-alpha" _ elem_of_charset_mixed) in Hfit.
    assert (Hd : all_fit is_digit labels = false).
    { destruct (all_fit is_digit labels) eqn:Hd; [|done].
      by rewrite (all_fit_exclusive is_digit is_letter labels) in Hfit
        by (done || apply digit_not_letter). }
    rewrite listalyze_unicode_list, Hnorm. unfold resolve. rewrite Hd, Hfit.
    destruct (all_fit is_lower labels) eqn:Hl.
    + rewrite (all_fit_exclusive is_lower is_upper labels)
        by (done || apply lower_not_upper).
      eexists _, _, _. split; [reflexivity|]. by left.
    + destruct (all_fit is_upper labels);
        (eexists _, _, _; split; [reflexivity|]; by right).
Qed.

Lemma listalyze_complete_witness :
  (∃ converter value_list default_order,
     scheme_converters !! "decimal" = Some converter
     ∧ listalyze (ulist [u "7."; u "08."]) true true
       = Return (Some "decimal", value_list, default_order)
     ∧ Forall2 (λ label x, ∃ z, converter label = Normal z ∧ x = PyInt z)
         [u "7"; u "08"] value_list)
  ∧ (∃ scheme value_list default_order,
       listalyze (ulist [u "McA"; u "b."]) false true
       = Return (Some scheme, value_list, default_order)
       ∧ (scheme = "lower-alpha" ∨ scheme = "upper-alpha")).
Proof.
  destruct listalyze_complete as [Hexact Hmixed]. split.
  - apply (Hexact [u "7."; u "08."] true true [u "7"; u "08"] "decimal").
    + vm_compute. reflexivity.
    + discriminate.
    + by left.
    + repeat constructor; apply elem_of_charset_decimal; reflexivity.
  - apply (Hmixed [u "McA"; u "b."] false [u "McA"; u "b"]).
    + vm_compute. reflexivity.
    + discriminate.
    + repeat constructor; apply elem_of_charset_mixed; reflexivity.
Defined.

Lemma pick_mixed_case d l up m scheme :
  pick false d l up m = Some scheme → pick true d l up m = Some scheme.
Proof. destruct d, l, up, m; simpl; congruence. Qed.

(** X12. Setting [mixed_case] never loses a recognition: what is
    returned with a scheme without [mixed_case] is returned unchanged
    with it, and what is not recognized with it is not recognized
    without it. *)
Theorem mixed_case_only_adds numbers require_dot :
  (∀ scheme value_list default_order,
     listalyze numbers require_dot false
     = Return (Some scheme, value_list, default_order) →
     listalyze numbers require_dot true
     = Return (Some scheme, value_list, default_order))
  ∧ (∀ value_list default_order,
       listalyze numbers require_dot true = Return (None, value_list, default_order) →
       listalyze numbers require_dot false = Return (None, value_list, default_order)).
Proof.
  split.
  - intros scheme value_list default_order H.
    apply listalyze_returns_inv in H as (items & Hiter & H).
    rewrite (listalyze_iterable _ _ _ _ Hiter). fold (ulist items).
    rewrite listalyze_unicode_list in *.
    destruct (normalize require_dot items) as [labels|]; [|done].
    unfold resolve in *.
    destruct (pick false _ _ _ _) as [sch|] eqn:Hpick; [|done].
    by rewrite (pick_mixed_case _ _ _ _ _ Hpick).
  - intros value_list default_order H.
    apply listalyze_returns_inv in H as (items & Hiter & H).
    rewrite (listalyze_iterable _ _ _ _ Hiter). fold (ulist items).
    rewrite listalyze_unicode_list in *.
    destruct (normalize require_dot items) as [labels|]; [|done].
    unfold resolve in *.
    destruct (pick true _ _ _ _) as [sch|] eqn:Htrue; [discriminate|].
    destruct (pick false _ _ _ _) as [sch|] eqn:Hfalse; [|done].
    apply pick_mixed_case in Hfalse. congruence.
Qed.

Lemma mixed_case_only_adds_witness :
  listalyze (ulist [u "a."; u "c."]) true true
  = Return (Some "lower-alpha", [PyInt 1; PyInt 3], false)
  ∧ listalyze (ulist [u "a."; u "1."]) true false
    = Return (None, [PyUnicode (u "a."); PyUnicode (u "1.")], false).
Proof.
  split.
  - apply (proj1 (mixed_case_only_adds (ulist [u "a."; u "c."]) true)).
    vm_compute. reflexivity.
  - apply (proj2 (mixed_case_only_adds (ulist [u "a."; u "1."]) true)).
    vm_compute. reflexivity.
Defined.

Lemma normalize_label_relax number number' :
  normalize_label true number = Some number' →
  normalize_label false number = Some number'.
Proof.
  unfold normalize_label.
  destruct (length number <? 2)%nat eqn:Hlen; [done|]. apply Nat.ltb_ge in Hlen.
  destruct (bool_decide (last number = Some dot)); [|done].
  intros [= <-]. cbv zeta.
  replace (length number <? 1)%nat with false by (symmetry; apply Nat.ltb_ge; lia).
  rewrite bool_decide_eq_false_2; [done|].
  intros E. apply (f_equal length) in E. unfold slice_init in E.
  rewrite length_take in E. simpl in E. lia.
Qed.

Lemma normalize_relax items labels :
  normalize true items = Some labels → normalize false items = Some labels.
Proof.
  unfold normalize. intros H. apply mapM_Some_1 in H. apply mapM_Some_2.
  eapply Forall2_impl; [exact H|]. intros x y. apply normalize_label_relax.
Qed.

(** X13. [require_dot] only rejects: when every trimmed label has at
    least two characters and ends in a dot, the call returns the same
    with [require_dot] as without it; so whatever is recognized with
    [require_dot] is returned unchanged without it. *)
Theorem require_dot_only_rejects :
  (∀ items mixed_case,
     Forall (λ x, (2 ≤ length (strip x))%nat ∧ last (strip x) = Some dot) items →
     listalyze (ulist items) false mixed_case = listalyze (ulist items) true mixed_case)
  ∧ (∀ numbers mixed_case scheme value_list default_order,
       listalyze numbers true mixed_case
       = Return (Some scheme, value_list, default_order) →
       listalyze numbers false mixed_case
       = Return (Some scheme, value_list, default_order)).
Proof.
  split.
  - intros items mixed_case H.
    assert (Hnorm : normalize true items = Some (slice_init <$> (strip <$> items))).
    { unfold normalize. apply mapM_pointwise. apply Forall_fmap.
      eapply Forall_impl; [exact H|]. intros x [Hlen Hlast]. simpl.
      by apply normalize_label_required_Some. }
    rewrite !listalyze_unicode_list.
    by rewrite Hnorm, (normalize_relax _ _ Hnorm).
  - intros numbers mixed_case scheme value_list default_order H.
    apply listalyze_returns_inv in H as (items & Hiter & H).
    rewrite (listalyze_iterable _ _ _ _ Hiter). fold (ulist items).
    rewrite listalyze_unicode_list in *.
    destruct (normalize true items) as [labels|] eqn:Hnorm; [|done].
    by rewrite (normalize_relax _ _ Hnorm).
Qed.

Lemma require_dot_only_rejects_witness :
  listalyze (ulist [u "B."; u " C. "]) false false
  = listalyze (ulist [u "B."; u " C. "]) true false
  ∧ listalyze (ulist [u "B."; u " C. "]) false false
    = Return (Some "upper-alpha", [PyInt 2; PyInt 3], false).
Proof.
  split.
  - apply (proj1 require_dot_only_rejects).
    repeat constructor; vm_compute; lia.
  - apply (proj2 require_dot_only_rejects). vm_compute. reflexivity.
Defined.

(** X14. Leading and trailing whitespace on the numbers is ignored:
    two inputs whose labels differ by whitespace around them get the
    same scheme, values and default order, and are rejected together. *)
Theorem surrounding_whitespace_ignored items items' require_dot mixed_case :
  Forall2 (λ x x', ∃ ws ws', forallb isspace ws = true ∧ forallb isspace ws' = true
                            ∧ x' = ws ++ x ++ ws') items items' →
  (∀ scheme value_list default_order,
     listalyze (ulist items) require_dot mixed_case
     = Return (Some scheme, value_list, default_order)
     ↔ listalyze (ulist items') require_dot mixed_case
       = Return (Some scheme, value_list, default_order))
  ∧ (listalyze (ulist items) require_dot mixed_case
     = Return (None, PyUnicode <$> items, false)
     ↔ listalyze (ulist items') require_dot mixed_case
       = Return (None, PyUnicode <$> items', false)).
Proof.
  intros H.
  assert (Hstrip : strip <$> items = strip <$> items').
  { induction H as [|x x' l l' (ws & ws' & Hws & Hws' & ->) _ IH]; [done|].
    cbn [fmap list_fmap]. rewrite strip_padding by done. by f_equal. }
  assert (Hnorm : normalize require_dot items = normalize require_dot items')
    by (unfold normalize; by rewrite Hstrip).
  rewrite !listalyze_unicode_list, <- Hnorm.
  destruct (normalize require_dot items) as [labels|].
  - destruct (resolve mixed_case labels) as [scheme|]; [|done].
    split; [done|]. split; discriminate.
  - done.
Qed.

Lemma surrounding_whitespace_ignored_witness :
  (∀ scheme value_list default_order,
     listalyze (ulist [u "1."; u "2."]) true false
     = Return (Some scheme, value_list, default_order)
     ↔ listalyze (ulist [u "  1."; u " 2. "]) true false
       = Return (Some scheme, value_list, default_order))
  ∧ (listalyze (ulist [u "1."; u "2."]) true false
     = Return (None, PyUnicode <$> [u "1."; u "2."], false)
     ↔ listalyze (ulist [u "  1."; u " 2. "]) true false
       = Return (None, PyUnicode <$> [u "  1."; u " 2. "], false)).
Proof.
  apply (surrounding_whitespace_ignored [u "1."; u "2."] [u "  1."; u " 2. "] true false).
  constructor; [|constructor; [|constructor]].
  - exists (u "  "), []. repeat split.
  - exists (u " "), (u " "). repeat split.
Defined.

Lemma elem_of_slice_init (s : list N) ch : ch ∈ slice_init s → ch ∈ s.
Proof. unfold slice_init. apply subseteq_take. Qed.

Lemma normalize_label_keeps require_dot number number' ch :
  normalize_label require_dot number = Some number' →
  ch ∈ number → ch ≠ dot ∨ ch ∈ slice_init number → ch ∈ number'.
Proof.
  intros Hnorm Hin Hch.
  assert (Hcases : number' = number ∧ last number ≠ Some dot
                   ∨ number' = slice_init number ∧ last number = Some dot).
  { unfold normalize_label in Hnorm. destruct require_dot.
    - destruct (length number <? 2)%nat; [done|].
      case_bool_decide; [|done]. injection Hnorm as <-. by right.
    - destruct (length number <? 1)%nat; [done|]. cbv zeta in Hnorm.
      destruct (bool_decide (last number = Some dot)) eqn:Hlast.
      + apply bool_decide_eq_true in Hlast.
        destruct (bool_decide (slice_init number = [])); [done|].
        injection Hnorm as <-. by right.
      + apply bool_decide_eq_false in Hlast.
        destruct (bool_decide (number = [])); [done|].
        injection Hnorm as <-. by left. }
  destruct Hcases as [[-> _]|[-> Hlast]]; [done|].
  destruct Hch as [Hne|Hinit]; [|done].
  rewrite (slice_init_dot number Hlast) in Hin.
  apply elem_of_app in Hin as [Hin|Hin]; [done|].
  apply list_elem_of_singleton in Hin. done.
Qed.

(** X15. A character that is neither an ASCII digit nor an ASCII
    letter makes the whole input unrecognized, whatever the flags,
    wherever it stands in a trimmed label, except for a dot at the very
    end: a sign, a bracket, a blank or a dot inside a label, a letter
    outside ASCII. *)
Theorem foreign_character_rejected items require_dot mixed_case x ch :
  x ∈ items → ch ∈ strip x →
  ch ∉ charset_of "decimal" → ch ∉ charset_of "mixed-alpha" →
  ch ≠ dot ∨ ch ∈ slice_init (strip x) →
  listalyze (ulist items) require_dot mixed_case
  = Return (None, PyUnicode <$> items, false).
Proof.
  intros Hx Hch Hd Hm Hpos. rewrite listalyze_unicode_list.
  destruct (normalize require_dot items) as [labels|] eqn:Hnorm; [|done].
  destruct (normalize_elem _ _ _ x Hnorm Hx) as (label & Hlabel & Hnl).
  pose proof (normalize_label_keeps _ _ _ ch Hnl Hch Hpos) as Hin.
  rewrite elem_of_charset_decimal in Hd. rewrite elem_of_charset_mixed in Hm.
  apply not_true_is_false in Hd, Hm.
  assert (Hl : is_lower ch = false)
    by (destruct (is_lower ch) eqn:E; [by rewrite (lower_is_letter _ E) in Hm|done]).
  assert (Hu : is_upper ch = false)
    by (destruct (is_upper ch) eqn:E; [by rewrite (upper_is_letter _ E) in Hm|done]).
  assert (Hnone : ∀ p, p ch = false → all_fit p labels = false).
  { intros p Hp. destruct (all_fit p labels) eqn:E; [|done].
    pose proof (all_fit_elem _ _ _ E Hlabel) as Hfit.
    by rewrite (forallb_false_elem p label ch Hin Hp) in Hfit. }
  unfold resolve. rewrite !Hnone by done. by destruct mixed_case.
Qed.

Lemma foreign_character_rejected_witness :
  listalyze (ulist [u "1."; u "-2."]) true false
  = Return (None, PyUnicode <$> [u "1."; u "-2."], false)
  ∧ listalyze (ulist [u "1.."; u "2."]) false true
    = Return (None, PyUnicode <$> [u "1.."; u "2."], false).
Proof.
  split.
  - apply (foreign_character_rejected [u "1."; u "-2."] true false (u "-2.") (ord "-")).
    + apply list_elem_of_In. simpl. tauto.
    + apply list_elem_of_In. vm_compute. tauto.
    + rewrite elem_of_charset_decimal. discriminate.
    + rewrite elem_of_charset_mixed. discriminate.
    + left. discriminate.
  - apply (foreign_character_rejected [u "1.."; u "2."] false true (u "1..") dot).
    + apply list_elem_of_In. simpl. tauto.
    + apply list_elem_of_In. vm_compute. tauto.
    + rewrite elem_of_charset_decimal. discriminate.
    + rewrite elem_of_charset_mixed. discriminate.
    + right. apply list_elem_of_In. vm_compute. tauto.
Defined.

Lemma in_default_order_counter k n :
  in_default_order k (Z.of_nat <$> seq (S k) n) = true.
Proof.
  revert k. induction n as [|n IH]; intros k; [done|].
  cbn [seq fmap list_fmap in_default_order]. rewrite andb_true_iff. split.
  - apply Z.eqb_eq. lia.
  - apply (IH (S k)).
Qed.

Lemma strip_numeral_dot (i : nat) :
  strip (u (format_d i) ++ [dot]) = u (format_d i) ++ [dot].
Proof.
  destruct (format_d_digits i) as (Hne & Hd & _).
  destruct (u (format_d i)) as [|ch rest] eqn:E; [done|].
  apply (strip_no_space _ ch); [done| |].
  - apply digit_not_space. simpl in Hd. by apply andb_true_iff in Hd as [? _].
  - intros l. rewrite last_snoc. by intros [= <-].
Qed.

Lemma normalize_decimal_counter n :
  normalize true (decimal_counter n) = Some ((λ i, u (format_d i)) <$> seq 1 n).
Proof.
  unfold normalize, decimal_counter. rewrite <- list_fmap_compose.
  apply mapM_Some_2. apply Forall2_fmap, Forall_Forall2_diag, Forall_forall.
  intros i _. unfold compose. cbn beta. rewrite strip_numeral_dot.
  destruct (format_d_digits i) as (Hne & _ & _).
  rewrite normalize_label_required_Some.
  - by rewrite slice_init_snoc.
  - rewrite length_app. simpl. destruct (u (format_d i)); [done|simpl; lia].
  - apply last_snoc.
Qed.

(** X16. The labels [1.], [2.], ..., [n.] of a list numbered by a
    decimal counter, for any [n] from 1 on, are recognized as
    [decimal] with the values 1 to [n] in default order; so are the
    same labels when [require_dot] is off.  [convert_decimal] reads the
    decimal numeral of a number back as that number. *)
Theorem decimal_counter_default_order (n : nat) mixed_case :
  (1 ≤ n)%nat →
  listalyze (ulist (decimal_counter n)) true mixed_case
  = Return (Some "decimal", PyInt <$> (Z.of_nat <$> seq 1 n), true)
  ∧ listalyze (ulist (decimal_counter n)) false mixed_case
    = Return (Some "decimal", PyInt <$> (Z.of_nat <$> seq 1 n), true)
  ∧ ∀ i, convert_decimal (u (format_d i)) = Normal (Z.of_nat i).
Proof.
  intros Hn.
  assert (Hconv : ∀ i, convert_decimal (u (format_d i)) = Normal (Z.of_nat i)).
  { intros i. destruct (format_d_digits i) as (Hne & Hd & Hv).
    by rewrite convert_decimal_spec, Hv. }
  pose proof (normalize_decimal_counter n) as Hnorm.
  set (labels := (λ i, u (format_d i)) <$> seq 1 n) in *.
  assert (Hlabels : labels ≠ []) by (destruct n; [lia|done]).
  assert (Hdigits : all_fit is_digit labels = true).
  { unfold all_fit, labels. apply forallb_forall. intros label Hin.
    apply list_elem_of_In, list_elem_of_fmap in Hin as (i & -> & _).
    by destruct (format_d_digits i) as (_ & Hd & _). }
  assert (Hres : resolve mixed_case labels = Some "decimal")
    by (apply resolve_decimal; eauto using normalize_nonempty).
  assert (Hord : ordinal "decimal" <$> labels = Z.of_nat <$> seq 1 n).
  { unfold labels. rewrite <- list_fmap_compose. apply list_fmap_ext.
    intros _ i _. simpl. by destruct (format_d_digits i) as (_ & _ & Hv). }
  assert (E : listalyze (ulist (decimal_counter n)) true mixed_case
              = Return (Some "decimal", PyInt <$> (Z.of_nat <$> seq 1 n), true)).
  { rewrite listalyze_unicode_list, Hnorm, Hres, Hord.
    by rewrite (in_default_order_counter 0 n). }
  split; [exact E|]. split; [|exact Hconv].
  rewrite listalyze_unicode_list, (normalize_relax _ _ Hnorm), Hres, Hord.
  by rewrite (in_default_order_counter 0 n).
Qed.

Lemma decimal_counter_default_order_witness :
  listalyze (ulist (decimal_counter 12)) true false
  = Return (Some "decimal", PyInt <$> (Z.of_nat <$> seq 1 12), true)
  ∧ listalyze (ulist (decimal_counter 12)) false false
    = Return (Some "decimal", PyInt <$> (Z.of_nat <$> seq 1 12), true)
  ∧ ∀ i, convert_decimal (u (format_d i)) = Normal (Z.of_nat i).
Proof. apply (decimal_counter_default_order 12 false). lia. Defined.

Lemma strip_single_short ch : (length (strip [ch]) < 2)%nat.
Proof.
  unfold strip, rstrip. cbn [lstrip]. destruct (isspace ch) eqn:E; [simpl; lia|].
  cbn [rev app lstrip]. rewrite E. simpl. lia.
Qed.

(** X17. A string passed in place of the list of numbers is iterated
    character by character.  A unicode string is never recognized with
    [require_dot], since every label then has one character: the call
    returns the characters with no scheme.  A byte string that is not
    empty raises the type error for its first character, and the empty
    byte string is returned as an empty list with no scheme. *)
Theorem string_in_place_of_list :
  (∀ s mixed_case,
     listalyze (PyUnicode s) true mixed_case
     = Return (None, (λ ch, PyUnicode [ch]) <$> s, false))
  ∧ (∀ c s require_dot mixed_case,
       listalyze (PyStr (String c s)) require_dot mixed_case
       = Raise (TypeError (not_unicode_message (PyStr (String c EmptyString)) 0)))
  ∧ (∀ require_dot mixed_case,
       listalyze (PyStr EmptyString) require_dot mixed_case = Return (None, [], false)).
Proof.
  repeat apply conj.
  - intros s mixed_case.
    assert (Hiter : py_iter (PyUnicode s) = Some (PyUnicode <$> ((λ ch, [ch]) <$> s)))
      by (simpl; by rewrite <- list_fmap_compose).
    rewrite (listalyze_iterable _ _ _ _ Hiter).
    fold (ulist ((λ ch, [ch]) <$> s)). rewrite listalyze_unicode_list.
    replace ((λ ch, PyUnicode [ch]) <$> s) with (PyUnicode <$> ((λ ch, [ch]) <$> s))
      by (by rewrite <- list_fmap_compose).
    destruct s as [|ch rest]; [by destruct mixed_case|].
    rewrite (normalize_rejects true _ [ch]); [done|by left|].
    apply normalize_label_required_None. left. apply strip_single_short.
  - intros c s require_dot mixed_case.
    rewrite (listalyze_iterable _ ((λ c, PyStr (String c EmptyString))
                                     <$> list_ascii_of_string (String c s)))
      by done.
    cbn [list_ascii_of_string fmap list_fmap].
    by apply (listalyze_not_unicode [] (PyStr (String c EmptyString))).
  - by intros [] [].
Qed.

Lemma mapM_app_inv {A B} (f : A → option B) (l l' : list A) (k : list B) :
  mapM f (l ++ l') = Some k →
  mapM f l = Some (take (length l) k) ∧ mapM f l' = Some (drop (length l) k).
Proof.
  intros H. apply mapM_Some_1 in H.
  apply Forall2_app_inv_l in H as (k1 & k2 & H1 & H2 & ->).
  pose proof (Forall2_length _ _ _ H1) as Hlen.
  rewrite Hlen, take_app_length, drop_app_length.
  split; by apply mapM_Some_2.
Qed.

Lemma all_fit_app (p : N → bool) (l l' : list (list N)) :
  all_fit p (l ++ l') = all_fit p l && all_fit p l'.
Proof. unfold all_fit. apply forallb_app. Qed.

Lemma in_default_order_app k (l l' : list Z) :
  in_default_order k (l ++ l')
  = in_default_order k l && in_default_order (k + length l) l'.
Proof.
  revert k. induction l as [|v l IH]; intros k; cbn [app in_default_order length].
  - by rewrite Nat.add_0_r.
  - rewrite IH, andb_assoc. by rewrite Nat.add_succ_r.
Qed.

Lemma ordinal_mixed_lower label :
  forallb is_lower label = true →
  ordinal "mixed-alpha" label = ordinal "lower-alpha" label.
Proof. intros H. unfold ordinal. simpl. by apply convert_upper_of_lower_from. Qed.

Lemma ordinal_mixed_upper label :
  forallb is_upper label = true →
  ordinal "mixed-alpha" label = ordinal "upper-alpha" label.
Proof.
  intros H. unfold ordinal, convert_mixed_alpha. simpl. by rewrite upper_upper_id.
Qed.

(** The scheme and the ordinals of a part of recognized labels. *)
Lemma resolve_part mixed_case labels part scheme :
  resolve mixed_case labels = Some scheme →
  part ≠ [] → Forall (λ label, label ≠ []) part →
  (∀ p, all_fit p labels = true → all_fit p part = true) →
  ∃ scheme',
    resolve mixed_case part = Some scheme'
    ∧ (reported scheme' = reported scheme
       ∨ mixed_case = true ∧ reported scheme = "upper-alpha"
         ∧ reported scheme' = "lower-alpha")
    ∧ ordinal scheme' <$> part = ordinal scheme <$> part.
Proof.
  intros Hres Hpart Hne Hsub. unfold resolve in Hres.
  destruct (pick_fits _ _ _ _ _ _ Hres)
    as [[-> H]|[[-> H]|[[-> H]|(-> & H & -> & _)]]].
  - exists "decimal". split; [|by split; [left|]].
    apply resolve_decimal; auto.
  - exists "lower-alpha". split; [|by split; [left|]].
    apply resolve_lower; auto.
  - exists "upper-alpha". split; [|by split; [left|]].
    apply resolve_upper; auto.
  - apply Hsub in H.
    destruct (all_fit is_lower part) eqn:Hl; [|destruct (all_fit is_upper part) eqn:Hu].
    + exists "lower-alpha". split; [by apply resolve_lower|].
      split; [by right|].
      apply Forall_fmap_ext_1, Forall_forall. intros label Hin. symmetry.
      apply ordinal_mixed_lower. by eapply all_fit_elem.
    + exists "upper-alpha". split; [by apply resolve_upper|].
      split; [by left|].
      apply Forall_fmap_ext_1, Forall_forall. intros label Hin. symmetry.
      apply ordinal_mixed_upper. by eapply all_fit_elem.
    + exists "mixed-alpha". split; [|by split; [left|]].
      unfold resolve. rewrite Hl, Hu, H.
      rewrite (all_fit_exclusive is_letter is_digit part); try done.
      intros ch Hch. destruct (is_digit ch) eqn:E; [|done].
      apply digit_not_letter in E. congruence.
Qed.

Lemma all_fit_app_l (p : N → bool) (l l' : list (list N)) :
  all_fit p (l ++ l') = true → all_fit p l = true.
Proof. rewrite all_fit_app. by intros [? ?]%andb_true_iff. Qed.

Lemma all_fit_app_r (p : N → bool) (l l' : list (list N)) :
  all_fit p (l ++ l') = true → all_fit p l' = true.
Proof. rewrite all_fit_app. by intros [? ?]%andb_true_iff. Qed.

Lemma normalize_app require_dot items items' labels :
  normalize require_dot (items ++ items') = Some labels →
  normalize require_dot items = Some (take (length items) labels)
  ∧ normalize require_dot items' = Some (drop (length items) labels).
Proof.
  unfold normalize. rewrite fmap_app. intros H.
  apply mapM_app_inv in H. by rewrite length_fmap in H.
Qed.

(** X18. The parts of a recognized list are recognized.  When the
    call on [items ++ items'] returns a scheme, the call on [items],
    if there is an item, returns the first values of that result, in
    default order when the whole list is; and the call on [items'], if
    there is an item, returns the other values.  The name is the same,
    except that a part of a list of both cases, reported as
    upper-alpha with [mixed_case], can be lower-alpha. *)
Theorem parts_of_recognized_list items items' require_dot mixed_case
    numbering_type value_list default_order :
  listalyze (ulist (items ++ items')) require_dot mixed_case
  = Return (Some numbering_type, value_list, default_order) →
  (items ≠ [] →
   ∃ numbering_type' default_order',
     listalyze (ulist items) require_dot mixed_case
     = Return (Some numbering_type', take (length items) value_list, default_order')
     ∧ (default_order = true → default_order' = true)
     ∧ (numbering_type' = numbering_type
        ∨ mixed_case = true ∧ numbering_type = "upper-alpha"
          ∧ numbering_type' = "lower-alpha"))
  ∧ (items' ≠ [] →
     ∃ numbering_type' default_order',
       listalyze (ulist items') require_dot mixed_case
       = Return (Some numbering_type', drop (length items) value_list, default_order')
       ∧ (numbering_type' = numbering_type
          ∨ mixed_case = true ∧ numbering_type = "upper-alpha"
            ∧ numbering_type' = "lower-alpha")).
Proof.
  rewrite listalyze_unicode_list.
  destruct (normalize require_dot (items ++ items')) as [labels|] eqn:Hnorm; [|done].
  destruct (resolve mixed_case labels) as [scheme|] eqn:Hres; [|done].
  intros [= <- <- <-].
  destruct (normalize_app _ _ _ _ Hnorm) as [Hn Hn'].
  pose proof (normalize_length _ _ _ Hnorm) as Hlen. rewrite length_app in Hlen.
  assert (Hsplit : labels = take (length items) labels ++ drop (length items) labels)
    by (by rewrite take_drop).
  split; intros Hitems.
  - destruct (resolve_part mixed_case labels (take (length items) labels) scheme)
      as (scheme' & Hres' & Hname & Hord); try done.
    + intros E. apply (f_equal length) in E. rewrite length_take in E.
      destruct items; [done|]. cbn [length] in *. lia.
    + by eapply normalize_nonempty.
    + intros p. rewrite Hsplit at 1. apply all_fit_app_l.
    + exists (reported scheme'), (in_default_order 0 (ordinal scheme' <$> take (length items) labels)).
      rewrite listalyze_unicode_list, Hn, Hres', Hord, <- !fmap_take.
      split; [done|]. split; [|done].
      rewrite Hsplit at 1. rewrite fmap_app, in_default_order_app.
      by intros [? ?]%andb_true_iff.
  - destruct (resolve_part mixed_case labels (drop (length items) labels) scheme)
      as (scheme' & Hres' & Hname & Hord); try done.
    + intros E. apply (f_equal length) in E. rewrite length_drop in E.
      destruct items'; [done|]. cbn [length] in *. lia.
    + by eapply normalize_nonempty.
    + intros p. rewrite Hsplit at 1. apply all_fit_app_r.
    + exists (reported scheme'), (in_default_order 0 (ordinal scheme' <$> drop (length items) labels)).
      rewrite listalyze_unicode_list, Hn', Hres', Hord, <- !fmap_drop.
      by split.
Qed.

Lemma parts_of_recognized_list_witness :
  (∃ numbering_type' default_order',
     listalyze (ulist [u "a."; u "b."]) true true
     = Return (Some numbering_type', take 2 [PyInt 1; PyInt 2; PyInt 3; PyInt 5],
               default_order')
     ∧ (false = true → default_order' = true)
     ∧ (numbering_type' = "upper-alpha"
        ∨ true = true ∧ "upper-alpha" = "upper-alpha"
          ∧ numbering_type' = "lower-alpha"))
  ∧ (∃ numbering_type' default_order',
       listalyze (ulist [u "C."; u "e."]) true true
       = Return (Some numbering_type', drop 2 [PyInt 1; PyInt 2; PyInt 3; PyInt 5],
                 default_order')
       ∧ (numbering_type' = "upper-alpha"
          ∨ true = true ∧ "upper-alpha" = "upper-alpha"
            ∧ numbering_type' = "lower-alpha")).
Proof.
  destruct (parts_of_recognized_list [u "a."; u "b."] [u "C."; u "e."] true true
              "upper-alpha" [PyInt 1; PyInt 2; PyInt 3; PyInt 5] false) as [H H'].
  - vm_compute. reflexivity.
  - split; [by apply H|by apply H'].
Defined.

(** *** Upper-casing the input *)

Lemma isspace_upper_char ch : isspace (upper_char ch) = isspace ch.
Proof.
  unfold upper_char.
  destruct ((97 <=? ch)%N && (ch <=? 122)%N) eqn:E; [|done].
  unfold isspace. lia.
Qed.

Lemma upper_char_dot ch : upper_char ch = dot ↔ ch = dot.
Proof.
  unfold upper_char, dot.
  destruct ((97 <=? ch)%N && (ch <=? 122)%N) eqn:E; [|done].
  change (ord ".") with 46%N. lia.
Qed.

Lemma is_digit_upper_char ch : is_digit (upper_char ch) = is_digit ch.
Proof.
  unfold upper_char, is_digit.
  destruct ((97 <=? ch)%N && (ch <=? 122)%N) eqn:E; [lia|done].
Qed.

Lemma is_upper_upper_char ch : is_upper (upper_char ch) = is_letter ch.
Proof.
  unfold upper_char, is_letter, is_lower, is_upper.
  destruct ((97 <=? ch)%N && (ch <=? 122)%N) eqn:E; [lia|done].
Qed.

Lemma lstrip_upper s : lstrip (upper s) = upper (lstrip s).
Proof.
  induction s as [|ch rest IH]; [done|].
  change (upper (ch :: rest)) with (upper_char ch :: upper rest).
  cbn [lstrip]. rewrite isspace_upper_char.
  by destruct (isspace ch).
Qed.

Lemma upper_rev s : upper (rev s) = rev (upper s).
Proof.
  induction s as [|ch rest IH]; [done|].
  change (upper (ch :: rest)) with (upper_char ch :: upper rest).
  cbn [rev]. unfold upper in *. by rewrite fmap_app, IH.
Qed.

Lemma strip_upper s : strip (upper s) = upper (strip s).
Proof.
  unfold strip, rstrip.
  by rewrite lstrip_upper, <- upper_rev, lstrip_upper, upper_rev.
Qed.

Lemma last_upper s : last (upper s) = upper_char <$> last s.
Proof. unfold upper. apply fmap_last. Qed.

Lemma slice_init_upper s : slice_init (upper s) = upper (slice_init s).
Proof. unfold slice_init, upper. by rewrite length_fmap, fmap_take. Qed.

Lemma last_upper_dot s : last (upper s) = Some dot ↔ last s = Some dot.
Proof.
  rewrite last_upper. destruct (last s) as [ch|]; simpl; [|done].
  split; intros [= H]; f_equal; by apply upper_char_dot.
Qed.

Lemma normalize_label_upper require_dot number :
  normalize_label require_dot (upper number)
  = upper <$> normalize_label require_dot number.
Proof.
  unfold normalize_label.
  replace (length (upper number)) with (length number)
    by (unfold upper; by rewrite length_fmap).
  rewrite (bool_decide_ext _ _ (last_upper_dot number)), slice_init_upper.
  destruct require_dot.
  - destruct (length number <? 2)%nat; [done|]. by case_bool_decide.
  - destruct (length number <? 1)%nat; [done|].
    assert (Hnil : ∀ s, bool_decide (upper s = []) = bool_decide (s = [])).
    { intros s. apply bool_decide_ext. unfold upper. split; [apply fmap_nil_inv|by intros ->]. }
    destruct (bool_decide (last number = Some dot)); rewrite Hnil;
      by case_bool_decide.
Qed.

Lemma normalize_upper require_dot (items : list (list N)) :
  normalize require_dot (upper <$> items)
  = (λ labels : list (list N), upper <$> labels) <$> normalize require_dot items.
Proof.
  unfold normalize. induction items as [|s items IH]; [done|].
  cbn [fmap list_fmap] in *. cbn [mapM].
  rewrite strip_upper, normalize_label_upper.
  destruct (normalize_label require_dot (strip s)) as [label|]; [|done].
  cbn. rewrite IH.
  by destruct (mapM (normalize_label require_dot) (strip <$> items)).
Qed.

Lemma all_fit_upper (p q : N → bool) (labels : list (list N)) :
  (∀ ch, p (upper_char ch) = q ch) →
  all_fit p (upper <$> labels) = all_fit q labels.
Proof.
  intros Hpq. unfold all_fit. induction labels as [|label labels IH]; [done|].
  cbn [fmap list_fmap forallb] in *. rewrite IH. f_equal.
  unfold upper. induction label as [|ch label IH']; [done|].
  cbn [fmap list_fmap forallb] in *. by rewrite IH', Hpq.
Qed.

Lemma ordinal_upper scheme label :
  scheme ∈ all_scheme_names →
  forallb (fit_of scheme) label = true →
  ordinal (if bool_decide (scheme = "decimal") then "decimal" else "upper-alpha")
    (upper label)
  = ordinal scheme label.
Proof.
  intros Hin Hfit. apply elem_of_all_scheme_names in Hin.
  destruct Hin as [-> | [-> | [-> | ->]]]; cbn in Hfit |- *.
  - f_equal. unfold upper. rewrite <- (list_fmap_id label) at 2.
    apply Forall_fmap_ext_1, Forall_forall. intros ch Hch.
    rewrite forallb_forall in Hfit. apply list_elem_of_In, Hfit in Hch.
    unfold upper_char. unfold is_digit in Hch.
    destruct ((97 <=? ch)%N && (ch <=? 122)%N) eqn:E; [lia|done].
  - by apply convert_upper_of_lower_from.
  - by rewrite upper_upper_id.
  - done.
Qed.

Lemma upper_labels_nonempty (labels : list (list N)) :
  Forall (λ label, label ≠ []) labels →
  Forall (λ label, label ≠ []) (upper <$> labels).
Proof.
  intros H. apply Forall_fmap. eapply Forall_impl; [exact H|].
  intros label Hne E. by apply fmap_nil_inv in E.
Qed.

Lemma resolve_upper_case mixed_case mixed_case' labels scheme :
  resolve mixed_case labels = Some scheme →
  Forall (λ label, label ≠ []) labels →
  let scheme' := if bool_decide (scheme = "decimal") then "decimal" else "upper-alpha" in
  resolve mixed_case' (upper <$> labels) = Some scheme'
  ∧ ordinal scheme' <$> (upper <$> labels) = ordinal scheme <$> labels.
Proof.
  intros Hres Hne scheme'.
  destruct (resolve_fits _ _ _ Hres) as (Hin & _ & Hlabels & _).
  assert (Hlabels' : upper <$> labels ≠ []) by (by intros E%fmap_nil_inv).
  pose proof (upper_labels_nonempty _ Hne) as Hne'.
  assert (Hord : ∀ p, scheme ∈ all_scheme_names → p = fit_of scheme →
            all_fit p labels = true →
            ordinal scheme' <$> (upper <$> labels) = ordinal scheme <$> labels).
  { intros p _ -> Hfit. rewrite <- list_fmap_compose.
    apply Forall_fmap_ext_1, Forall_forall. intros label Hl. simpl.
    apply ordinal_upper; [done|]. by eapply all_fit_elem. }
  assert (Hup : all_fit is_letter labels = true →
            resolve mixed_case' (upper <$> labels) = Some "upper-alpha").
  { intros H. apply resolve_upper; try done.
    by rewrite (all_fit_upper is_upper is_letter) by apply is_upper_upper_char. }
  unfold resolve in Hres.
  destruct (pick_fits _ _ _ _ _ _ Hres)
    as [[-> H]|[[-> H]|[[-> H]|(-> & H & _)]]]; subst scheme'; cbn in *.
  - split; [|by apply (Hord is_digit)].
    apply resolve_decimal; try done.
    by rewrite (all_fit_upper is_digit is_digit) by apply is_digit_upper_char.
  - split; [|by apply (Hord is_lower)].
    apply Hup. revert H. apply all_fit_weaken, lower_is_letter.
  - split; [|by apply (Hord is_upper)].
    apply Hup. revert H. apply all_fit_weaken, upper_is_letter.
  - split; [by apply Hup|by apply (Hord is_letter)].
Qed.

(** X19. Upper-casing the input.  When a call returns a scheme, the
    call on the items in upper case ([s.upper()], as line 58 does it)
    returns the same values and the same [default_order], whatever
    [mixed_case] is, under the name decimal if the scheme was decimal
    and upper-alpha otherwise. *)
Theorem upper_case_input items require_dot mixed_case mixed_case'
    numbering_type value_list default_order :
  listalyze (ulist items) require_dot mixed_case
  = Return (Some numbering_type, value_list, default_order) →
  listalyze (ulist (upper <$> items)) require_dot mixed_case'
  = Return (Some (if bool_decide (numbering_type = "decimal")
                  then "decimal" else "upper-alpha"),
            value_list, default_order).
Proof.
  rewrite !listalyze_unicode_list, normalize_upper.
  destruct (normalize require_dot items) as [labels|] eqn:Hnorm; [|done].
  destruct (resolve mixed_case labels) as [scheme|] eqn:Hres; [|done].
  intros [= <- <- <-]. cbn [fmap option_fmap option_map].
  destruct (resolve_upper_case mixed_case mixed_case' labels scheme Hres
              (normalize_nonempty _ _ _ Hnorm)) as [-> ->].
  destruct (resolve_fits _ _ _ Hres) as (Hin & _).
  apply elem_of_all_scheme_names in Hin.
  by destruct Hin as [-> | [-> | [-> | ->]]].
Qed.

Lemma upper_case_input_witness :
  listalyze (ulist (upper <$> [u " y."; u "Z."; u "aa."])) true false
  = Return (Some (if bool_decide ("upper-alpha" = "decimal")
                  then "decimal" else "upper-alpha"),
            [PyInt 25; PyInt 26; PyInt 27], false).
Proof.
  apply (upper_case_input [u " y."; u "Z."; u "aa."] true true false "upper-alpha").
  vm_compute. reflexivity.
Defined.

(** *** The order of the items *)

Lemma mapM_Permutation {A B} (f : A → option B) (l l' : list A) (k : list B) :
  l ≡ₚ l' → mapM f l = Some k → ∃ k', mapM f l' = Some k' ∧ k ≡ₚ k'.
Proof.
  intros Hperm H. apply mapM_Some_1 in H.
  destruct (Permutation_Forall2 Hperm H) as (k' & Hk & H').
  exists k'. split; [by apply mapM_Some_2|done].
Qed.

Lemma all_fit_Permutation (p : N → bool) (l l' : list (list N)) :
  l ≡ₚ l' → all_fit p l = all_fit p l'.
Proof.
  intros Hperm. unfold all_fit.
  induction Hperm as [|x l l' _ IH|x y l|l l' l'' _ IH _ IH']; cbn [forallb].
  - done.
  - by rewrite IH.
  - by rewrite !andb_assoc, (andb_comm (forallb p y)).
  - by rewrite IH.
Qed.

Lemma normalize_Permutation require_dot items items' labels :
  items ≡ₚ items' → normalize require_dot items = Some labels →
  ∃ labels', normalize require_dot items' = Some labels' ∧ labels ≡ₚ labels'.
Proof.
  intros Hperm. unfold normalize. apply mapM_Permutation.
  by apply fmap_Permutation.
Qed.

(** X20. The scheme does not depend on the order of the items.  When
    a call returns a scheme, the call on the same items in any other
    order returns the same scheme and the same values up to their
    order; and when a call recognizes no scheme, neither does the call
    on the items in another order. *)
Theorem item_order_irrelevant items items' require_dot mixed_case :
  items ≡ₚ items' →
  (∀ numbering_type value_list default_order,
     listalyze (ulist items) require_dot mixed_case
     = Return (Some numbering_type, value_list, default_order) →
     ∃ value_list' default_order',
       listalyze (ulist items') require_dot mixed_case
       = Return (Some numbering_type, value_list', default_order')
       ∧ value_list ≡ₚ value_list')
  ∧ (listalyze (ulist items) require_dot mixed_case
     = Return (None, PyUnicode <$> items, false) →
     listalyze (ulist items') require_dot mixed_case
     = Return (None, PyUnicode <$> items', false)).
Proof.
  intros Hperm.
  assert (Hfwd : ∀ l l' labels scheme, l ≡ₚ l' →
            normalize require_dot l = Some labels →
            resolve mixed_case labels = Some scheme →
            ∃ labels', normalize require_dot l' = Some labels' ∧ labels ≡ₚ labels'
                       ∧ resolve mixed_case labels' = Some scheme).
  { intros l l' labels scheme Hp Hn Hr.
    destruct (normalize_Permutation _ _ _ _ Hp Hn) as (labels' & Hn' & Hl).
    exists labels'. repeat split; try done.
    unfold resolve in *. by rewrite <- !(all_fit_Permutation _ _ _ Hl). }
  split.
  - intros numbering_type value_list default_order.
    rewrite !listalyze_unicode_list.
    destruct (normalize require_dot items) as [labels|] eqn:Hnorm; [|done].
    destruct (resolve mixed_case labels) as [scheme|] eqn:Hres; [|done].
    intros [= <- <- <-].
    destruct (Hfwd _ _ _ _ Hperm Hnorm Hres) as (labels' & -> & Hl & ->).
    eexists _, _. split; [done|]. by do 2 apply fmap_Permutation.
  - rewrite !listalyze_unicode_list.
    destruct (normalize require_dot items') as [labels'|] eqn:Hnorm'; [|done].
    destruct (resolve mixed_case labels') as [scheme|] eqn:Hres'; [|done].
    symmetry in Hperm.
    destruct (Hfwd _ _ _ _ Hperm Hnorm' Hres') as (labels & -> & Hl & ->).
    discriminate.
Qed.

Lemma item_order_irrelevant_witness :
  (∃ value_list' default_order',
     listalyze (ulist [u "a."; u "b."; u "c."]) true false
     = Return (Some "lower-alpha", value_list', default_order')
     ∧ [PyInt 2; PyInt 1; PyInt 3] ≡ₚ value_list')
  ∧ listalyze (ulist [u "1."; u "a."]) true false
    = Return (None, PyUnicode <$> [u "1."; u "a."], false).
Proof.
  split.
  - apply (proj1 (item_order_irrelevant [u "b."; u "a."; u "c."]
                    [u "a."; u "b."; u "c."] true false (perm_swap _ _ _))
             "lower-alpha" [PyInt 2; PyInt 1; PyInt 3] false).
    vm_compute. reflexivity.
  - apply (proj2 (item_order_irrelevant [u "a."; u "1."] [u "1."; u "a."]
                    true false (perm_swap _ _ _))).
    vm_compute. reflexivity.
Defined.
